(** * Blender anatomy scripts: a shallow embedding

    The repository holds four Python scripts that run inside Blender
    ([blender --background --python ...]):

    - [scripts/blender/build_custom_anatomy.py]
    - [scripts/blender/generate_anatomy_procedural.py]
    - [scripts/blender/import_bodyparts3d.py]
    - [scripts/create_morph_targets.py]

    Each script is embedded in a module of its own.  Python floats are
    modelled by exact rationals ([Q]); Python strings by [string]; the
    host scene is an explicit store threaded through a small
    state/log/exception monad. *)

From Stdlib Require Import Ascii String QArith Qabs.
From stdpp Require Import gmap strings list fin_maps.

Local Open Scope string_scope.
Local Open Scope list_scope.

(** ** Python values shared by the scripts *)

(** Exceptions the scripts can meet. [SystemExit] is what [sys.exit] raises. *)
Inductive exn :=
| ValueError
| KeyError (key : string)
| AttributeError (attr : string)
| ReferenceError (attr : string)
| RuntimeError (op : string)
| IndexError (i : nat)
| ZeroDivisionError
| TypeError
| SystemExit (code : Z).

Inductive res (A : Type) :=
| Ok (a : A)
| Raise (e : exn).
Arguments Ok {A} a.
Arguments Raise {A} e.

Definition res_bind {A B} (r : res A) (f : A -> res B) : res B :=
  match r with
  | Ok a => f a
  | Raise e => Raise e
  end.

Module PyStr.

  (** [s.lstrip('#')]: every leading occurrence of the character goes. *)
Fixpoint lstrip (c : ascii) (s : string) : string :=
    match s with
    | String a s' => if Ascii.eqb a c then lstrip c s' else s
    | EmptyString => s
    end.

  (** [s[i:i+n]] for non-negative [i]: clamped at the end of the string. *)
Definition slice (i n : nat) (s : string) : string := substring i n s.

  (** Value of a character as a digit below 36, as [int] reads it. *)
Definition digit_value (c : ascii) : option Z :=
    let n := Z.of_nat (nat_of_ascii c) in
    if (48 <=? n)%Z && (n <=? 57)%Z then Some (n - 48)%Z
    else if (97 <=? n)%Z && (n <=? 122)%Z then Some (n - 87)%Z
    else if (65 <=? n)%Z && (n <=? 90)%Z then Some (n - 55)%Z
    else None.

Definition hex_value (c : ascii) : option Z :=
    match digit_value c with
    | Some v => if (v <? 16)%Z then Some v else None
    | None => None
    end.

  (** White space [int] skips around the number.  A character is a code
      point below 256: tab, line feed, vertical tab, form feed, carriage
      return and space count, and so do next-line (133) and no-break
      space (160); the separators 28 to 31 do not. *)
Definition is_space (c : ascii) : bool :=
    let n := nat_of_ascii c in
    (((9 <=? n) && (n <=? 13)) || (n =? 32) || (n =? 133) || (n =? 160))%nat.

Fixpoint skip_space (s : string) : string :=
    match s with
    | String a s' => if is_space a then skip_space s' else s
    | EmptyString => s
    end.

Fixpoint all_space (s : string) : bool :=
    match s with
    | String a s' => is_space a && all_space s'
    | EmptyString => true
    end.

  (** The digit loop of [int(s, 16)]: digits with single underscores
      between them, then only white space.  [prev_us] says the previous
      character was an underscore, [seen] that a digit was read. *)
Fixpoint hex_digits (s : string) (acc : Z) (prev_us seen : bool) : option Z :=
    match s with
    | EmptyString => if prev_us || negb seen then None else Some acc
    | String a s' =>
        if Ascii.eqb a "_"%char then
          if prev_us then None else hex_digits s' acc true seen
        else
          match hex_value a with
          | Some v => hex_digits s' (16 * acc + v)%Z false true
          | None =>
              if prev_us || negb seen then None
              else if all_space s then Some acc else None
          end
    end.

  (** [s.endswith(suffix)] *)
Definition endswith (suffix s : string) : bool :=
    (String.length suffix <=? String.length s)%nat &&
    String.eqb (substring (String.length s - String.length suffix) (String.length suffix) s) suffix.

  (** [s.lower()], on the letters A to Z *)
Definition lower_char (c : ascii) : ascii :=
    let n := nat_of_ascii c in
    if ((65 <=? n) && (n <=? 90))%nat then ascii_of_nat (n + 32) else c.

Fixpoint lower (s : string) : string :=
    match s with
    | String a s' => String (lower_char a) (lower s')
    | EmptyString => EmptyString
    end.

  (** The number [int(s, 16)] reads: white space, an optional sign, an
      optional [0x] prefix (one underscore may follow it), the digits. *)
Definition parse16 (s : string) : option Z :=
    let s1 := skip_space s in
    let '(neg, s2) :=
      match s1 with
      | String "+"%char r => (false, r)
      | String "-"%char r => (true, r)
      | _ => (false, s1)
      end in
    let s3 :=
      match s2 with
      | String "0"%char (String "x"%char r)
      | String "0"%char (String "X"%char r) =>
          match r with
          | String "_"%char r' => r'
          | _ => r
          end
      | _ => s2
      end in
    match s3 with
    | String "_"%char _ => None
    | _ =>
        match hex_digits s3 0 false false with
        | Some v => Some (if neg then (- v)%Z else v)
        | None => None
        end
    end.

  (** [int(s, 16)]: a [ValueError] when the text is not a number. *)
Definition int16 (s : string) : res Z :=
    match parse16 s with
    | Some v => Ok v
    | None => Raise ValueError
    end.

End PyStr.

Module PyList.
  (** [x in l] and [l.index(x)] for lists of strings *)
Definition contains (x : string) (l : list string) : bool := existsb (String.eqb x) l.

Fixpoint index (x : string) (l : list string) : option nat :=
    match l with
    | [] => None
    | y :: l' => if String.eqb y x then Some 0%nat else S <$> index x l'
    end.
End PyList.

Module PyDict.
  (** [d[k] = v] on an insertion-ordered dictionary: an existing key keeps
      its place. *)
Definition set {V} (k : string) (v : V) (d : list (string * V)) : list (string * V) :=
    if existsb (fun p => String.eqb p.1 k) d
    then map (fun p => if String.eqb p.1 k then (k, v) else p) d
    else d ++ [(k, v)].
End PyDict.

(** A colour triple, components in the order red, green, blue. *)
Definition rgb : Type := Q * Q * Q.

(** ** The host: Blender's scene, as far as the scripts touch it *)

Definition vec3 : Type := Q * Q * Q.
Definition path : Type := list string.

(** Values passed to the host: keyword arguments, attribute values,
    custom properties. *)
Inductive arg :=
| AStr (s : string)
| AInt (n : Z)
| ANum (q : Q)
| ABool (b : bool)
| AVec (v : vec3)
| AColor (c : rgb) (alpha : Q)
| APath (p : path)
| ARef (id : nat)
| AList (ids : list nat).

(** A piece of a printed line: literal text or an interpolated value. *)
Inductive frag :=
| Txt (s : string)
| Val (a : arg).

(** What a run leaves behind, in order: console lines, host calls with
    their keyword arguments, attribute and custom-property assignments on
    host data (by handle), directory creation. *)
Inductive event :=
| Print (line : list frag)
| Op (name : string) (kwargs : list (string * arg))
| Assign (target : nat) (attr : string) (v : arg)
| SetProp (target : nat) (key : string) (v : arg)
| Mkdir (p : path).

Record mesh := {
  verts : list vec3;      (* data.vertices[i].co *)
  polygons : Z            (* len(data.polygons) *)
}.

Record modifier := {
  md_name : string;
  md_type : string;
  md_levels : nat;
  md_render_levels : nat;
  md_ratio : Q;
  md_triangulate : bool
}.

Record shape_key := {
  sk_name : string;
  sk_data : list vec3
}.

Record object := {
  ob_name : string;
  ob_type : string;                     (* 'MESH', 'CURVE', ... *)
  ob_data : mesh;
  ob_scale : vec3;
  ob_location : vec3;
  ob_props : gmap string arg;           (* obj[key] *)
  ob_materials : list nat;              (* obj.data.materials *)
  ob_modifiers : list modifier;
  ob_shape_keys : list shape_key;
  ob_vertex_groups : list (string * list nat);
  ob_hidden : bool
}.

(** A material's node tree: the inputs of its Principled BSDF node when it
    has one, whether it has an output node, whether the two are linked. *)
Record material := {
  mat_name : string;
  mat_tree : bool;                      (* node_tree is not None *)
  mat_bsdf : option (gmap string arg);
  mat_output : bool;
  mat_linked : bool;
  mat_blend : string
}.

Record scene := {
  objects : gmap nat object;            (* bpy.data.objects, by handle *)
  materials : gmap nat material;        (* bpy.data.materials, by handle *)
  next_id : nat;                        (* next fresh handle *)
  active : option nat;                  (* bpy.context.active_object *)
  selected : list nat;                  (* bpy.context.selected_objects *)
  linked : list nat;                    (* bpy.context.scene.collection.objects *)
  edit_mode : list nat                  (* the objects that are in edit mode *)
}.

(** Geometry operators the host owns; the scripts only pick their
    arguments. *)
Inductive mesh_op :=
| ApplyScale (s : vec3)
| Subsurf (levels : nat)
| Decimate (ratio : Q) (triangulate : bool)
| Bisect (plane_co plane_no : vec3) (clear_inner : bool)
| RemoveDoubles (threshold : Q)
| NormalsConsistent (inside : bool)
| DeleteLoose
| SetBevelDepth (d : Q)
| SetResolutionU (n : Z)
| CurveToMesh
| ShadeSmooth.

(** Everything that is decided by the host process or the machine, not by
    the scripts. *)
Record Host := {
  script_file : path;                                   (* __file__ *)
  principled_inputs : gmap string arg;                  (* inputs of a new Principled BSDF node *)
  default_nodes : bool;                                 (* a new material has a node tree at once (use_nodes on by default) *)
  context_is_scene_collection : bool;                   (* new objects are linked to the scene's own collection *)
  primitive_mesh : string -> list (string * arg) -> mesh;
  primitive_name : string -> string;
  run_mesh_op : mesh_op -> mesh -> mesh;
  path_exists : path -> bool;
  obj_file : path -> list (string * mesh);              (* objects an OBJ file holds *)
  blend_file : path -> list object;                     (* objects of a .blend library *)
  list_dir : path -> list string;                       (* entries of a directory *)
  file_size : path -> Z;
  gltf_export : list (string * arg) -> scene -> res unit (* what the glTF exporter makes of a call *)
}.

(** ** The monad of a script run: scene state, log, exceptions *)

Definition M (A : Type) : Type := scene -> res A * scene * list event.

Definition ret {A} (a : A) : M A := fun s => (Ok a, s, []).

Definition bind {A B} (m : M A) (f : A -> M B) : M B :=
  fun s =>
    match m s with
    | (Ok a, s1, l1) =>
        match f a s1 with
        | (r, s2, l2) => (r, s2, l1 ++ l2)
        end
    | (Raise e, s1, l1) => (Raise e, s1, l1)
    end.

Definition raise {A} (e : exn) : M A := fun s => (Raise e, s, []).
Definition emit (e : event) : M unit := fun s => (Ok tt, s, [e]).
Definition get : M scene := fun s => (Ok s, s, []).
Definition modify (f : scene -> scene) : M unit := fun s => (Ok tt, f s, []).
Definition lift {A} (r : res A) : M A := fun s => (r, s, []).

(** [try: body / except: pass]: a bare [except] catches every exception,
    [SystemExit] included; what the body did before raising stays done. *)
Definition try_pass (body : M unit) : M unit :=
  fun s =>
    match body s with
    | (Ok _, s1, l1) => (Ok tt, s1, l1)
    | (Raise _, s1, l1) => (Ok tt, s1, l1)
    end.

Declare Scope py_scope.
Delimit Scope py_scope with py.
Notation "x <- m ;; k" := (bind m (fun x => k))
  (at level 100, m at next level, right associativity) : py_scope.
Notation "m ;;; k" := (bind m (fun _ => k))
  (at level 100, right associativity) : py_scope.
Local Open Scope py_scope.

Definition when (b : bool) (m : M unit) : M unit := if b then m else ret tt.

(** [for x in xs: body x] *)
Fixpoint for_each {A} (xs : list A) (body : A -> M unit) : M unit :=
  match xs with
  | [] => ret tt
  | x :: xs' => body x ;;; for_each xs' body
  end.

(** A loop that carries an accumulator (a counter, a list being built). *)
Fixpoint for_fold {A B} (xs : list A) (acc : B) (body : B -> A -> M B) : M B :=
  match xs with
  | [] => ret acc
  | x :: xs' => acc' <- body acc x ;; for_fold xs' acc' body
  end.

Definition print (line : list frag) : M unit := emit (Print line).

(** ["=" * n] *)
Fixpoint rule (n : nat) : string :=
  match n with
  | O => EmptyString
  | S n' => String "="%char (rule n')
  end.

(** [sys.exit(code)] *)
Definition sys_exit {A} (code : Z) : M A := raise (SystemExit code).

Module PyPath.
  (** POSIX paths, kept as [Path.parts]: the root first when there is one,
      then the components. *)

  (** A component that counts: neither empty nor [.]. *)
Definition counts (c : string) : bool := negb (String.eqb c "" || String.eqb c ".").

  (** The components between slashes. *)
Fixpoint split (s : string) (cur : string) : list string :=
    match s with
    | EmptyString => if counts cur then [cur] else []
    | String c s' =>
        if Ascii.eqb c "/"%char
        then (if counts cur then cur :: split s' "" else split s' "")
        else split s' (cur ++ String c EmptyString)%string
    end.

  (** The root of a text: [//] for exactly two leading slashes, [/] for
      one or for more than two. *)
Definition root (s : string) : list string :=
    match s with
    | String "/"%char (String "/"%char (String "/"%char _)) => ["/"]
    | String "/"%char (String "/"%char _) => ["//"]
    | String "/"%char _ => ["/"]
    | _ => []
    end.

  (** [Path(s)] *)
Definition of_string (s : string) : path := root s ++ split s "".

Definition is_root (c : string) : bool := String.eqb c "/" || String.eqb c "//".

Definition is_absolute (p : path) : bool :=
    match p with
    | c :: _ => is_root c
    | [] => false
    end.

  (** [p.parent]: the root is its own parent. *)
Definition parent (p : path) : path :=
    match p with
    | [c] => if is_root c then p else []
    | _ => removelast p
    end.

  (** [p / q]: an absolute right-hand side replaces the left one. *)
Definition div (p q : path) : path := if is_absolute q then q else p ++ q.

  (** [p / "a/b/c"], the right-hand side a literal given by its components *)
Definition join (p : path) (rel : list string) : path := p ++ rel.
End PyPath.

(** ** The host API the scripts call *)

Definition vec_one : vec3 := (1, 1, 1)%Q.
Definition vec_zero : vec3 := (0, 0, 0)%Q.

Definition set_name (v : string) (o : object) : object :=
  {| ob_name := v; ob_type := ob_type o; ob_data := ob_data o;
     ob_scale := ob_scale o; ob_location := ob_location o;
     ob_props := ob_props o; ob_materials := ob_materials o;
     ob_modifiers := ob_modifiers o; ob_shape_keys := ob_shape_keys o;
     ob_vertex_groups := ob_vertex_groups o; ob_hidden := ob_hidden o |}.

Definition set_type (v : string) (o : object) : object :=
  {| ob_name := ob_name o; ob_type := v; ob_data := ob_data o;
     ob_scale := ob_scale o; ob_location := ob_location o;
     ob_props := ob_props o; ob_materials := ob_materials o;
     ob_modifiers := ob_modifiers o; ob_shape_keys := ob_shape_keys o;
     ob_vertex_groups := ob_vertex_groups o; ob_hidden := ob_hidden o |}.

Definition set_data (v : mesh) (o : object) : object :=
  {| ob_name := ob_name o; ob_type := ob_type o; ob_data := v;
     ob_scale := ob_scale o; ob_location := ob_location o;
     ob_props := ob_props o; ob_materials := ob_materials o;
     ob_modifiers := ob_modifiers o; ob_shape_keys := ob_shape_keys o;
     ob_vertex_groups := ob_vertex_groups o; ob_hidden := ob_hidden o |}.

Definition set_scale (v : vec3) (o : object) : object :=
  {| ob_name := ob_name o; ob_type := ob_type o; ob_data := ob_data o;
     ob_scale := v; ob_location := ob_location o;
     ob_props := ob_props o; ob_materials := ob_materials o;
     ob_modifiers := ob_modifiers o; ob_shape_keys := ob_shape_keys o;
     ob_vertex_groups := ob_vertex_groups o; ob_hidden := ob_hidden o |}.

Definition set_location (v : vec3) (o : object) : object :=
  {| ob_name := ob_name o; ob_type := ob_type o; ob_data := ob_data o;
     ob_scale := ob_scale o; ob_location := v;
     ob_props := ob_props o; ob_materials := ob_materials o;
     ob_modifiers := ob_modifiers o; ob_shape_keys := ob_shape_keys o;
     ob_vertex_groups := ob_vertex_groups o; ob_hidden := ob_hidden o |}.

Definition set_props (v : gmap string arg) (o : object) : object :=
  {| ob_name := ob_name o; ob_type := ob_type o; ob_data := ob_data o;
     ob_scale := ob_scale o; ob_location := ob_location o;
     ob_props := v; ob_materials := ob_materials o;
     ob_modifiers := ob_modifiers o; ob_shape_keys := ob_shape_keys o;
     ob_vertex_groups := ob_vertex_groups o; ob_hidden := ob_hidden o |}.

Definition set_materials (v : list nat) (o : object) : object :=
  {| ob_name := ob_name o; ob_type := ob_type o; ob_data := ob_data o;
     ob_scale := ob_scale o; ob_location := ob_location o;
     ob_props := ob_props o; ob_materials := v;
     ob_modifiers := ob_modifiers o; ob_shape_keys := ob_shape_keys o;
     ob_vertex_groups := ob_vertex_groups o; ob_hidden := ob_hidden o |}.

Definition set_modifiers (v : list modifier) (o : object) : object :=
  {| ob_name := ob_name o; ob_type := ob_type o; ob_data := ob_data o;
     ob_scale := ob_scale o; ob_location := ob_location o;
     ob_props := ob_props o; ob_materials := ob_materials o;
     ob_modifiers := v; ob_shape_keys := ob_shape_keys o;
     ob_vertex_groups := ob_vertex_groups o; ob_hidden := ob_hidden o |}.

Definition set_shape_keys (v : list shape_key) (o : object) : object :=
  {| ob_name := ob_name o; ob_type := ob_type o; ob_data := ob_data o;
     ob_scale := ob_scale o; ob_location := ob_location o;
     ob_props := ob_props o; ob_materials := ob_materials o;
     ob_modifiers := ob_modifiers o; ob_shape_keys := v;
     ob_vertex_groups := ob_vertex_groups o; ob_hidden := ob_hidden o |}.

Definition set_vertex_groups (v : list (string * list nat)) (o : object) : object :=
  {| ob_name := ob_name o; ob_type := ob_type o; ob_data := ob_data o;
     ob_scale := ob_scale o; ob_location := ob_location o;
     ob_props := ob_props o; ob_materials := ob_materials o;
     ob_modifiers := ob_modifiers o; ob_shape_keys := ob_shape_keys o;
     ob_vertex_groups := v; ob_hidden := ob_hidden o |}.

Definition set_hidden (v : bool) (o : object) : object :=
  {| ob_name := ob_name o; ob_type := ob_type o; ob_data := ob_data o;
     ob_scale := ob_scale o; ob_location := ob_location o;
     ob_props := ob_props o; ob_materials := ob_materials o;
     ob_modifiers := ob_modifiers o; ob_shape_keys := ob_shape_keys o;
     ob_vertex_groups := ob_vertex_groups o; ob_hidden := v |}.

Definition with_objects (f : gmap nat object -> gmap nat object) (s : scene) : scene :=
  {| objects := f (objects s); materials := materials s; next_id := next_id s;
     active := active s; selected := selected s; linked := linked s;
     edit_mode := edit_mode s |}.

Definition with_materials (f : gmap nat material -> gmap nat material) (s : scene) : scene :=
  {| objects := objects s; materials := f (materials s); next_id := next_id s;
     active := active s; selected := selected s; linked := linked s;
     edit_mode := edit_mode s |}.

Definition with_active (a : option nat) (s : scene) : scene :=
  {| objects := objects s; materials := materials s; next_id := next_id s;
     active := a; selected := selected s; linked := linked s;
     edit_mode := edit_mode s |}.

Definition with_selected (l : list nat) (s : scene) : scene :=
  {| objects := objects s; materials := materials s; next_id := next_id s;
     active := active s; selected := l; linked := linked s;
     edit_mode := edit_mode s |}.

Definition with_linked (l : list nat) (s : scene) : scene :=
  {| objects := objects s; materials := materials s; next_id := next_id s;
     active := active s; selected := selected s; linked := l;
     edit_mode := edit_mode s |}.

Definition with_edit_mode (l : list nat) (s : scene) : scene :=
  {| objects := objects s; materials := materials s; next_id := next_id s;
     active := active s; selected := selected s; linked := linked s;
     edit_mode := l |}.

Definition with_next_id (n : nat) (s : scene) : scene :=
  {| objects := objects s; materials := materials s; next_id := n;
     active := active s; selected := selected s; linked := linked s;
     edit_mode := edit_mode s |}.

Definition empty_scene : scene :=
  {| objects := ∅; materials := ∅; next_id := 0; active := None; selected := [];
     linked := []; edit_mode := [] |}.

Definition member (x : nat) (l : list nat) : bool := existsb (Nat.eqb x) l.

Module Bpy.
Section WithHost.
Context (host : Host).

  (** A Python reference to an object: [None], or a handle.  Using a
      reference that is [None] or whose object is gone raises. *)
Definition deref (o : option nat) (attr : string) : M (nat * object) :=
    fun s =>
      match o with
      | Some id =>
          match objects s !! id with
          | Some ob => (Ok (id, ob), s, [])
          | None => (Raise (ReferenceError attr), s, [])
          end
      | None => (Raise (AttributeError attr), s, [])
      end.

Definition update (id : nat) (f : object -> object) : M unit :=
    modify (with_objects (alter f id)).

  (** [bpy.context.active_object] *)
Definition active_object : M (option nat) := fun s => (Ok (active s), s, []).

  (** [bpy.context.view_layer.objects.active = obj] *)
Definition set_active (o : option nat) : M unit :=
    modify (with_active o) ;;;
    emit (Op "view_layer.objects.active" (match o with Some id => [("value", ARef id)] | None => [] end)).

  (** [bpy.ops.object.select_all(action=...)]: hidden objects are left alone. *)
Definition ops_object_select_all (action : string) : M unit :=
    modify (fun s =>
      with_selected
        (if String.eqb action "SELECT"
         then (filter (fun p => ob_hidden p.2 = false) (map_to_list (objects s))).*1
         else []) s) ;;;
    emit (Op "object.select_all" [("action", AStr action)]).

  (** [bpy.ops.object.delete(...)]: the selected objects go. *)
Definition ops_object_delete (kwargs : list (string * arg)) : M unit :=
    modify (fun s =>
      let gone := selected s in
      with_selected []
        (with_active
           (match active s with
            | Some a => if member a gone then None else Some a
            | None => None
            end)
           (with_objects (filter (fun p => member p.1 gone = false)) s))) ;;;
    emit (Op "object.delete" kwargs).

  (** [obj.select_set(True)] *)
Definition select_set (o : option nat) : M unit :=
    p <- deref o "select_set" ;;
    modify (fun s => with_selected (p.1 :: selected s) s) ;;;
    emit (Op "object.select_set" [("object", ARef p.1); ("state", ABool true)]).

Definition kw_location (kwargs : list (string * arg)) : vec3 :=
    match list_find (fun p => p.1 = "location") kwargs with
    | Some (_, (_, AVec v)) => v
    | _ => vec_zero
    end.

  (** A primitive-creation operator ([bpy.ops.mesh.primitive_*_add],
      [bpy.ops.curve.primitive_bezier_curve_add]): a new object, which
      becomes the active and the only selected one. *)
Definition add_primitive (op ty : string) (kwargs : list (string * arg)) : M unit :=
    modify (fun s =>
      let id := next_id s in
      with_selected [id] (with_active (Some id) (with_next_id (S id)
        (with_linked (if context_is_scene_collection host then linked s ++ [id] else linked s)
        (with_objects
           (insert id
              {| ob_name := primitive_name host op; ob_type := ty;
                 ob_data := primitive_mesh host op kwargs;
                 ob_scale := vec_one; ob_location := kw_location kwargs;
                 ob_props := ∅; ob_materials := []; ob_modifiers := [];
                 ob_shape_keys := []; ob_vertex_groups := [];
                 ob_hidden := false |}) s))))) ;;;
    emit (Op op kwargs).

  (** [obj.name = v], [obj.scale = v], [obj.location = v] *)
Definition assign_name (o : option nat) (v : string) : M unit :=
    p <- deref o "name" ;;
    update p.1 (set_name v) ;;;
    emit (Assign p.1 "name" (AStr v)).

Definition assign_scale (o : option nat) (v : vec3) : M unit :=
    p <- deref o "scale" ;;
    update p.1 (set_scale v) ;;;
    emit (Assign p.1 "scale" (AVec v)).

Definition assign_location (o : option nat) (v : vec3) : M unit :=
    p <- deref o "location" ;;
    update p.1 (set_location v) ;;;
    emit (Assign p.1 "location" (AVec v)).

Definition assign_hidden (o : option nat) : M unit :=
    p <- deref o "hide_viewport" ;;
    update p.1 (set_hidden true) ;;;
    emit (Assign p.1 "hide_viewport" (ABool true)) ;;;
    emit (Assign p.1 "hide_render" (ABool true)).

  (** [obj[key] = v] *)
Definition set_item (o : option nat) (key : string) (v : arg) : M unit :=
    p <- deref o "__setitem__" ;;
    update p.1 (fun ob => set_props (<[key := v]> (ob_props ob)) ob) ;;;
    emit (SetProp p.1 key v).

  (** [obj.type] and [len(obj.data.polygons)] *)
Definition obj_type (o : option nat) : M string :=
    p <- deref o "type" ;; ret (ob_type p.2).

Definition polygon_count (o : option nat) : M Z :=
    p <- deref o "data" ;; ret (polygons (ob_data p.2)).

  (** Run one of the host's geometry operators on an object. *)
Definition reshape (id : nat) (op : mesh_op) : M unit :=
    update id (fun ob => set_data (run_mesh_op host op (ob_data ob)) ob).

  (** The operators below work on the active object and fail without one. *)
Definition need_active (op : string) : M (nat * object) :=
    fun s =>
      match active s with
      | Some id =>
          match objects s !! id with
          | Some ob => (Ok (id, ob), s, [])
          | None => (Raise (RuntimeError op), s, [])
          end
      | None => (Raise (RuntimeError op), s, [])
      end.

  (** Operators that act on every selected object. *)
Definition update_selected (f : object -> object) : M unit :=
    modify (fun s => with_objects (fun m => foldr (alter f) m (selected s)) s).

  (** [bpy.ops.object.transform_apply(scale=True)] *)
Definition ops_transform_apply_scale : M unit :=
    update_selected (fun ob =>
      set_scale vec_one (set_data (run_mesh_op host (ApplyScale (ob_scale ob)) (ob_data ob)) ob)) ;;;
    emit (Op "object.transform_apply" [("scale", ABool true)]).

  (** [bpy.ops.object.shade_smooth()] *)
Definition ops_shade_smooth : M unit :=
    update_selected (fun ob => set_data (run_mesh_op host ShadeSmooth (ob_data ob)) ob) ;;;
    emit (Op "object.shade_smooth" []).

  (** [bpy.ops.object.mode_set(mode=...)]: with ['EDIT'] the active object
      and the selected objects of its type enter edit mode; with another
      mode no object is left in it. *)
Definition ops_mode_set (mode : string) : M unit :=
    p <- need_active "object.mode_set" ;;
    modify (fun s =>
      with_edit_mode
        (if String.eqb mode "EDIT"
         then p.1 :: filter (fun i => match objects s !! i with
                                      | Some ob => String.eqb (ob_type ob) (ob_type p.2)
                                      | None => false
                                      end = true) (selected s)
         else []) s) ;;;
    emit (Op "object.mode_set" [("mode", AStr mode)]).

  (** [bpy.ops.mesh.select_all(action=...)], in edit mode *)
Definition ops_mesh_select_all (action : string) : M unit :=
    emit (Op "mesh.select_all" [("action", AStr action)]).

  (** An edit-mode mesh operator on the active object. *)
Definition ops_mesh_edit (name : string) (kwargs : list (string * arg)) (op : mesh_op) : M unit :=
    p <- need_active name ;;
    reshape p.1 op ;;;
    emit (Op name kwargs).

  (** [obj.modifiers.new(name=..., type=...)] and the attributes set on the
      modifier it returns; a modifier is referred to by its object and name. *)
Definition modifiers_new (o : option nat) (name type : string) : M (nat * string) :=
    p <- deref o "modifiers" ;;
    update p.1 (fun ob =>
      set_modifiers (ob_modifiers ob ++
        [{| md_name := name; md_type := type; md_levels := 1; md_render_levels := 2;
            md_ratio := 1; md_triangulate := false |}]) ob) ;;;
    emit (Op "modifiers.new" [("object", ARef p.1); ("name", AStr name); ("type", AStr type)]) ;;;
    ret (p.1, name).

Definition update_modifier (md : nat * string) (f : modifier -> modifier) : M unit :=
    update md.1 (fun ob =>
      set_modifiers
        (map (fun m => if String.eqb (md_name m) md.2 then f m else m) (ob_modifiers ob)) ob).

Definition assign_levels (md : nat * string) (n : nat) : M unit :=
    update_modifier md (fun m =>
      {| md_name := md_name m; md_type := md_type m; md_levels := n;
         md_render_levels := md_render_levels m; md_ratio := md_ratio m;
         md_triangulate := md_triangulate m |}) ;;;
    emit (Assign md.1 (md.2 ++ ".levels")%string (AInt (Z.of_nat n))).

Definition assign_render_levels (md : nat * string) (n : nat) : M unit :=
    update_modifier md (fun m =>
      {| md_name := md_name m; md_type := md_type m; md_levels := md_levels m;
         md_render_levels := n; md_ratio := md_ratio m;
         md_triangulate := md_triangulate m |}) ;;;
    emit (Assign md.1 (md.2 ++ ".render_levels")%string (AInt (Z.of_nat n))).

Definition assign_ratio (md : nat * string) (r : Q) : M unit :=
    update_modifier md (fun m =>
      {| md_name := md_name m; md_type := md_type m; md_levels := md_levels m;
         md_render_levels := md_render_levels m; md_ratio := r;
         md_triangulate := md_triangulate m |}) ;;;
    emit (Assign md.1 (md.2 ++ ".ratio")%string (ANum r)).

Definition assign_triangulate (md : nat * string) (b : bool) : M unit :=
    update_modifier md (fun m =>
      {| md_name := md_name m; md_type := md_type m; md_levels := md_levels m;
         md_render_levels := md_render_levels m; md_ratio := md_ratio m;
         md_triangulate := b |}) ;;;
    emit (Assign md.1 (md.2 ++ ".use_collapse_triangulate")%string (ABool b)).

Definition modifier_op (m : modifier) : option mesh_op :=
    if String.eqb (md_type m) "SUBSURF" then Some (Subsurf (md_levels m))
    else if String.eqb (md_type m) "DECIMATE" then Some (Decimate (md_ratio m) (md_triangulate m))
    else None.

  (** [bpy.ops.object.modifier_apply(modifier=name)]: the named modifier
      of the active object is baked into its mesh and leaves the stack. *)
Definition ops_modifier_apply (name : string) : M unit :=
    p <- need_active "object.modifier_apply" ;;
    match list_find (fun m => md_name m = name) (ob_modifiers p.2) with
    | Some (_, m) =>
        match modifier_op m with
        | Some op =>
            update p.1 (fun ob =>
              set_modifiers (filter (fun m' => md_name m' <> name) (ob_modifiers ob))
                (set_data (run_mesh_op host op (ob_data ob)) ob)) ;;;
            emit (Op "object.modifier_apply" [("modifier", AStr name)])
        | None => raise (RuntimeError "object.modifier_apply")
        end
    | None => raise (RuntimeError "object.modifier_apply")
    end.

  (** [curve.data.bevel_depth = d], [curve.data.resolution_u = n] *)
Definition assign_bevel_depth (o : option nat) (d : Q) : M unit :=
    p <- deref o "data" ;;
    reshape p.1 (SetBevelDepth d) ;;;
    emit (Assign p.1 "data.bevel_depth" (ANum d)).

Definition assign_resolution_u (o : option nat) (n : Z) : M unit :=
    p <- deref o "data" ;;
    reshape p.1 (SetResolutionU n) ;;;
    emit (Assign p.1 "data.resolution_u" (AInt n)).

  (** [bpy.ops.object.convert(target='MESH')], on the active object *)
Definition ops_convert_mesh : M unit :=
    _ <- need_active "object.convert" ;;
    update_selected (fun ob =>
      set_type "MESH" (set_data (run_mesh_op host CurveToMesh (ob_data ob)) ob)) ;;;
    emit (Op "object.convert" [("target", AStr "MESH")]).

  (** *** Materials *)

  (** [bpy.data.materials.new(name=...)] *)
Definition materials_new (name : string) : M nat :=
    s <- get ;;
    let id := next_id s in
    modify (fun s =>
      with_next_id (S id)
        (with_materials
           (insert id
              {| mat_name := name;
                 mat_tree := default_nodes host;
                 mat_bsdf := if default_nodes host then Some (principled_inputs host) else None;
                 mat_output := default_nodes host;
                 mat_linked := default_nodes host;
                 mat_blend := "OPAQUE" |}) s)) ;;;
    emit (Op "materials.new" [("name", AStr name)]) ;;;
    ret id.

Definition mat_deref (id : nat) (attr : string) : M material :=
    fun s =>
      match materials s !! id with
      | Some m => (Ok m, s, [])
      | None => (Raise (ReferenceError attr), s, [])
      end.

Definition mat_update (id : nat) (f : material -> material) : M unit :=
    modify (with_materials (alter f id)).

  (** [mat.use_nodes = True]: a material without a tree gets the default one. *)
Definition assign_use_nodes (id : nat) : M unit :=
    _ <- mat_deref id "use_nodes" ;;
    mat_update id (fun m =>
      if mat_tree m then m
      else {| mat_name := mat_name m; mat_tree := true;
              mat_bsdf := Some (principled_inputs host);
              mat_output := true; mat_linked := true; mat_blend := mat_blend m |}) ;;;
    emit (Assign id "use_nodes" (ABool true)).

  (** [mat.node_tree.nodes]: [node_tree] is [None] for a material
      without nodes, and [None.nodes] raises. *)
Definition node_tree_nodes (id : nat) : M unit :=
    m <- mat_deref id "node_tree" ;;
    if mat_tree m then ret tt else raise (AttributeError "nodes").

  (** [nodes.clear()] *)
Definition nodes_clear (id : nat) : M unit :=
    mat_update id (fun m =>
      {| mat_name := mat_name m; mat_tree := mat_tree m; mat_bsdf := None;
         mat_output := false; mat_linked := false; mat_blend := mat_blend m |}) ;;;
    emit (Op "nodes.clear" [("material", ARef id)]).

  (** [nodes.new(type='ShaderNodeBsdfPrincipled')] *)
Definition nodes_new_bsdf (id : nat) : M unit :=
    mat_update id (fun m =>
      {| mat_name := mat_name m; mat_tree := mat_tree m;
         mat_bsdf := Some (principled_inputs host);
         mat_output := mat_output m; mat_linked := mat_linked m;
         mat_blend := mat_blend m |}) ;;;
    emit (Op "nodes.new" [("material", ARef id); ("type", AStr "ShaderNodeBsdfPrincipled")]).

  (** [nodes.new(type='ShaderNodeOutputMaterial')] *)
Definition nodes_new_output (id : nat) : M unit :=
    mat_update id (fun m =>
      {| mat_name := mat_name m; mat_tree := mat_tree m; mat_bsdf := mat_bsdf m;
         mat_output := true; mat_linked := mat_linked m; mat_blend := mat_blend m |}) ;;;
    emit (Op "nodes.new" [("material", ARef id); ("type", AStr "ShaderNodeOutputMaterial")]).

  (** [nodes.get('Principled BSDF')]: the node, when the tree has it. *)
Definition nodes_get_bsdf (id : nat) : M bool :=
    m <- mat_deref id "node_tree" ;;
    ret (bool_decide (is_Some (mat_bsdf m))).

  (** [key in bsdf.inputs] *)
Definition input_has (id : nat) (key : string) : M bool :=
    m <- mat_deref id "inputs" ;;
    match mat_bsdf m with
    | Some ins => ret (bool_decide (is_Some (ins !! key)))
    | None => raise (ReferenceError "inputs")
    end.

  (** [bsdf.inputs[key].default_value = v]: a [KeyError] when the node has
      no input of that name. *)
Definition input_set (id : nat) (key : string) (v : arg) : M unit :=
    m <- mat_deref id "inputs" ;;
    match mat_bsdf m with
    | Some ins =>
        match ins !! key with
        | Some _ =>
            mat_update id (fun m =>
              {| mat_name := mat_name m; mat_tree := mat_tree m;
                 mat_bsdf := Some (<[key := v]> ins);
                 mat_output := mat_output m; mat_linked := mat_linked m;
                 mat_blend := mat_blend m |}) ;;;
            emit (Assign id ("inputs." ++ key)%string v)
        | None => raise (KeyError key)
        end
    | None => raise (ReferenceError "inputs")
    end.

  (** [mat.node_tree.links.new(bsdf.outputs['BSDF'], output.inputs['Surface'])] *)
Definition links_new (id : nat) : M unit :=
    mat_update id (fun m =>
      {| mat_name := mat_name m; mat_tree := mat_tree m; mat_bsdf := mat_bsdf m;
         mat_output := mat_output m; mat_linked := true; mat_blend := mat_blend m |}) ;;;
    emit (Op "links.new" [("material", ARef id)]).

  (** [mat.blend_method = v] *)
Definition assign_blend (id : nat) (v : string) : M unit :=
    _ <- mat_deref id "blend_method" ;;
    mat_update id (fun m =>
      {| mat_name := mat_name m; mat_tree := mat_tree m; mat_bsdf := mat_bsdf m;
         mat_output := mat_output m; mat_linked := mat_linked m; mat_blend := v |}) ;;;
    emit (Assign id "blend_method" (AStr v)).

  (** [for block in bpy.data.materials: if block.users == 0:
         bpy.data.materials.remove(block)] *)
Definition purge_orphan_materials : M unit :=
    s <- get ;;
    let used := mjoin (ob_materials <$> (map_to_list (objects s)).*2) in
    let orphans := filter (fun i => member i used = false) (map_to_list (materials s)).*1 in
    for_each orphans (fun i =>
      modify (with_materials (delete i)) ;;;
      emit (Op "materials.remove" [("material", ARef i)])).

  (** [obj.data.materials.append(mat)] *)
Definition materials_append (o : option nat) (mat : nat) : M unit :=
    p <- deref o "data" ;;
    update p.1 (fun ob => set_materials (ob_materials ob ++ [mat]) ob) ;;;
    emit (Op "materials.append" [("object", ARef p.1); ("material", ARef mat)]).

  (** [obj.data.materials[0] = mat] *)
Definition materials_set0 (o : option nat) (mat : nat) : M unit :=
    p <- deref o "data" ;;
    update p.1 (fun ob => set_materials (<[0%nat := mat]> (ob_materials ob)) ob) ;;;
    emit (Op "materials.__setitem__" [("object", ARef p.1); ("index", AInt 0); ("material", ARef mat)]).

  (** [obj.data.materials], read *)
Definition materials_of (o : option nat) : M (list nat) :=
    p <- deref o "data" ;; ret (ob_materials p.2).

  (** *** Files, import and export *)

  (** [p.exists()] *)
Definition exists_ (p : path) : M bool := ret (path_exists host p).

  (** [list(p.glob("*.obj"))] *)
Definition glob_obj (p : path) : M (list string) :=
    ret (filter (fun n => PyStr.endswith ".obj" n = true) (list_dir host p)).

  (** [p.mkdir(parents=True, exist_ok=True)] *)
Definition mkdir (p : path) : M unit := emit (Mkdir p).

  (** [p.stat().st_size], [os.path.getsize(p)] *)
Definition getsize (p : path) : M Z := ret (file_size host p).

  (** [bpy.ops.export_scene.gltf(...)], with the keyword arguments given.
      The call is logged; what the operator makes of it is the host's: it
      returns once the file is written, or it raises (a keyword it does not
      know, a file it cannot write). *)
Definition ops_export_gltf (kwargs : list (string * arg)) : M unit :=
    emit (Op "export_scene.gltf" kwargs) ;;;
    s <- get ;;
    lift (gltf_export host kwargs s).

Definition link_new (ids : list nat) (s : scene) : scene :=
    with_linked (if context_is_scene_collection host then linked s ++ ids else linked s) s.

  (** Put the objects of a file into the store, under fresh handles. *)
Fixpoint add_objects (obs : list object) (s : scene) : scene * list nat :=
    match obs with
    | [] => (s, [])
    | ob :: rest =>
        let id := next_id s in
        let '(s', ids) := add_objects rest (with_next_id (S id) (with_objects (insert id ob) s)) in
        (s', id :: ids)
    end.

Definition mesh_object (nm : string * mesh) : object :=
    {| ob_name := nm.1; ob_type := "MESH"; ob_data := nm.2;
       ob_scale := vec_one; ob_location := vec_zero;
       ob_props := ∅; ob_materials := []; ob_modifiers := [];
       ob_shape_keys := []; ob_vertex_groups := []; ob_hidden := false |}.

  (** [bpy.ops.import_scene.obj(filepath=...)]: the file's objects are
      added and are the selection afterwards. *)
Definition ops_import_obj (p : path) : M unit :=
    modify (fun s =>
      let '(s', ids) := add_objects (mesh_object <$> obj_file host p) s in
      with_selected ids (link_new ids s')) ;;;
    emit (Op "import_scene.obj" [("filepath", APath p)]).

  (** [bpy.context.selected_objects] *)
Definition selected_objects : M (list nat) := fun s => (Ok (selected s), s, []).

  (** [with bpy.data.libraries.load(path, link=False) as (data_from, data_to):
         data_to.objects = [obj for obj in data_from.objects if obj]]
      The objects of the library, loaded but not yet linked to the scene. *)
Definition libraries_load (p : path) : M (list nat) :=
    s <- get ;;
    let '(s', ids) := add_objects (blend_file host p) s in
    modify (fun _ => s') ;;;
    emit (Op "libraries.load" [("filepath", APath p); ("link", ABool false)]) ;;;
    ret ids.

  (** [bpy.context.scene.collection.objects.link(obj)] *)
Definition scene_link (o : option nat) : M unit :=
    p <- deref o "link" ;;
    modify (fun s => with_linked (linked s ++ [p.1]) s) ;;;
    emit (Op "scene.collection.objects.link" [("object", ARef p.1)]).

  (** [bpy.context.scene.collection.objects.unlink(obj)] *)
Definition scene_unlink (o : option nat) : M unit :=
    p <- deref o "unlink" ;;
    modify (fun s => with_linked (filter (fun i => i <> p.1) (linked s)) s) ;;;
    emit (Op "scene.collection.objects.unlink" [("object", ARef p.1)]).

  (** [obj.name in bpy.context.scene.collection.objects] *)
Definition in_scene_collection (o : option nat) : M bool :=
    p <- deref o "name" ;;
    s <- get ;;
    ret (existsb
           (fun i => match objects s !! i with
                     | Some ob => String.eqb (ob_name ob) (ob_name p.2)
                     | None => false
                     end)
           (linked s)).

  (** [bpy.data.objects.remove(obj, ...)] *)
Definition objects_remove (o : option nat) (kwargs : list (string * arg)) : M unit :=
    p <- deref o "remove" ;;
    modify (fun s =>
      with_linked (filter (fun i => i <> p.1) (linked s))
        (with_selected (filter (fun i => i <> p.1) (selected s))
           (with_active (match active s with
                         | Some a => if Nat.eqb a p.1 then None else Some a
                         | None => None
                         end)
              (with_objects (delete p.1) s)))) ;;;
    emit (Op "objects.remove" (("object", ARef p.1) :: kwargs)).

  (** [bpy.data.objects], as a list of handles *)
Definition data_objects : M (list nat) :=
    fun s => (Ok (map_to_list (objects s)).*1, s, []).

  (** [bpy.data.collections.new(name=...)] followed by
      [bpy.context.scene.collection.children.link(collection)] *)
Definition collections_new (name : string) : M unit :=
    emit (Op "collections.new" [("name", AStr name)]) ;;;
    emit (Op "scene.collection.children.link" [("collection", AStr name)]).

  (** [collections[system].objects.link(obj)] *)
Definition collection_link (name : string) (o : option nat) : M unit :=
    p <- deref o "link" ;;
    emit (Op "collection.objects.link" [("collection", AStr name); ("object", ARef p.1)]).

  (** *** Duplicating, editing vertices, shape keys, vertex groups *)

  (** [bpy.ops.object.duplicate()]: copies of the selected objects, which
      become the selection; the copy of the active object becomes active. *)
Definition ops_duplicate : M unit :=
    modify (fun s =>
      let originals := omap (fun i => pair i <$> objects s !! i) (selected s) in
      let '(s', ids) := add_objects (originals.*2) s in
      let act :=
        match active s with
        | Some a =>
            match list_find (fun p => p.1.1 = a) (zip originals ids) with
            | Some (_, (_, i)) => Some i
            | None => Some a
            end
        | None => None
        end in
      with_active act (with_selected ids (link_new ids s'))) ;;;
    emit (Op "object.duplicate" []).

  (** [len(obj.data.vertices)] and the coordinates [v.co] in index order *)
Definition vertices (o : option nat) : M (list vec3) :=
    p <- deref o "data" ;; ret (verts (ob_data p.2)).

  (** [bmesh.from_edit_mesh], a loop assigning to each [vert.co], then
      [bmesh.update_edit_mesh]: every vertex is replaced by [f] of it. *)
Definition edit_vertices (o : option nat) (f : vec3 -> vec3) : M unit :=
    p <- deref o "data" ;;
    update p.1 (fun ob =>
      set_data {| verts := f <$> verts (ob_data ob); polygons := polygons (ob_data ob) |} ob) ;;;
    emit (Op "bmesh.update_edit_mesh" [("object", ARef p.1)]).

  (** [obj.shape_key_add(name=..., ...)]: a new key holding the object's
      vertex positions; the key is referred to by its index. *)
Definition shape_key_add (o : option nat) (name : string) (kwargs : list (string * arg)) : M (nat * nat) :=
    p <- deref o "shape_key_add" ;;
    update p.1 (fun ob =>
      set_shape_keys
        (ob_shape_keys ob ++ [{| sk_name := name; sk_data := verts (ob_data ob) |}]) ob) ;;;
    emit (Op "shape_key_add" (("object", ARef p.1) :: ("name", AStr name) :: kwargs)) ;;;
    ret (p.1, length (ob_shape_keys p.2)).

  (** [shape_key.data[i].co = v]: an [IndexError] past the end. *)
Definition shape_key_set (key : nat * nat) (i : nat) (v : vec3) : M unit :=
    p <- deref (Some key.1) "shape_key" ;;
    match ob_shape_keys p.2 !! key.2 with
    | Some k =>
        if (i <? length (sk_data k))%nat then
          update key.1 (fun ob =>
            set_shape_keys
              (alter (fun k => {| sk_name := sk_name k; sk_data := <[i := v]> (sk_data k) |})
                     key.2 (ob_shape_keys ob)) ob)
        else raise (IndexError i)
    | None => raise (ReferenceError "shape_key")
    end.

  (** [obj.vertex_groups.new(name=...)] then [vgroup.add(indices, 1.0, 'ADD')].
      The new group is empty; [add] is refused with a [RuntimeError] while
      the object is in edit mode. *)
Definition vertex_group_new (o : option nat) (name : string) (indices : list nat) : M unit :=
    p <- deref o "vertex_groups" ;;
    update p.1 (fun ob => set_vertex_groups (ob_vertex_groups ob ++ [(name, [])]) ob) ;;;
    emit (Op "vertex_groups.new" [("object", ARef p.1); ("name", AStr name)]) ;;;
    s <- get ;;
    if member p.1 (edit_mode s) then raise (RuntimeError "VertexGroup.add")
    else
      update p.1 (fun ob => set_vertex_groups (ob_vertex_groups p.2 ++ [(name, indices)]) ob) ;;;
      emit (Op "vertex_group.add" [("object", ARef p.1); ("name", AStr name);
                                   ("weight", ANum 1); ("type", AStr "ADD")]).

  (** [obj.get(key)] on custom properties *)
Definition get_item (o : option nat) (key : string) : M (option arg) :=
    p <- deref o "get" ;; ret (ob_props p.2 !! key).

End WithHost.
End Bpy.

(** ** scripts/blender/build_custom_anatomy.py *)
Module BuildCustomAnatomy.

Record structure := {
    s_type : string;
    s_position : vec3;
    s_size : vec3;
    s_color : string;
    s_system : string;
    s_subdivisions : nat;
    s_features : option (list string)
  }.

Definition POLYGON_BUDGET : gmap string Z :=
    list_to_map
      [("brain", 5000%Z); ("heart", 8000%Z); ("lungs", 6000%Z); ("liver", 6000%Z);
       ("stomach", 3000%Z); ("intestines", 8000%Z); ("kidneys", 2000%Z);
       ("bladder", 1000%Z); ("spleen", 1500%Z); ("pancreas", 2000%Z);
       ("skeleton", 15000%Z); ("vessels", 5000%Z); ("nerves", 3000%Z)].

  (** The dictionary, in its source order. *)
Definition ANATOMY_STRUCTURES : list (string * structure) :=
    [ ("brain",
       {| s_type := "complex"; s_position := (0, 1.52, 0.02)%Q; s_size := (0.12, 0.14, 0.11)%Q;
          s_color := "#E8B4D9"; s_system := "NERVOUS"; s_subdivisions := 4;
          s_features := Some ["cerebrum"; "cerebellum"; "brainstem"] |});
      ("spinal_cord",
       {| s_type := "tube"; s_position := (0, 0.82, -0.05)%Q; s_size := (0.012, 0.75, 0.012)%Q;
          s_color := "#9B59B6"; s_system := "NERVOUS"; s_subdivisions := 2;
          s_features := None |});
      ("heart",
       {| s_type := "complex"; s_position := (0.02, 0.98, 0.05)%Q; s_size := (0.09, 0.11, 0.08)%Q;
          s_color := "#E74C3C"; s_system := "CARDIOVASCULAR"; s_subdivisions := 4;
          s_features := Some ["left_ventricle"; "right_ventricle"; "left_atrium"; "right_atrium"] |});
      ("aorta",
       {| s_type := "curved_tube"; s_position := (0.02, 1.05, 0.02)%Q; s_size := (0.018, 0.45, 0.018)%Q;
          s_color := "#C0392B"; s_system := "CARDIOVASCULAR"; s_subdivisions := 3;
          s_features := None |});
      ("lung_right",
       {| s_type := "complex"; s_position := (0.11, 1.0, 0)%Q; s_size := (0.11, 0.22, 0.09)%Q;
          s_color := "#FFB6C1"; s_system := "RESPIRATORY"; s_subdivisions := 3;
          s_features := Some ["upper_lobe"; "middle_lobe"; "lower_lobe"] |});
      ("lung_left",
       {| s_type := "complex"; s_position := (-0.09, 1.0, 0)%Q; s_size := (0.09, 0.20, 0.08)%Q;
          s_color := "#FFB6C1"; s_system := "RESPIRATORY"; s_subdivisions := 3;
          s_features := Some ["upper_lobe"; "lower_lobe"] |});
      ("trachea",
       {| s_type := "tube"; s_position := (0, 1.25, 0.05)%Q; s_size := (0.015, 0.12, 0.015)%Q;
          s_color := "#E8A4C9"; s_system := "RESPIRATORY"; s_subdivisions := 2;
          s_features := None |});
      ("diaphragm",
       {| s_type := "dome"; s_position := (0, 0.70, 0)%Q; s_size := (0.20, 0.03, 0.15)%Q;
          s_color := "#C48793"; s_system := "RESPIRATORY"; s_subdivisions := 2;
          s_features := None |});
      ("liver",
       {| s_type := "complex"; s_position := (0.09, 0.85, 0.05)%Q; s_size := (0.16, 0.12, 0.10)%Q;
          s_color := "#8B4513"; s_system := "DIGESTIVE"; s_subdivisions := 3;
          s_features := Some ["right_lobe"; "left_lobe"] |});
      ("stomach",
       {| s_type := "pouch"; s_position := (-0.05, 0.78, 0.08)%Q; s_size := (0.09, 0.13, 0.09)%Q;
          s_color := "#FFDAB9"; s_system := "DIGESTIVE"; s_subdivisions := 3;
          s_features := None |});
      ("small_intestine",
       {| s_type := "coiled_tube"; s_position := (0, 0.58, 0.09)%Q; s_size := (0.16, 0.18, 0.13)%Q;
          s_color := "#FFE4B5"; s_system := "DIGESTIVE"; s_subdivisions := 4;
          s_features := None |});
      ("large_intestine",
       {| s_type := "tube_frame"; s_position := (0, 0.55, 0.11)%Q; s_size := (0.18, 0.22, 0.14)%Q;
          s_color := "#E8C4A9"; s_system := "DIGESTIVE"; s_subdivisions := 3;
          s_features := None |});
      ("pancreas",
       {| s_type := "elongated"; s_position := (0, 0.76, 0.02)%Q; s_size := (0.13, 0.03, 0.03)%Q;
          s_color := "#DEB887"; s_system := "DIGESTIVE"; s_subdivisions := 2;
          s_features := None |});
      ("spleen",
       {| s_type := "oval"; s_position := (-0.12, 0.85, 0.02)%Q; s_size := (0.05, 0.09, 0.04)%Q;
          s_color := "#8B008B"; s_system := "DIGESTIVE"; s_subdivisions := 2;
          s_features := None |});
      ("kidney_right",
       {| s_type := "bean"; s_position := (0.09, 0.70, -0.05)%Q; s_size := (0.05, 0.09, 0.04)%Q;
          s_color := "#8B0000"; s_system := "URINARY"; s_subdivisions := 3;
          s_features := None |});
      ("kidney_left",
       {| s_type := "bean"; s_position := (-0.09, 0.70, -0.05)%Q; s_size := (0.05, 0.09, 0.04)%Q;
          s_color := "#8B0000"; s_system := "URINARY"; s_subdivisions := 3;
          s_features := None |});
      ("bladder",
       {| s_type := "sphere"; s_position := (0, 0.42, 0.08)%Q; s_size := (0.07, 0.08, 0.06)%Q;
          s_color := "#FFD700"; s_system := "URINARY"; s_subdivisions := 3;
          s_features := None |}) ].

  (** def hex_to_rgb(hex_color):
        hex_color = hex_color.lstrip('#')
        return tuple(int(hex_color[i:i+2], 16) / 255.0 for i in (0, 2, 4)) *)
Definition hex_to_rgb (hex_color : string) : res rgb :=
    let hex_color := PyStr.lstrip "#"%char hex_color in
    res_bind (PyStr.int16 (PyStr.slice 0 2 hex_color)) (fun r =>
    res_bind (PyStr.int16 (PyStr.slice 2 2 hex_color)) (fun g =>
    res_bind (PyStr.int16 (PyStr.slice 4 2 hex_color)) (fun b =>
    Ok (inject_Z r / 255, inject_Z g / 255, inject_Z b / 255)%Q))).

Section WithHost.
Context (host : Host).

Definition PROJECT_ROOT : path :=
    PyPath.parent (PyPath.parent (PyPath.parent (script_file host))).
Definition OUTPUT_DIR : path :=
    PyPath.join PROJECT_ROOT ["cli"; "packages"; "apps"; "client-app"; "public"; "models"].
Definition OUTPUT_FILE : string := "human_anatomy_custom.glb".

Definition create_complex_mesh (name : string) (position size : vec3) (subdivisions : nat)
    : M (option nat) :=
    Bpy.add_primitive host "mesh.primitive_uv_sphere_add" "MESH"
      [("radius", ANum 1.0); ("location", AVec position);
       ("segments", AInt 16); ("ring_count", AInt 8)] ;;;
    obj <- Bpy.active_object ;;
    Bpy.assign_name obj name ;;;
    Bpy.assign_scale obj size ;;;
    Bpy.ops_transform_apply_scale host ;;;
    mod_subsurf <- Bpy.modifiers_new obj "Subdivision" "SUBSURF" ;;
    Bpy.assign_levels mod_subsurf subdivisions ;;;
    Bpy.assign_render_levels mod_subsurf subdivisions ;;;
    Bpy.set_active obj ;;;
    Bpy.ops_modifier_apply host "Subdivision" ;;;
    ret obj.

Definition create_tube_mesh (name : string) (position size : vec3) (subdivisions : nat)
    : M (option nat) :=
    let '(radius, height, _) := size in
    Bpy.add_primitive host "mesh.primitive_cylinder_add" "MESH"
      [("radius", ANum radius); ("depth", ANum height);
       ("location", AVec position); ("vertices", AInt 16)] ;;;
    obj <- Bpy.active_object ;;
    Bpy.assign_name obj name ;;;
    Bpy.ops_shade_smooth host ;;;
    ret obj.

Definition create_bean_mesh (name : string) (position size : vec3) (subdivisions : nat)
    : M (option nat) :=
    obj <- create_complex_mesh name position size subdivisions ;;
    Bpy.assign_scale obj (size.1.1, size.1.2, size.2 * 0.8)%Q ;;;
    Bpy.ops_transform_apply_scale host ;;;
    ret obj.

Definition create_dome_mesh (name : string) (position size : vec3) (subdivisions : nat)
    : M (option nat) :=
    Bpy.add_primitive host "mesh.primitive_uv_sphere_add" "MESH"
      [("radius", ANum 1.0); ("location", AVec position);
       ("segments", AInt 24); ("ring_count", AInt 12)] ;;;
    obj <- Bpy.active_object ;;
    Bpy.assign_name obj name ;;;
    Bpy.ops_mode_set "EDIT" ;;;
    Bpy.ops_mesh_select_all "SELECT" ;;;
    Bpy.ops_mesh_edit host "mesh.bisect"
      [("plane_co", AVec (0, 0, 0)%Q); ("plane_no", AVec (0, 0, 1)%Q); ("clear_inner", ABool true)]
      (Bisect (0, 0, 0)%Q (0, 0, 1)%Q true) ;;;
    Bpy.ops_mode_set "OBJECT" ;;;
    Bpy.assign_scale obj size ;;;
    Bpy.ops_transform_apply_scale host ;;;
    ret obj.

Definition create_coiled_tube_mesh (name : string) (position size : vec3) (subdivisions : nat)
    : M (option nat) :=
    Bpy.add_primitive host "curve.primitive_bezier_curve_add" "CURVE"
      [("location", AVec position)] ;;;
    curve <- Bpy.active_object ;;
    Bpy.assign_name curve (name ++ "_curve")%string ;;;
    Bpy.assign_bevel_depth host curve (size.1.1 / 20)%Q ;;;
    Bpy.assign_resolution_u host curve 12 ;;;
    Bpy.ops_convert_mesh host ;;;
    obj <- Bpy.active_object ;;
    Bpy.assign_name obj name ;;;
    ret obj.

Definition create_organ_material (name color_hex : string) (roughness : Q) : M nat :=
    mat <- Bpy.materials_new host ("Mat_" ++ name)%string ;;
    Bpy.node_tree_nodes mat ;;;
    Bpy.nodes_clear mat ;;;
    Bpy.nodes_new_bsdf host mat ;;;
    rgb <- lift (hex_to_rgb color_hex) ;;
    Bpy.input_set mat "Base Color" (AColor rgb 1.0) ;;;
    Bpy.input_set mat "Roughness" (ANum roughness) ;;;
    try_pass
      (has <- Bpy.input_has mat "Subsurface Weight" ;;
       when has (Bpy.input_set mat "Subsurface Weight" (ANum 0.1))) ;;;
    Bpy.nodes_new_output mat ;;;
    Bpy.links_new mat ;;;
    ret mat.

Definition optimize_mesh (obj : option nat) (target_polygons : Z) : M unit :=
    ty <- Bpy.obj_type obj ;;
    if negb (String.eqb ty "MESH") then ret tt
    else
      current_polygons <- Bpy.polygon_count obj ;;
      if (current_polygons <=? target_polygons)%Z then ret tt
      else
        (if (current_polygons =? 0)%Z then raise ZeroDivisionError else ret tt) ;;;
        let ratio := (inject_Z target_polygons / inject_Z current_polygons)%Q in
        Bpy.set_active obj ;;;
        md <- Bpy.modifiers_new obj "Decimate" "DECIMATE" ;;
        Bpy.assign_ratio md ratio ;;;
        Bpy.assign_triangulate md true ;;;
        Bpy.ops_modifier_apply host "Decimate" ;;;
        name <- (p <- Bpy.deref obj "name" ;; ret (ob_name p.2)) ;;
        after <- Bpy.polygon_count obj ;;
        print [Txt "  Optimized "; Val (AStr name); Txt ": "; Val (AInt current_polygons);
               Txt " → "; Val (AInt after); Txt " polygons"].


  (** The [if]/[elif] chain of [build_anatomy_model] that creates the
      mesh for one table entry; [obj] stays [None] when no branch matches. *)
Definition create_mesh_for (name : string) (spec : structure) : M (option nat) :=
    let ty := s_type spec in
    if String.eqb ty "complex" then
      create_complex_mesh name (s_position spec) (s_size spec) (s_subdivisions spec)
    else if String.eqb ty "tube" then
      create_tube_mesh name (s_position spec) (s_size spec) (s_subdivisions spec)
    else if String.eqb ty "bean" then
      create_bean_mesh name (s_position spec) (s_size spec) (s_subdivisions spec)
    else if String.eqb ty "dome" then
      create_dome_mesh name (s_position spec) (s_size spec) (s_subdivisions spec)
    else if String.eqb ty "coiled_tube" then
      create_coiled_tube_mesh name (s_position spec) (s_size spec) (s_subdivisions spec)
    else if PyList.contains ty ["pouch"; "oval"; "elongated"; "sphere"; "curved_tube"; "tube_frame"] then
      create_complex_mesh name (s_position spec) (s_size spec) (s_subdivisions spec)
    else ret None.

  (** One turn of the loop over [ANATOMY_STRUCTURES.items()]. *)
Definition build_structure (created_objects : list nat) (entry : string * structure)
    : M (list nat) :=
    let '(name, spec) := entry in
    print [Txt "Creating "; Val (AStr name); Txt "..."] ;;;
    obj <- create_mesh_for name spec ;;
    match obj with
    | Some id =>
        mat <- create_organ_material name (s_color spec) 0.4 ;;
        Bpy.materials_append obj mat ;;;
        Bpy.set_item obj "system" (AStr (s_system spec)) ;;;
        Bpy.set_item obj "clickable" (ABool true) ;;;
        match POLYGON_BUDGET !! name with
        | Some budget => optimize_mesh obj budget
        | None => ret tt
        end ;;;
        ret (created_objects ++ [id])
    | None => ret created_objects
    end.

  (** The part of [build_anatomy_model] that loads the reference scene. *)
Definition load_reference (z_anatomy_path : option string) : M (list (string * nat)) :=
    match z_anatomy_path with
    | Some z =>
        if negb (String.eqb z "") && path_exists host (PyPath.of_string z) then
          print [Txt "Loading Z-Anatomy reference: "; Val (AStr z)] ;;;
          loaded <- Bpy.libraries_load host (PyPath.of_string z) ;;
          reference_objects <-
            for_fold loaded [] (fun refs id =>
              Bpy.scene_link (Some id) ;;;
              p <- Bpy.deref (Some id) "name" ;;
              Bpy.assign_hidden (Some id) ;;;
              ret (PyDict.set (PyStr.lower (ob_name p.2)) id refs)) ;;
          print [Txt "  Loaded "; Val (AInt (Z.of_nat (length reference_objects)));
                 Txt " reference objects"] ;;;
          ret reference_objects
        else ret []
    | None => ret []
    end.

Definition build_anatomy_model (z_anatomy_path : option string) : M (list nat) :=
    print [Txt "\n"; Txt (rule 70)] ;;;
    print [Txt "CUSTOM ANATOMY MODEL BUILDER"] ;;;
    print [Txt (rule 70); Txt "\n"] ;;;
    print [Txt "Clearing scene..."] ;;;
    Bpy.ops_object_select_all "SELECT" ;;;
    Bpy.ops_object_delete [] ;;;
    reference_objects <- load_reference z_anatomy_path ;;
    print [Txt "\nBuilding anatomical structures..."] ;;;
    created_objects <- for_fold ANATOMY_STRUCTURES [] build_structure ;;
    for_each reference_objects (fun kv => Bpy.objects_remove (Some kv.2) []) ;;;
    print [Txt "\n✓ Created "; Val (AInt (Z.of_nat (length created_objects)));
           Txt " anatomical structures"] ;;;
    total_polygons <-
      for_fold created_objects 0%Z (fun total id =>
        ty <- Bpy.obj_type (Some id) ;;
        if String.eqb ty "MESH"
        then (n <- Bpy.polygon_count (Some id) ;; ret (total + n)%Z)
        else ret total) ;;
    print [Txt "  Total polygons: "; Val (AInt total_polygons)] ;;;
    ret created_objects.

Definition export_model : M path :=
    print [Txt "\nExporting to GLTF..."] ;;;
    Bpy.mkdir OUTPUT_DIR ;;;
    let output_path := PyPath.join OUTPUT_DIR [OUTPUT_FILE] in
    Bpy.ops_export_gltf host
      [("filepath", APath output_path); ("export_format", AStr "GLB");
       ("export_cameras", ABool false); ("export_lights", ABool false)] ;;;
    size <- Bpy.getsize host output_path ;;
    let file_size_mb := (inject_Z size / (1024 * 1024))%Q in
    print [Txt "\n✓ Export complete!"] ;;;
    print [Txt "  File: "; Val (APath output_path)] ;;;
    print [Txt "  Size: "; Val (ANum file_size_mb); Txt " MB"] ;;;
    ret output_path.

  (** The part of [main] that reads [sys.argv]. *)
Definition parse_reference (sys_argv : list string) : option string :=
    if PyList.contains "--" sys_argv then
      match PyList.index "--" sys_argv with
      | Some i =>
          let argv := drop (i + 1) sys_argv in
          if PyList.contains "--reference" argv then
            match PyList.index "--reference" argv with
            | Some idx => if (idx + 1 <? length argv)%nat then argv !! (idx + 1)%nat else None
            | None => None
            end
          else None
      | None => None
      end
    else None.

Definition main (sys_argv : list string) : M unit :=
    let z_anatomy_path := parse_reference sys_argv in
    objects <- build_anatomy_model z_anatomy_path ;;
    output_path <- export_model ;;
    print [Txt "\n"; Txt (rule 70)] ;;;
    print [Txt "✓ SUCCESS!"] ;;;
    print [Txt (rule 70)] ;;;
    print [Txt "\nCustom anatomy model created: "; Val (AStr OUTPUT_FILE)] ;;;
    print [Txt "Structures: "; Val (AInt (Z.of_nat (length objects)))] ;;;
    print [Txt "\nNext steps:"] ;;;
    print [Txt "1. Update PhysicsAnatomyModel.tsx:"] ;;;
    print [Txt "   const { scene } = useGLTF('/models/human_anatomy_custom.glb');"] ;;;
    print [Txt "2. Refresh browser: http://localhost:5175/physics-demo"] ;;;
    print [].

End WithHost.
End BuildCustomAnatomy.

(** ** scripts/blender/generate_anatomy_procedural.py *)
Module GenerateProcedural.

  (** The [size] argument of [create_organ]: a number, a pair or a triple. *)
Inductive size_arg :=
  | SNum (r : Q)
  | SPair (a b : Q)
  | STriple (v : vec3).

  (** [size[i]] *)
Definition size_index (size : size_arg) (i : nat) : res Q :=
    match size, i with
    | SNum _, _ => Raise TypeError
    | SPair a _, O => Ok a
    | SPair _ b, S O => Ok b
    | STriple v, O => Ok v.1.1
    | STriple v, S O => Ok v.1.2
    | STriple v, S (S O) => Ok v.2
    | _, _ => Raise (IndexError i)
    end.

  (** [size] where the host wants a number, and where it wants a vector *)
Definition size_number (size : size_arg) : res Q :=
    match size with
    | SNum r => Ok r
    | _ => Raise TypeError
    end.

Definition size_vector (size : size_arg) : res vec3 :=
    match size with
    | STriple v => Ok v
    | SPair _ _ => Raise ValueError
    | SNum _ => Raise TypeError
    end.

Definition hex_to_rgb (hex_color : string) : res rgb :=
    let hex_color := PyStr.lstrip "#"%char hex_color in
    res_bind (PyStr.int16 (PyStr.slice 0 2 hex_color)) (fun r =>
    res_bind (PyStr.int16 (PyStr.slice 2 2 hex_color)) (fun g =>
    res_bind (PyStr.int16 (PyStr.slice 4 2 hex_color)) (fun b =>
    Ok (inject_Z r / 255, inject_Z g / 255, inject_Z b / 255)%Q))).

Section WithHost.
Context (host : Host).

Definition PROJECT_ROOT : path :=
    PyPath.parent (PyPath.parent (PyPath.parent (script_file host))).
Definition OUTPUT_DIR : path :=
    PyPath.join PROJECT_ROOT ["cli"; "packages"; "apps"; "client-app"; "public"; "models"].
Definition OUTPUT_FILE : string := "human_anatomy.glb".

Definition clear_scene : M unit :=
    Bpy.ops_object_select_all "SELECT" ;;;
    Bpy.ops_object_delete [].

Definition create_material (name color_hex : string) (roughness subsurface : Q) : M nat :=
    mat <- Bpy.materials_new host ("Mat_" ++ name)%string ;;
    Bpy.node_tree_nodes mat ;;;
    Bpy.nodes_clear mat ;;;
    Bpy.nodes_new_bsdf host mat ;;;
    rgb <- lift (hex_to_rgb color_hex) ;;
    Bpy.input_set mat "Base Color" (AColor rgb 1.0) ;;;
    Bpy.input_set mat "Roughness" (ANum roughness) ;;;
    try_pass
      (has_weight <- Bpy.input_has mat "Subsurface Weight" ;;
       if has_weight then Bpy.input_set mat "Subsurface Weight" (ANum subsurface)
       else
         has_legacy <- Bpy.input_has mat "Subsurface" ;;
         when has_legacy (Bpy.input_set mat "Subsurface" (ANum subsurface))) ;;;
    Bpy.nodes_new_output mat ;;;
    Bpy.links_new mat ;;;
    ret mat.

Definition create_organ (name geometry_type : string) (size : size_arg) (position : vec3)
      (color system : string) : M (option nat) :=
    (if String.eqb geometry_type "sphere" then
       r <- lift (size_number size) ;;
       Bpy.add_primitive host "mesh.primitive_uv_sphere_add" "MESH"
         [("radius", ANum r); ("location", AVec position);
          ("segments", AInt 32); ("ring_count", AInt 16)]
     else if String.eqb geometry_type "ellipsoid" then
       Bpy.add_primitive host "mesh.primitive_uv_sphere_add" "MESH"
         [("radius", ANum 1.0); ("location", AVec position);
          ("segments", AInt 32); ("ring_count", AInt 16)] ;;;
       obj <- Bpy.active_object ;;
       v <- lift (size_vector size) ;;
       Bpy.assign_scale obj v
     else if String.eqb geometry_type "cylinder" then
       r <- lift (size_index size 0) ;;
       d <- lift (size_index size 1) ;;
       Bpy.add_primitive host "mesh.primitive_cylinder_add" "MESH"
         [("radius", ANum r); ("depth", ANum d);
          ("location", AVec position); ("vertices", AInt 32)]
     else if String.eqb geometry_type "capsule" then
       r <- lift (size_index size 0) ;;
       Bpy.add_primitive host "mesh.primitive_uv_sphere_add" "MESH"
         [("radius", ANum r); ("location", AVec position);
          ("segments", AInt 32); ("ring_count", AInt 16)] ;;;
       obj <- Bpy.active_object ;;
       h <- lift (size_index size 1) ;;
       Bpy.assign_scale obj (1.0, h, 1.0)%Q
     else ret tt) ;;;
    obj <- Bpy.active_object ;;
    Bpy.assign_name obj name ;;;
    mat <- create_material name color 0.4 0.1 ;;
    Bpy.materials_append obj mat ;;;
    Bpy.set_item obj "system" (AStr system) ;;;
    Bpy.set_item obj "clickable" (ABool true) ;;;
    Bpy.ops_shade_smooth host ;;;
    ret obj.

Definition sides_arms : list (string * Q) := [("left", -0.25); ("right", 0.25)]%Q.
Definition sides_near : list (string * Q) := [("left", -0.08); ("right", 0.08)]%Q.

Definition create_body_outline : M unit :=
    print [Txt "Creating body outline..."] ;;;
    _ <- create_organ "head" "sphere" (SNum 0.12) (0, 1.5, 0)%Q "#FFD7BE" "BODY" ;;
    _ <- create_organ "neck" "cylinder" (SPair 0.04 0.12) (0, 1.35, 0)%Q "#FFD7BE" "BODY" ;;
    _ <- create_organ "torso_upper" "ellipsoid" (STriple (0.18, 0.35, 0.12)%Q) (0, 1.0, 0)%Q
           "#FFD7BE" "BODY" ;;
    _ <- create_organ "torso_lower" "ellipsoid" (STriple (0.15, 0.25, 0.12)%Q) (0, 0.7, 0)%Q
           "#FFD7BE" "BODY" ;;
    for_each sides_arms (fun '(side, x_pos) =>
      _ <- create_organ ("arm_upper_" ++ side)%string "cylinder" (SPair 0.03 0.25)
             (x_pos, 0.95, 0)%Q "#FFD7BE" "BODY" ;;
      _ <- create_organ ("arm_lower_" ++ side)%string "cylinder" (SPair 0.025 0.22)
             (x_pos, 0.65, 0)%Q "#FFD7BE" "BODY" ;;
      ret tt) ;;;
    for_each sides_near (fun '(side, x_pos) =>
      _ <- create_organ ("leg_upper_" ++ side)%string "cylinder" (SPair 0.06 0.4)
             (x_pos, 0.25, 0)%Q "#FFD7BE" "BODY" ;;
      _ <- create_organ ("leg_lower_" ++ side)%string "cylinder" (SPair 0.04 0.4)
             (x_pos, -0.15, 0)%Q "#FFD7BE" "BODY" ;;
      ret tt).

Definition create_brain : M unit :=
    print [Txt "Creating brain..."] ;;;
    _ <- create_organ "brain" "ellipsoid" (STriple (0.08, 0.10, 0.09)%Q) (0, 1.52, 0.02)%Q
           "#E8B4D9" "NERVOUS" ;;
    ret tt.

Definition create_heart : M unit :=
    print [Txt "Creating heart..."] ;;;
    _ <- create_organ "heart" "ellipsoid" (STriple (0.08, 0.10, 0.07)%Q) (0.02, 0.98, 0.05)%Q
           "#E74C3C" "CARDIOVASCULAR" ;;
    ret tt.

Definition create_lungs : M unit :=
    print [Txt "Creating lungs..."] ;;;
    _ <- create_organ "lung_right" "ellipsoid" (STriple (0.10, 0.20, 0.08)%Q) (0.10, 1.0, 0)%Q
           "#FFB6C1" "RESPIRATORY" ;;
    _ <- create_organ "lung_left" "ellipsoid" (STriple (0.08, 0.18, 0.07)%Q) (-0.10, 1.0, 0)%Q
           "#FFB6C1" "RESPIRATORY" ;;
    ret tt.

Definition create_digestive_system : M unit :=
    print [Txt "Creating digestive system..."] ;;;
    _ <- create_organ "liver" "ellipsoid" (STriple (0.14, 0.10, 0.18)%Q) (0.08, 0.85, 0.05)%Q
           "#8B4513" "DIGESTIVE" ;;
    _ <- create_organ "stomach" "ellipsoid" (STriple (0.08, 0.12, 0.08)%Q) (-0.05, 0.80, 0.08)%Q
           "#FFDAB9" "DIGESTIVE" ;;
    _ <- create_organ "intestines" "ellipsoid" (STriple (0.15, 0.15, 0.12)%Q) (0, 0.60, 0.08)%Q
           "#FFE4B5" "DIGESTIVE" ;;
    _ <- create_organ "pancreas" "cylinder" (SPair 0.02 0.12) (0, 0.78, 0.02)%Q
           "#DEB887" "DIGESTIVE" ;;
    _ <- create_organ "spleen" "ellipsoid" (STriple (0.05, 0.08, 0.04)%Q) (-0.12, 0.85, 0.02)%Q
           "#8B008B" "DIGESTIVE" ;;
    ret tt.

Definition create_urinary_system : M unit :=
    print [Txt "Creating urinary system..."] ;;;
    for_each sides_near (fun '(side, x_pos) =>
      _ <- create_organ ("kidney_" ++ side)%string "ellipsoid" (STriple (0.05, 0.08, 0.04)%Q)
             (x_pos, 0.70, -0.05)%Q "#8B0000" "URINARY" ;;
      ret tt) ;;;
    _ <- create_organ "bladder" "sphere" (SNum 0.06) (0, 0.45, 0.08)%Q "#FFD700" "URINARY" ;;
    ret tt.

Definition rib_name (i : nat) : string :=
    ("rib_" ++ String (ascii_of_nat (48 + i)) EmptyString)%string.

Definition create_skeletal_system : M unit :=
    print [Txt "Creating skeletal system..."] ;;;
    obj <- create_organ "skull" "sphere" (SNum 0.13) (0, 1.5, 0)%Q "#E8E8E8" "SKELETAL" ;;
    try_pass
      (mats <- Bpy.materials_of obj ;;
       mat0 <- match mats with
               | m :: _ => ret m
               | [] => raise (IndexError 0)
               end ;;
       Bpy.assign_blend mat0 "BLEND" ;;;
       bsdf <- Bpy.nodes_get_bsdf mat0 ;;
       if bsdf then
         has_alpha <- Bpy.input_has mat0 "Alpha" ;;
         when has_alpha (Bpy.input_set mat0 "Alpha" (ANum 0.3))
       else ret tt) ;;;
    _ <- create_organ "spine" "cylinder" (SPair 0.02 0.8) (0, 0.8, -0.05)%Q "#D3D3D3" "SKELETAL" ;;
    for_each (seq 0 6) (fun i =>
      let y_pos := (1.2 - inject_Z (Z.of_nat i) * 0.08)%Q in
      _ <- create_organ (rib_name i) "ellipsoid" (STriple (0.18, 0.01, 0.10)%Q)
             (0, y_pos, 0)%Q "#D3D3D3" "SKELETAL" ;;
      ret tt).

Definition create_vascular_system : M unit :=
    print [Txt "Creating vascular system..."] ;;;
    _ <- create_organ "aorta" "cylinder" (SPair 0.015 0.6) (0.02, 0.80, 0)%Q
           "#C0392B" "CARDIOVASCULAR" ;;
    _ <- create_organ "vena_cava_superior" "cylinder" (SPair 0.012 0.15) (0.05, 1.15, 0.02)%Q
           "#8B0000" "CARDIOVASCULAR" ;;
    ret tt.

Definition create_nervous_system : M unit :=
    print [Txt "Creating nervous system..."] ;;;
    _ <- create_organ "spinal_cord" "cylinder" (SPair 0.01 0.75) (0, 0.82, -0.05)%Q
           "#9B59B6" "NERVOUS" ;;
    for_each sides_near (fun '(side, x_pos) =>
      _ <- create_organ ("nerve_branch_" ++ side)%string "cylinder" (SPair 0.005 0.3)
             (x_pos, 0.65, -0.05)%Q "#8E44AD" "NERVOUS" ;;
      ret tt).

  (** [len([obj for obj in bpy.data.objects if obj.type == 'MESH'])] *)
Definition count_meshes : M Z :=
    s <- get ;;
    ret (Z.of_nat (length (filter (fun p => ob_type p.2 = "MESH") (map_to_list (objects s))))).

Definition main : M unit :=
    print [Txt "\n"; Txt (rule 70)] ;;;
    print [Txt "PROCEDURAL ANATOMY MODEL GENERATOR"] ;;;
    print [Txt (rule 70); Txt "\n"] ;;;
    print [Txt "Clearing scene..."] ;;;
    clear_scene ;;;
    create_body_outline ;;;
    create_brain ;;;
    create_heart ;;;
    create_lungs ;;;
    create_digestive_system ;;;
    create_urinary_system ;;;
    create_skeletal_system ;;;
    create_vascular_system ;;;
    create_nervous_system ;;;
    organ_count <- count_meshes ;;
    print [Txt "\n✓ Created "; Val (AInt organ_count); Txt " anatomical structures"] ;;;
    print [Txt "\nExporting to GLTF..."] ;;;
    Bpy.mkdir OUTPUT_DIR ;;;
    let output_path := PyPath.join OUTPUT_DIR [OUTPUT_FILE] in
    Bpy.ops_export_gltf host
      [("filepath", APath output_path); ("export_format", AStr "GLB");
       ("export_cameras", ABool false); ("export_lights", ABool false)] ;;;
    size <- Bpy.getsize host output_path ;;
    let file_size_mb := (inject_Z size / (1024 * 1024))%Q in
    print [Txt "\n✓ Export complete!"] ;;;
    print [Txt "  File: "; Val (APath output_path)] ;;;
    print [Txt "  Size: "; Val (ANum file_size_mb); Txt " MB"] ;;;
    print [Txt "  Organs: "; Val (AInt organ_count)] ;;;
    print [Txt "\n"; Txt (rule 70)] ;;;
    print [Txt "SUCCESS! Anatomy model created"] ;;;
    print [Txt (rule 70)] ;;;
    print [Txt "\nNext step: Update PhysicsAnatomyModel.tsx to load the GLB"] ;;;
    print [].

End WithHost.
End GenerateProcedural.

(** ** scripts/blender/import_bodyparts3d.py *)
Module ImportBodyParts3D.

Record model := {
    m_fma_code : string;
    m_organ_name : string;
    m_system : string;
    m_color_hex : string;
    m_position : vec3
  }.

Definition mk (fma name system color : string) (pos : vec3) : model :=
    {| m_fma_code := fma; m_organ_name := name; m_system := system;
       m_color_hex := color; m_position := pos |}.

Definition ANATOMY_MODELS : list model :=
    [ mk "FMA50801" "brain" "NERVOUS" "#9B59B6" (0, 1.5, 0)%Q;
      mk "FMA7647" "spinal_cord" "NERVOUS" "#8E44AD" (0, 0.8, -0.05)%Q;
      mk "FMA7088" "heart" "CARDIOVASCULAR" "#E74C3C" (0.02, 1.0, 0.05)%Q;
      mk "FMA3986" "aorta" "CARDIOVASCULAR" "#C0392B" (0, 1.0, 0)%Q;
      mk "FMA4720" "superior_vena_cava" "CARDIOVASCULAR" "#8B0000" (0.05, 1.1, 0.05)%Q;
      mk "FMA7195" "lung_right" "RESPIRATORY" "#5DADE2" (0.08, 1.0, 0)%Q;
      mk "FMA7196" "lung_left" "RESPIRATORY" "#5DADE2" (-0.08, 1.0, 0)%Q;
      mk "FMA7394" "trachea" "RESPIRATORY" "#3498DB" (0, 1.2, 0.05)%Q;
      mk "FMA13322" "diaphragm" "RESPIRATORY" "#2E86C1" (0, 0.7, 0)%Q;
      mk "FMA7197" "liver" "DIGESTIVE" "#D68910" (0.1, 0.85, 0.05)%Q;
      mk "FMA7148" "stomach" "DIGESTIVE" "#E67E22" (-0.05, 0.8, 0.08)%Q;
      mk "FMA7199" "gallbladder" "DIGESTIVE" "#F39C12" (0.12, 0.82, 0.08)%Q;
      mk "FMA7203" "pancreas" "DIGESTIVE" "#CA6F1E" (0, 0.75, 0.05)%Q;
      mk "FMA7201" "spleen" "DIGESTIVE" "#7D3C98" (-0.12, 0.85, 0.05)%Q;
      mk "FMA7200" "small_intestine" "DIGESTIVE" "#F5B041" (0, 0.6, 0.08)%Q;
      mk "FMA14543" "large_intestine" "DIGESTIVE" "#DC7633" (0, 0.55, 0.1)%Q;
      mk "FMA7203" "kidney_right" "URINARY" "#F4D03F" (0.08, 0.7, -0.05)%Q;
      mk "FMA7204" "kidney_left" "URINARY" "#F4D03F" (-0.08, 0.7, -0.05)%Q;
      mk "FMA15900" "bladder" "URINARY" "#F7DC6F" (0, 0.45, 0.08)%Q;
      mk "FMA46565" "skull" "SKELETAL" "#E8E8E8" (0, 1.5, 0)%Q;
      mk "FMA7647" "spine" "SKELETAL" "#D5D8DC" (0, 0.8, -0.05)%Q;
      mk "FMA9468" "ribs" "SKELETAL" "#BDC3C7" (0, 1.0, 0)%Q;
      mk "FMA16585" "pelvis" "SKELETAL" "#AAB7B8" (0, 0.5, 0)%Q ].

Definition GLOBAL_SCALE : Q := 0.001.

Definition TARGET_POLYGON_COUNT : gmap string Z :=
    list_to_map [("high_detail", 500000%Z); ("low_detail", 50000%Z)].

Definition SYSTEMS : list string :=
    ["NERVOUS"; "CARDIOVASCULAR"; "RESPIRATORY"; "DIGESTIVE"; "URINARY"; "SKELETAL"].

Definition hex_to_rgb (hex_color : string) : res rgb :=
    let hex_color := PyStr.lstrip "#"%char hex_color in
    res_bind (PyStr.int16 (PyStr.slice 0 2 hex_color)) (fun r =>
    res_bind (PyStr.int16 (PyStr.slice 2 2 hex_color)) (fun g =>
    res_bind (PyStr.int16 (PyStr.slice 4 2 hex_color)) (fun b =>
    Ok (inject_Z r / 255, inject_Z g / 255, inject_Z b / 255)%Q))).

Section WithHost.
Context (host : Host).

Definition PROJECT_ROOT : path :=
    PyPath.parent (PyPath.parent (PyPath.parent (script_file host))).
Definition MODELS_INPUT_DIR : path :=
    PyPath.join PROJECT_ROOT ["scripts"; "blender"; "bodyparts3d_models"].
Definition MODELS_OUTPUT_DIR : path :=
    PyPath.join PROJECT_ROOT ["cli"; "packages"; "apps"; "client-app"; "public"; "models"].

  (** The loops over [bpy.data.meshes], [textures] and [images] have
      nothing to remove here: the store keeps each mesh inside its object
      and holds no textures or images. *)
Definition clear_scene : M unit :=
    Bpy.ops_object_select_all "SELECT" ;;;
    Bpy.ops_object_delete [] ;;;
    Bpy.purge_orphan_materials.

Definition create_material (name color_hex : string) (roughness : Q) : M nat :=
    mat <- Bpy.materials_new host ("Mat_" ++ name)%string ;;
    Bpy.assign_use_nodes host mat ;;;
    Bpy.node_tree_nodes mat ;;;
    Bpy.nodes_clear mat ;;;
    Bpy.nodes_new_bsdf host mat ;;;
    rgb <- lift (hex_to_rgb color_hex) ;;
    Bpy.input_set mat "Base Color" (AColor rgb 1.0) ;;;
    Bpy.input_set mat "Roughness" (ANum roughness) ;;;
    Bpy.input_set mat "Subsurface" (ANum 0.05) ;;;
    Bpy.input_set mat "Subsurface Color" (AColor rgb 1.0) ;;;
    Bpy.nodes_new_output mat ;;;
    Bpy.links_new mat ;;;
    ret mat.

Definition import_obj_model (fma_code organ_name : string) : M (option nat) :=
    let obj_path := PyPath.join MODELS_INPUT_DIR [(fma_code ++ ".obj")%string] in
    if negb (path_exists host obj_path) then
      print [Txt "⚠️  WARNING: Model not found: "; Val (APath obj_path)] ;;;
      ret None
    else
      Bpy.ops_import_obj host obj_path ;;;
      sel <- Bpy.selected_objects ;;
      let imported_obj := head sel in
      match imported_obj with
      | Some _ =>
          Bpy.assign_name imported_obj organ_name ;;;
          print [Txt "✓ Imported: "; Val (AStr organ_name); Txt " ("; Val (AStr fma_code); Txt ")"]
      | None => ret tt
      end ;;;
      ret imported_obj.

  (** [not obj or obj.type != 'MESH'] *)
Definition not_a_mesh (obj : option nat) : M bool :=
    match obj with
    | None => ret true
    | Some _ => ty <- Bpy.obj_type obj ;; ret (negb (String.eqb ty "MESH"))
    end.

Definition clean_mesh (obj : option nat) : M unit :=
    skip <- not_a_mesh obj ;;
    if skip then ret tt
    else
      Bpy.ops_object_select_all "DESELECT" ;;;
      Bpy.select_set obj ;;;
      Bpy.set_active obj ;;;
      Bpy.ops_mode_set "EDIT" ;;;
      Bpy.ops_mesh_select_all "SELECT" ;;;
      Bpy.ops_mesh_edit host "mesh.remove_doubles" [("threshold", ANum 0.0001)]
        (RemoveDoubles 0.0001) ;;;
      Bpy.ops_mesh_edit host "mesh.normals_make_consistent" [("inside", ABool false)]
        (NormalsConsistent false) ;;;
      Bpy.ops_mesh_edit host "mesh.delete_loose" [] DeleteLoose ;;;
      Bpy.ops_mode_set "OBJECT".

Definition decimate_mesh (obj : option nat) (ratio : Q) : M unit :=
    skip <- not_a_mesh obj ;;
    if skip then ret tt
    else
      md <- Bpy.modifiers_new obj "Decimate" "DECIMATE" ;;
      Bpy.assign_ratio md ratio ;;;
      Bpy.assign_triangulate md true ;;;
      Bpy.set_active obj ;;;
      Bpy.ops_modifier_apply host "Decimate".

  (** One turn of the loop over [ANATOMY_MODELS]; the accumulator is
      [(imported_count, skipped_count)]. *)
Definition import_one (counts : Z * Z) (m : model) : M (Z * Z) :=
    obj <- import_obj_model (m_fma_code m) (m_organ_name m) ;;
    match obj with
    | Some _ =>
        Bpy.assign_scale obj (GLOBAL_SCALE, GLOBAL_SCALE, GLOBAL_SCALE) ;;;
        Bpy.ops_transform_apply_scale host ;;;
        Bpy.assign_location obj (m_position m) ;;;
        clean_mesh obj ;;;
        mat <- create_material (m_organ_name m) (m_color_hex m) 0.4 ;;
        mats <- Bpy.materials_of obj ;;
        match mats with
        | _ :: _ => Bpy.materials_set0 obj mat
        | [] => Bpy.materials_append obj mat
        end ;;;
        (if PyList.contains (m_system m) SYSTEMS then
           Bpy.collection_link (m_system m ++ "_System")%string obj ;;;
           in_scene <- Bpy.in_scene_collection obj ;;
           when in_scene (Bpy.scene_unlink obj)
         else ret tt) ;;;
        Bpy.set_item obj "system_code" (AStr (m_system m)) ;;;
        Bpy.set_item obj "fma_code" (AStr (m_fma_code m)) ;;;
        Bpy.set_item obj "clickable" (ABool true) ;;;
        ret (counts.1 + 1, counts.2)%Z
    | None => ret (counts.1, counts.2 + 1)%Z
    end.

Definition import_anatomy_models : M Z :=
    print [Txt "\n"; Txt (rule 70)] ;;;
    print [Txt "IMPORTING BODYPARTS3D ANATOMICAL MODELS"] ;;;
    print [Txt (rule 70); Txt "\n"] ;;;
    print [Txt "Clearing scene..."] ;;;
    clear_scene ;;;
    for_each SYSTEMS (fun system => Bpy.collections_new (system ++ "_System")%string) ;;;
    counts <- for_fold ANATOMY_MODELS (0, 0)%Z import_one ;;
    print [Txt "\n✓ Import complete: "; Val (AInt counts.1); Txt " models imported, ";
           Val (AInt counts.2); Txt " skipped"] ;;;
    ret counts.1.

  (** [sum(len(obj.data.polygons) for obj in bpy.data.objects if obj.type == 'MESH')] *)
Definition scene_polygons (s : scene) : Z :=
    foldr Z.add 0%Z
      ((fun p => polygons (ob_data p.2)) <$>
       filter (fun p => ob_type p.2 = "MESH") (map_to_list (objects s))).

Definition total_mesh_polygons : M Z :=
    s <- get ;; ret (scene_polygons s).

Definition optimize_models (target_detail : string) : M unit :=
    print [Txt "\n"; Txt (rule 70)] ;;;
    print [Txt "OPTIMIZING MODELS (Target: "; Val (AStr target_detail); Txt ")"] ;;;
    print [Txt (rule 70); Txt "\n"] ;;;
    target_total <- match TARGET_POLYGON_COUNT !! target_detail with
                    | Some t => ret t
                    | None => raise (KeyError target_detail)
                    end ;;
    total_polygons <- total_mesh_polygons ;;
    print [Txt "Current polygon count: "; Val (AInt total_polygons)] ;;;
    print [Txt "Target polygon count: "; Val (AInt target_total)] ;;;
    if (total_polygons <=? target_total)%Z then
      print [Txt "✓ Already optimized!"]
    else
      (if (total_polygons =? 0)%Z then raise ZeroDivisionError else ret tt) ;;;
      let decimate_ratio := (inject_Z target_total / inject_Z total_polygons)%Q in
      print [Txt "Decimation ratio: "; Val (ANum decimate_ratio)] ;;;
      objs <- Bpy.data_objects ;;
      for_each objs (fun id =>
        ty <- Bpy.obj_type (Some id) ;;
        if String.eqb ty "MESH" then
          name <- (p <- Bpy.deref (Some id) "name" ;; ret (ob_name p.2)) ;;
          print [Txt "  Decimating "; Val (AStr name); Txt "..."] ;;;
          decimate_mesh (Some id) decimate_ratio
        else ret tt) ;;;
      final_polygons <- total_mesh_polygons ;;
      print [Txt "\n✓ Optimization complete: "; Val (AInt final_polygons); Txt " polygons"].

Definition export_gltf (output_filename : string) : M path :=
    print [Txt "\n"; Txt (rule 70)] ;;;
    print [Txt "EXPORTING TO GLTF"] ;;;
    print [Txt (rule 70); Txt "\n"] ;;;
    Bpy.mkdir MODELS_OUTPUT_DIR ;;;
    let output_path := PyPath.div MODELS_OUTPUT_DIR (PyPath.of_string output_filename) in
    Bpy.ops_export_gltf host
      [("filepath", APath output_path); ("export_format", AStr "GLB");
       ("export_textures", ABool true); ("export_normals", ABool true);
       ("export_materials", AStr "EXPORT"); ("export_colors", ABool true);
       ("export_cameras", ABool false); ("export_lights", ABool false);
       ("export_apply", ABool true); ("export_yup", ABool true);
       ("export_draco_mesh_compression_enable", ABool true);
       ("export_draco_mesh_compression_level", AInt 6);
       ("export_draco_position_quantization", AInt 14);
       ("export_draco_normal_quantization", AInt 10);
       ("export_draco_texcoord_quantization", AInt 12)] ;;;
    size <- Bpy.getsize host output_path ;;
    let file_size_mb := (inject_Z size / (1024 * 1024))%Q in
    print [Txt "✓ Export complete: "; Val (APath output_path)] ;;;
    print [Txt "  File size: "; Val (ANum file_size_mb); Txt " MB"] ;;;
    ret output_path.

Definition main : M unit :=
    print [Txt "\n"; Txt (rule 70)] ;;;
    print [Txt "BODYPARTS3D TO GLTF CONVERTER"] ;;;
    print [Txt (rule 70)] ;;;
    (if negb (path_exists host MODELS_INPUT_DIR) then
       print [Txt "\n❌ ERROR: Input directory not found: "; Val (APath MODELS_INPUT_DIR)] ;;;
       print [Txt "\nPlease create the directory and place BodyParts3D OBJ files there."] ;;;
       print [Txt "\nDownload from: http://lifesciencedb.jp/bp3d/"] ;;;
       sys_exit 1
     else ret tt) ;;;
    obj_files <- Bpy.glob_obj host MODELS_INPUT_DIR ;;
    print [Txt "\nFound "; Val (AInt (Z.of_nat (length obj_files)));
           Txt " OBJ files in input directory"] ;;;
    imported_count <- import_anatomy_models ;;
    (if (imported_count =? 0)%Z then
       print [Txt "\n❌ ERROR: No models were imported!"] ;;;
       print [Txt "Please download OBJ files from BodyParts3D and place them in:"] ;;;
       print [Txt "  "; Val (APath MODELS_INPUT_DIR)] ;;;
       sys_exit 1
     else ret tt) ;;;
    optimize_models "high_detail" ;;;
    _ <- export_gltf "human_anatomy_high.glb" ;;
    optimize_models "low_detail" ;;;
    _ <- export_gltf "human_anatomy_low.glb" ;;
    print [Txt "\n"; Txt (rule 70)] ;;;
    print [Txt "✓ CONVERSION COMPLETE!"] ;;;
    print [Txt (rule 70)] ;;;
    print [Txt "\nOutput files:"] ;;;
    print [Txt "  - "; Val (APath (PyPath.join MODELS_OUTPUT_DIR ["human_anatomy_high.glb"]));
           Txt " (detailed)"] ;;;
    print [Txt "  - "; Val (APath (PyPath.join MODELS_OUTPUT_DIR ["human_anatomy_low.glb"]));
           Txt " (optimized)"] ;;;
    print [Txt "\nNext steps:"] ;;;
    print [Txt "  1. Copy GLB files to client-app/public/models/"] ;;;
    print [Txt "  2. Update PhysicsAnatomyModel.tsx to load the GLB"] ;;;
    print [Txt "  3. Test in browser at http://localhost:5175/physics-demo"] ;;;
    print [Txt "\nAttribution required:"] ;;;
    print [Txt "  'Anatomical models from BodyParts3D Database (CC BY-SA 2.1 JP)'"] ;;;
    print [Txt "  'Database Center for Life Science, Japan'"] ;;;
    print [].

End WithHost.
End ImportBodyParts3D.

(** ** scripts/create_morph_targets.py *)
Module CreateMorphTargets.

Record preset := {
    bmi : Q;
    abdomen_scale : Q;
    limbs_scale : Q;
    face_scale : Q
  }.

Definition BMI_PRESETS : list (string * preset) :=
    [ ("Underweight", {| bmi := 17.0; abdomen_scale := 0.85; limbs_scale := 0.90; face_scale := 0.95 |});
      ("Normal",      {| bmi := 22.0; abdomen_scale := 1.0;  limbs_scale := 1.0;  face_scale := 1.0 |});
      ("Overweight",  {| bmi := 27.5; abdomen_scale := 1.20; limbs_scale := 1.08; face_scale := 1.05 |});
      ("Obese1",      {| bmi := 32.5; abdomen_scale := 1.45; limbs_scale := 1.15; face_scale := 1.12 |});
      ("Obese2",      {| bmi := 37.5; abdomen_scale := 1.70; limbs_scale := 1.22; face_scale := 1.18 |});
      ("Obese3",      {| bmi := 45.0; abdomen_scale := 2.00; limbs_scale := 1.30; face_scale := 1.25 |}) ]%Q.

  (** [a < b] on numbers *)
Definition Qltb (a b : Q) : bool := negb (Qle_bool b a).

  (** The body of the loop over [bm.verts] in [create_bmi_variant]: what
      one vertex's [co] becomes. *)
Definition scale_vertex (preset_params : preset) (co : vec3) : vec3 :=
    let abdomen_scale := abdomen_scale preset_params in
    let limbs_scale := limbs_scale preset_params in
    let face_scale := face_scale preset_params in
    let '(x, y, z) := co in
    if Qltb 0.3 z && Qltb z 0.7 && Qltb 0 y then
      let y1 := (y * abdomen_scale)%Q in
      let x1 := (x * (1 + (abdomen_scale - 1) * 0.5))%Q in
      (x1, y1, z)
    else if Qltb z 0.5 then
      if Qltb 0.15 (Qabs x) then
        let x1 := (x * limbs_scale)%Q in
        let y1 := (y * (1 + (limbs_scale - 1) * 0.5))%Q in
        (x1, y1, z)
      else co
    else if Qltb 1.0 z then
      (x * face_scale, y * face_scale, z * face_scale)%Q
    else co.

  (** The body of the loop over [bm.verts] in [create_vertex_groups]: the
      group a vertex goes to, if any. *)
Definition vertex_group_of (co : vec3) : option string :=
    let '(x, y, z) := co in
    let x_abs := Qabs x in
    if Qltb 0.3 z && Qltb z 0.7 && Qltb 0 y then Some "abdomen"
    else if Qltb 0.7 z && Qltb z 1.0 then Some "chest"
    else if Qltb 1.5 z then Some "face"
    else if Qltb z 0.5 then
      if Qltb 0.15 x_abs then
        if Qltb 0.25 z then Some "limbs_upper" else Some "limbs_lower"
      else None
    else None.

  (** [groups[name].append(i)] *)
Definition group_append (name : string) (i : nat) (groups : list (string * list nat))
    : list (string * list nat) :=
    map (fun g => if String.eqb g.1 name then (g.1, g.2 ++ [i]) else g) groups.

  (** [int(color.lstrip('#')[i:i+2], 16) / 255.0 for i in (0, 2, 4)], as
      written inside [add_organ_meshes] *)
Definition organ_rgb (color : string) : res rgb :=
    let stripped := PyStr.lstrip "#"%char color in
    res_bind (PyStr.int16 (PyStr.slice 0 2 stripped)) (fun r =>
    res_bind (PyStr.int16 (PyStr.slice 2 2 stripped)) (fun g =>
    res_bind (PyStr.int16 (PyStr.slice 4 2 stripped)) (fun b =>
    Ok (inject_Z r / 255, inject_Z g / 255, inject_Z b / 255)%Q))).

Definition ORGANS : list (string * vec3 * Q * string) :=
    [ ("heart", (0.05, 0.05, 0.7), 0.08, "#E74C3C");
      ("liver_right_lobe", (0.15, 0.05, 0.5), 0.12, "#D68910");
      ("stomach_body", (-0.05, 0.05, 0.55), 0.08, "#E67E22");
      ("lung_right", (0.12, 0.02, 0.75), 0.10, "#3498DB");
      ("lung_left", (-0.12, 0.02, 0.75), 0.10, "#3498DB");
      ("kidney_right", (0.10, -0.05, 0.45), 0.05, "#16A085");
      ("kidney_left", (-0.10, -0.05, 0.45), 0.05, "#16A085") ]%Q.

Section WithHost.
Context (host : Host).

Definition PROJECT_ROOT : path := PyPath.parent (PyPath.parent (script_file host)).
Definition OUTPUT_DIR : path :=
    PyPath.join PROJECT_ROOT
      ["cli"; "packages"; "apps"; "client-app"; "public"; "models"; "anatomy"].
Definition OUTPUT_FILE : string := "human_body_morphable.glb".

Definition clear_scene : M unit :=
    Bpy.ops_object_select_all "SELECT" ;;;
    Bpy.ops_object_delete [("use_global", ABool false)] ;;;
    print [Txt "✓ Scene cleared"].

Definition import_base_model : M (option nat) :=
    print [Txt "Importing base human model..."] ;;;
    Bpy.add_primitive host "mesh.primitive_cube_add" "MESH"
      [("size", AInt 2); ("location", AVec (0, 0, 1)%Q)] ;;;
    body <- Bpy.active_object ;;
    Bpy.assign_name body "BodyReference_BMI22" ;;;
    Bpy.assign_scale body (0.3, 0.2, 0.85)%Q ;;;
    Bpy.ops_transform_apply_scale host ;;;
    p <- Bpy.deref body "name" ;;
    print [Txt "✓ Base model created: "; Val (AStr (ob_name p.2))] ;;;
    ret body.

Definition create_vertex_groups (obj : option nat) : M (list (string * list nat)) :=
    print [Txt "Creating vertex groups for body regions..."] ;;;
    Bpy.set_active obj ;;;
    Bpy.ops_mode_set "EDIT" ;;;
    vs <- Bpy.vertices obj ;;
    let groups0 : list (string * list nat) :=
      [("abdomen", []); ("chest", []); ("limbs_upper", []); ("limbs_lower", []);
       ("face", []); ("neck", [])] in
    let groups :=
      fold_left
        (fun groups iv =>
           match vertex_group_of iv.2 with
           | Some g => group_append g iv.1 groups
           | None => groups
           end)
        (zip (seq 0 (length vs)) vs) groups0 in
    for_each groups (fun g => Bpy.vertex_group_new obj g.1 g.2) ;;;
    Bpy.ops_mode_set "OBJECT" ;;;
    print [Txt "✓ Created "; Val (AInt (Z.of_nat (length groups))); Txt " vertex groups"] ;;;
    ret groups.

Definition create_bmi_variant (base_obj : option nat) (preset_name : string)
      (preset_params : preset) : M (option nat) :=
    print [Txt "Creating BMI variant: "; Val (AStr preset_name); Txt " (BMI ";
           Val (ANum (bmi preset_params)); Txt ")..."] ;;;
    Bpy.ops_object_select_all "DESELECT" ;;;
    Bpy.select_set base_obj ;;;
    Bpy.set_active base_obj ;;;
    Bpy.ops_duplicate host ;;;
    variant <- Bpy.active_object ;;
    Bpy.assign_name variant ("Body_" ++ preset_name)%string ;;;
    Bpy.ops_mode_set "EDIT" ;;;
    Bpy.edit_vertices variant (scale_vertex preset_params) ;;;
    Bpy.ops_mode_set "OBJECT" ;;;
    print [Txt "✓ Variant created: "; Val (AStr preset_name)] ;;;
    ret variant.

  (** One turn of the loop over [variants.items()] in [create_shape_keys]. *)
Definition add_variant_key (base_obj : option nat) (entry : string * option nat) : M unit :=
    let '(preset_name, variant_obj) := entry in
    base_vs <- Bpy.vertices base_obj ;;
    variant_vs <- Bpy.vertices variant_obj ;;
    if negb (length base_vs =? length variant_vs)%nat then
      print [Txt "  ✗ ERROR: Vertex count mismatch for "; Val (AStr preset_name)]
    else
      shape_key <- Bpy.shape_key_add base_obj preset_name [("from_mix", ABool false)] ;;
      for_each (zip (seq 0 (length variant_vs)) variant_vs)
        (fun iv => Bpy.shape_key_set shape_key iv.1 iv.2) ;;;
      print [Txt "  ✓ Shape key created: "; Val (AStr preset_name)].

Definition create_shape_keys (base_obj : option nat) (variants : list (string * option nat))
    : M unit :=
    print [Txt "Creating shape keys from variants..."] ;;;
    Bpy.set_active base_obj ;;;
    _ <- Bpy.shape_key_add base_obj "Basis" [] ;;
    print [Txt "  ✓ Basis shape key created"] ;;;
    for_each variants (add_variant_key base_obj) ;;;
    print [Txt "✓ "; Val (AInt (Z.of_nat (length variants))); Txt " shape keys created"].

Definition add_organ_meshes (scene_obj : option nat) : M unit :=
    print [Txt "Adding organ meshes..."] ;;;
    for_each ORGANS (fun '(organ_name, location, scale, color) =>
      Bpy.add_primitive host "mesh.primitive_uv_sphere_add" "MESH"
        [("radius", ANum scale); ("location", AVec location)] ;;;
      organ <- Bpy.active_object ;;
      Bpy.assign_name organ organ_name ;;;
      Bpy.set_item organ "isOrgan" (ABool true) ;;;
      Bpy.set_item organ "organName" (AStr organ_name) ;;;
      Bpy.set_item organ "displayColor" (AStr color) ;;;
      mat <- Bpy.materials_new host ("Mat_" ++ organ_name)%string ;;
      Bpy.assign_use_nodes host mat ;;;
      Bpy.node_tree_nodes mat ;;;
      bsdf <- Bpy.nodes_get_bsdf mat ;;
      (if bsdf then
         rgb <- lift (organ_rgb color) ;;
         Bpy.input_set mat "Base Color" (AColor rgb 1.0) ;;;
         Bpy.input_set mat "Roughness" (ANum 0.6)
       else ret tt) ;;;
      Bpy.materials_append organ mat) ;;;
    print [Txt "✓ "; Val (AInt (Z.of_nat (length ORGANS))); Txt " organ meshes added"].

  (** [obj.get('isOrgan')], as a condition *)
Definition truthy (v : option arg) : bool :=
    match v with
    | Some (ABool b) => b
    | Some (AStr s) => negb (String.eqb s "")
    | Some (AInt n) => negb (n =? 0)%Z
    | Some (ANum q) => negb (Qeq_bool q 0)
    | Some (AList l) => negb (bool_decide (l = []))
    | Some _ => true
    | None => false
    end.

Definition export_gltf (base_obj : option nat) (output_path : path) : M unit :=
    print [Txt "Exporting to GLTF: "; Val (APath output_path)] ;;;
    Bpy.ops_object_select_all "DESELECT" ;;;
    objs <- Bpy.data_objects ;;
    for_each objs (fun id =>
      is_organ <- Bpy.get_item (Some id) "isOrgan" ;;
      if bool_decide (Some id = base_obj) || truthy is_organ
      then Bpy.select_set (Some id)
      else ret tt) ;;;
    Bpy.set_active base_obj ;;;
    Bpy.ops_export_gltf host
      [("filepath", APath output_path); ("export_format", AStr "GLB");
       ("use_selection", ABool true); ("export_textures", ABool true);
       ("export_normals", ABool true); ("export_materials", AStr "EXPORT");
       ("export_colors", ABool true); ("export_cameras", ABool false);
       ("export_lights", ABool false); ("export_yup", ABool true);
       ("export_apply", ABool true); ("export_morph", ABool true);
       ("export_morph_normal", ABool true); ("export_morph_tangent", ABool true);
       ("export_draco_mesh_compression_enable", ABool true);
       ("export_draco_mesh_compression_level", AInt 6)] ;;;
    size <- Bpy.getsize host output_path ;;
    let file_size := (inject_Z size / (1024 * 1024))%Q in
    print [Txt "✓ Export complete: "; Val (ANum file_size); Txt " MB"].

Definition main : M unit :=
    print [Txt "\n"; Txt (rule 60)] ;;;
    print [Txt "3D Morphable Anatomy Model Generator"] ;;;
    print [Txt "Creating patient-specific body model with BMI variants"] ;;;
    print [Txt (rule 60); Txt "\n"] ;;;
    Bpy.mkdir OUTPUT_DIR ;;;
    clear_scene ;;;
    base_obj <- import_base_model ;;
    _ <- create_vertex_groups base_obj ;;
    variants <-
      for_fold BMI_PRESETS [] (fun variants '(preset_name, preset_params) =>
        if String.eqb preset_name "Normal" then ret variants
        else
          v <- create_bmi_variant base_obj preset_name preset_params ;;
          ret (PyDict.set preset_name v variants)) ;;
    create_shape_keys base_obj variants ;;;
    for_each variants (fun kv => Bpy.objects_remove kv.2 [("do_unlink", ABool true)]) ;;;
    add_organ_meshes base_obj ;;;
    let output_path := PyPath.join OUTPUT_DIR [OUTPUT_FILE] in
    export_gltf base_obj output_path ;;;
    print [Txt "\n"; Txt (rule 60)] ;;;
    print [Txt "✓ Model generation complete!"] ;;;
    print [Txt "Output: "; Val (APath output_path)] ;;;
    print [Txt "\nNext steps:"] ;;;
    print [Txt "1. Test model in Three.js viewer"] ;;;
    print [Txt "2. Replace primitive shapes with BodyParts3D anatomical models"] ;;;
    print [Txt "3. Add more detailed organ structures"] ;;;
    print [Txt "4. Refine BMI morph targets based on medical reference images"] ;;;
    print [Txt (rule 60); Txt "\n"].

End WithHost.
End CreateMorphTargets.

(** ** A concrete host, for running the scripts on

    A small stand-in for Blender 4.x and later: a Principled BSDF with the
    renamed subsurface input, node trees on by default, primitives whose
    polygon count follows their resolution, subdivision that quadruples
    the count per level, decimation that scales it by the ratio. *)
Module SampleHost.

Definition kw_int (key : string) (default : Z) (kwargs : list (string * arg)) : Z :=
    match list_find (fun p => p.1 = key) kwargs with
    | Some (_, (_, AInt n)) => n
    | _ => default
    end.

Definition cube_verts : list vec3 :=
    [ (-1, -1, 0); (-1, 1, 0); (1, -1, 0); (1, 1, 0);
      (-1, -1, 2); (-1, 1, 2); (1, -1, 2); (1, 1, 2) ]%Q.

Definition primitive (op : string) (kwargs : list (string * arg)) : mesh :=
    if String.eqb op "mesh.primitive_uv_sphere_add" then
      {| verts := []; polygons := kw_int "segments" 32 kwargs * kw_int "ring_count" 16 kwargs |}
    else if String.eqb op "mesh.primitive_cylinder_add" then
      {| verts := []; polygons := kw_int "vertices" 32 kwargs + 2 |}
    else if String.eqb op "mesh.primitive_cube_add" then
      {| verts := cube_verts; polygons := 6 |}
    else {| verts := []; polygons := 0 |}.

Definition scale_by (s : vec3) (v : vec3) : vec3 :=
    (v.1.1 * s.1.1, v.1.2 * s.1.2, v.2 * s.2)%Q.

Definition mesh_op_result (op : mesh_op) (m : mesh) : mesh :=
    match op with
    | ApplyScale s => {| verts := scale_by s <$> verts m; polygons := polygons m |}
    | Subsurf levels => {| verts := verts m; polygons := polygons m * 4 ^ Z.of_nat levels |}
    | Decimate ratio _ =>
        {| verts := verts m;
           polygons := (Qnum ratio * polygons m) / Z.pos (Qden ratio) |}
    | CurveToMesh => {| verts := verts m; polygons := 96 |}
    | _ => m
    end.

Definition inputs : gmap string arg :=
    list_to_map
      [("Base Color", AColor (0.8, 0.8, 0.8)%Q 1); ("Roughness", ANum 0.5);
       ("Subsurface Weight", ANum 0); ("Alpha", ANum 1)].

Definition host : Host :=
    {| script_file := ["repo"; "scripts"; "blender"; "script.py"];
       principled_inputs := inputs;
       default_nodes := true;
       context_is_scene_collection := false;
       primitive_mesh := primitive;
       primitive_name := fun op => op;
       run_mesh_op := mesh_op_result;
       path_exists := fun _ => false;
       obj_file := fun _ => [];
       blend_file := fun _ => [];
       list_dir := fun _ => [];
       file_size := fun _ => 1048576%Z;
       gltf_export := fun _ _ => Ok tt |}.

  (** The same machine with the models directory in place and one OBJ
      file holding one mesh per FMA code. *)
Definition host_with_models : Host :=
    {| script_file := script_file host;
       principled_inputs := <["Subsurface" := ANum 0]> (<["Subsurface Color" := AColor (1, 1, 1)%Q 1]> inputs);
       default_nodes := false;
       context_is_scene_collection := true;
       primitive_mesh := primitive;
       primitive_name := fun op => op;
       run_mesh_op := mesh_op_result;
       path_exists := fun _ => true;
       obj_file := fun p => [("imported", {| verts := []; polygons := 40000 |})];
       blend_file := fun _ => [];
       list_dir := fun _ => ["FMA50801.obj"; "README.txt"];
       file_size := fun _ => 1048576%Z;
       gltf_export := fun _ _ => Ok tt |}.

End SampleHost.

Definition log_of {A} (r : res A * scene * list event) : list event := r.2.
Definition scene_of {A} (r : res A * scene * list event) : scene := r.1.2.
Definition result_of {A} (r : res A * scene * list event) : res A := r.1.1.

Definition is_op (e : event) : bool := match e with Op _ _ => true | _ => false end.
Definition op_names (l : list event) : list string :=
  omap (fun e => match e with Op n _ => Some n | _ => None end) l.


(** ** Vocabulary of the statements *)

(** Six hexadecimal digits, with or without one leading [#]. *)
Definition is_hex_digit (c : ascii) : bool :=
  match PyStr.hex_value c with
  | Some _ => true
  | None => false
  end.

Definition six_hex (body : string) : bool :=
  (String.length body =? 6)%nat && forallb is_hex_digit (list_ascii_of_string body).

Definition hex_color_input (s : string) : bool :=
  six_hex s ||
  match s with
  | String "#"%char body => six_hex body
  | _ => false
  end.

(** The byte two hexadecimal digits spell. *)
Definition byte_of (hi lo : ascii) : Z :=
  (16 * default 0 (PyStr.hex_value hi) + default 0 (PyStr.hex_value lo))%Z.

(** The colour conversion as the specification words it: drop the
    optional [#], read three bytes, divide each by 255. *)
Definition strip_hash (s : string) : string :=
  match s with
  | String "#"%char b => b
  | _ => s
  end.

Definition hex_to_rgb_spec (s : string) : option rgb :=
  match list_ascii_of_string (strip_hash s) with
  | [r1; r0; g1; g0; b1; b0] =>
      Some (inject_Z (byte_of r1 r0) / 255,
            inject_Z (byte_of g1 g0) / 255,
            inject_Z (byte_of b1 b0) / 255)%Q
  | _ => None
  end.

Definition unit_interval (q : Q) : Prop := (0 <= q /\ q <= 1)%Q.

(** Equality of positions as numbers, component by component. *)
Definition vec_eq (a b : vec3) : Prop :=
  (a.1.1 == b.1.1 /\ a.1.2 == b.1.2 /\ a.2 == b.2)%Q.

(** [BMI_PRESETS[name]] *)
Definition preset_named (name : string) : option CreateMorphTargets.preset :=
  snd <$> List.find (fun p => String.eqb p.1 name) CreateMorphTargets.BMI_PRESETS.

(** A run from [s] that ends normally, with a result, a scene and a log
    satisfying [Q]. *)
Definition wp {A} (m : M A) (s : scene) (Q : A -> scene -> list event -> Prop) : Prop :=
  match m s with
  | (Ok a, s', l) => Q a s' l
  | (Raise _, _, _) => False
  end.

(** Every event a computation logs satisfies [P], from any scene and
    whether the run ends normally or not. *)
Definition log_all {A} (P : event -> Prop) (m : M A) : Prop :=
  forall s, Forall P (log_of (m s)).

(** [kwargs[key]] *)
Definition kw_get (key : string) (kwargs : list (string * arg)) : option arg :=
  snd <$> List.find (fun p => String.eqb p.1 key) kwargs.

Definition is_export (e : event) : bool :=
  match e with
  | Op name _ => String.eqb name "export_scene.gltf"
  | _ => false
  end.

(** A text that is one component of a path, a file name: it holds no
    slash and is neither empty, [.] nor [..]. *)
Definition plain_name (name : string) : bool :=
  match PyPath.of_string name with
  | [c] => String.eqb c name && negb (String.eqb name "..") && negb (PyPath.is_root name)
  | _ => false
  end.

(** An exporter call for a binary GLB file at the path [p]. *)
Definition glb_at (p : path) (kwargs : list (string * arg)) : Prop :=
  kw_get "export_format" kwargs = Some (AStr "GLB") /\
  kw_get "filepath" kwargs = Some (APath p).

(** An exporter call for a binary GLB file directly inside [dir]. *)
Definition glb_into (dir : path) (kwargs : list (string * arg)) : Prop :=
  exists file, plain_name file = true /\
               glb_at (PyPath.join dir [file]) kwargs /\
               PyPath.parent (PyPath.join dir [file]) = dir.

(** The exporter calls of a log, each by its keyword arguments, in order. *)
Definition export_calls (l : list event) : list (list (string * arg)) :=
  omap (fun e => match e with
                 | Op name kwargs =>
                     if String.eqb name "export_scene.gltf" then Some kwargs else None
                 | _ => None
                 end) l.

(** The host's exporter never refuses a call. *)
Definition exporter_accepts (host : Host) : Prop :=
  forall kwargs s, gltf_export host kwargs s = Ok tt.

(** However the run from [s] ends, its result, its scene and its log
    satisfy [P]. *)
Definition ends {A} (m : M A) (s : scene) (P : res A -> scene -> list event -> Prop) : Prop :=
  match m s with
  | (r, s', l) => P r s' l
  end.

Definition export_ok (dir : path) (e : event) : Prop :=
  match e with
  | Op name kwargs => if String.eqb name "export_scene.gltf" then glb_into dir kwargs else True
  | _ => True
  end.

(** The Draco options of an export call. *)
Definition draco_settings (level position normal texcoord : Z) (kwargs : list (string * arg)) : Prop :=
  kw_get "export_draco_mesh_compression_enable" kwargs = Some (ABool true) /\
  kw_get "export_draco_mesh_compression_level" kwargs = Some (AInt level) /\
  kw_get "export_draco_position_quantization" kwargs = Some (AInt position) /\
  kw_get "export_draco_normal_quantization" kwargs = Some (AInt normal) /\
  kw_get "export_draco_texcoord_quantization" kwargs = Some (AInt texcoord).

(** Events that only the optimisation and export steps produce: their
    banners, the decimation modifier, the exporter. *)
Definition optimize_or_export (e : event) : bool :=
  match e with
  | Op name _ =>
      PyList.contains name ["export_scene.gltf"; "modifiers.new"; "object.modifier_apply"]
  | Print (Txt t :: _) =>
      PyList.contains t ["OPTIMIZING MODELS (Target: "; "EXPORTING TO GLTF"]
  | _ => false
  end.

(** The sample machine with an input directory that holds no OBJ file. *)
Definition host_empty_models_dir : Host :=
  {| script_file := script_file SampleHost.host;
     principled_inputs := principled_inputs SampleHost.host;
     default_nodes := true;
     context_is_scene_collection := false;
     primitive_mesh := SampleHost.primitive;
     primitive_name := fun op => op;
     run_mesh_op := SampleHost.mesh_op_result;
     path_exists := fun p =>
       bool_decide (p = ImportBodyParts3D.MODELS_INPUT_DIR SampleHost.host);
     obj_file := fun _ => [];
     blend_file := fun _ => [];
     list_dir := fun _ => [];
     file_size := fun _ => 0%Z;
     gltf_export := fun _ _ => Ok tt |}.

Definition no_export (l : list event) : Prop := Forall (fun e => is_export e = false) l.

(** A computation that ends normally from every scene, logging only
    events that satisfy [P]. *)
Definition total {A} (P : event -> Prop) (m : M A) : Prop :=
  forall s, wp m s (fun _ _ l => Forall P l).

(** What the build and procedural scripts need of the host: materials are
    born with a node tree, and the Principled BSDF has the two inputs
    every version has. *)
Definition shader_ready (host : Host) : Prop :=
  default_nodes host = true /\
  is_Some (principled_inputs host !! "Base Color") /\
  is_Some (principled_inputs host !! "Roughness").

(** An object after its Decimate modifier has been applied. *)
Definition decimated (host : Host) (ratio : Q) (ob : object) : object :=
  set_modifiers [] (set_data (run_mesh_op host (Decimate ratio true) (ob_data ob)) ob).

Definition is_print (e : event) : bool :=
  match e with
  | Print _ => true
  | _ => false
  end.

Definition brain_mesh_object : object :=
  {| ob_name := "brain"; ob_type := "MESH";
     ob_data := {| verts := []; polygons := 8000 |};
     ob_scale := vec_one; ob_location := vec_zero; ob_props := ∅;
     ob_materials := []; ob_modifiers := []; ob_shape_keys := [];
     ob_vertex_groups := []; ob_hidden := false |}.

Definition camera_object : object :=
  {| ob_name := "Camera"; ob_type := "CAMERA";
     ob_data := {| verts := []; polygons := 0 |};
     ob_scale := vec_one; ob_location := vec_zero; ob_props := ∅;
     ob_materials := []; ob_modifiers := []; ob_shape_keys := [];
     ob_vertex_groups := []; ob_hidden := false |}.

(** The copy [create_bmi_variant] makes of the base object. *)
Definition variant_of (preset_name : string) (params : CreateMorphTargets.preset)
    (base : object) : object :=
  set_data {| verts := CreateMorphTargets.scale_vertex params <$> verts (ob_data base);
              polygons := polygons (ob_data base) |}
           (set_name ("Body_" ++ preset_name)%string base).

(** A scene holding only the unit cube the morph script starts from. *)
Definition cube_object : object :=
  {| ob_name := "BodyReference_BMI22"; ob_type := "MESH";
     ob_data := {| verts := SampleHost.cube_verts; polygons := 6 |};
     ob_scale := vec_one; ob_location := vec_zero; ob_props := ∅;
     ob_materials := []; ob_modifiers := []; ob_shape_keys := [];
     ob_vertex_groups := []; ob_hidden := false |}.

Definition cube_scene : scene :=
  {| objects := <[0%nat := cube_object]> ∅;
     materials := ∅; next_id := 1; active := None; selected := []; linked := [];
     edit_mode := [] |}.

(** A scene with one mesh of 8000 polygons and one camera. *)
Definition two_object_scene : scene :=
  {| objects := <[0%nat := brain_mesh_object]> (<[1%nat := camera_object]> ∅);
     materials := ∅; next_id := 2; active := None; selected := []; linked := [];
     edit_mode := [] |}.

(** An object whose shape key number [idx] holds [data]. *)
Definition with_key_data (idx : nat) (data : list vec3) (ob : object) : object :=
  set_shape_keys
    (alter (fun k => {| sk_name := sk_name k; sk_data := data |}) idx (ob_shape_keys ob)) ob.

(** The shape keys the variants with the base's vertex count give, in order. *)
Definition matching_keys (base_verts : list vec3) (vdata : list (string * list vec3))
  : list shape_key :=
  omap (fun d => if (length base_verts =? length d.2)%nat
                 then Some {| sk_name := d.1; sk_data := d.2 |} else None) vdata.

(** What [create_shape_keys] logs for one variant. *)
Definition variant_events (b : nat) (base_verts : list vec3) (d : string * list vec3)
  : list event :=
  if (length base_verts =? length d.2)%nat
  then [Op "shape_key_add" [("object", ARef b); ("name", AStr d.1); ("from_mix", ABool false)];
        Print [Txt "  ✓ Shape key created: "; Val (AStr d.1)]]
  else [Print [Txt "  ✗ ERROR: Vertex count mismatch for "; Val (AStr d.1)]].

(** The variant [v] is an object of the scene whose vertices are [d]. *)
Definition variant_in (s : scene) (v : string * nat) (d : string * list vec3) : Prop :=
  d.1 = v.1 /\ exists vob, objects s !! v.2 = Some vob /\ verts (ob_data vob) = d.2.

(** A base cube with two candidate variants: one with the cube's eight
    vertices, one with three. *)
Definition stretched_cube : object :=
  variant_of "Obese1" {| CreateMorphTargets.bmi := 32.5; CreateMorphTargets.abdomen_scale := 1.45;
                         CreateMorphTargets.limbs_scale := 1.15;
                         CreateMorphTargets.face_scale := 1.12 |} cube_object.

Definition triangle_object : object :=
  set_data {| verts := [(0, 0, 0); (1, 0, 0); (0, 1, 0)]%Q; polygons := 1 |}
           (set_name "Body_Broken" cube_object).

Definition morph_scene : scene :=
  {| objects := <[0%nat := cube_object]> (<[1%nat := stretched_cube]> (<[2%nat := triangle_object]> ∅));
     materials := ∅; next_id := 3; active := None; selected := []; linked := [];
     edit_mode := [] |}.

(** A computation that raises, with an exception satisfying [P]. *)
Definition fails {A} (m : M A) (s : scene) (P : exn -> Prop) : Prop :=
  match m s with
  | (Raise e, _, _) => P e
  | (Ok _, _, _) => False
  end.

(** The material has a Principled BSDF whose Base Color and Roughness
    hold the given values. *)
Definition shaded (s : scene) (mat : nat) (colour : rgb) (roughness : Q) : Prop :=
  exists m ins,
    materials s !! mat = Some m /\ mat_bsdf m = Some ins /\
    ins !! "Base Color" = Some (AColor colour 1.0) /\
    ins !! "Roughness" = Some (ANum roughness).

(** Calls that create a new object from a primitive. *)
Definition is_primitive (e : event) : bool :=
  match e with
  | Op name _ =>
      PyList.contains name
        ["mesh.primitive_uv_sphere_add"; "mesh.primitive_cylinder_add";
         "mesh.primitive_cube_add"; "curve.primitive_bezier_curve_add"]
  | _ => false
  end.

Definition count_primitives (l : list event) : nat := length (List.filter is_primitive l).

(** A stretch of log with [n] primitive creations and no exporter call. *)
Definition creates (n : nat) (l : list event) : Prop :=
  no_export l /\ count_primitives l = n.

(** A computation that, from every scene, ends normally having created
    [n] primitives and exported nothing. *)
Definition always (n : nat) {A} (m : M A) : Prop :=
  forall s, wp m s (fun _ _ l => creates n l).

Definition quiet (e : event) : Prop := is_export e = false /\ is_primitive e = false.

(** The size argument fits a branch of the dispatch of [create_organ]. *)
Definition dispatched (geometry_type : string) (size : GenerateProcedural.size_arg) : bool :=
  match size with
  | GenerateProcedural.SNum _ => String.eqb geometry_type "sphere"
  | GenerateProcedural.SPair _ _ =>
      String.eqb geometry_type "cylinder" || String.eqb geometry_type "capsule"
  | GenerateProcedural.STriple _ =>
      String.eqb geometry_type "ellipsoid" || String.eqb geometry_type "cylinder" ||
      String.eqb geometry_type "capsule"
  end.

(** The custom properties the build and procedural scripts give an object. *)
Definition tags (system : string) : gmap string arg :=
  <["clickable" := ABool true]> (<["system" := AStr system]> ∅).

(** The colour literal parses. *)
Definition valid_color (color : string) : bool :=
  match GenerateProcedural.hex_to_rgb color with
  | Ok _ => true
  | Raise _ => false
  end.

(** The shape of a whole run: lines only, then the scene is cleared, then
    [structures] primitives are created with no exporter call in between,
    then the single exporter call, then lines only.  [draco] says whether
    the exporter call carries the compression option. *)
Definition pipeline (draco : bool) (structures : nat) (l : list event) : Prop :=
  exists pre delete_kwargs mid export_kwargs post,
    l = pre ++
        [Op "object.select_all" [("action", AStr "SELECT")]; Op "object.delete" delete_kwargs] ++
        mid ++ [Op "export_scene.gltf" export_kwargs] ++ post /\
    Forall (fun e => is_op e = false) pre /\
    creates structures mid /\
    Forall (fun e => is_op e = false) post /\
    kw_get "export_format" export_kwargs = Some (AStr "GLB") /\
    kw_get "export_draco_mesh_compression_enable" export_kwargs
      = (if draco then Some (ABool true) else None).

(** The type tags the [if]/[elif] chain of [build_anatomy_model] has a
    branch for. *)
Definition BUILD_TAGS : list string :=
  ["complex"; "tube"; "bean"; "dome"; "coiled_tube";
   "pouch"; "oval"; "elongated"; "sphere"; "curved_tube"; "tube_frame"].

Definition handled (ty : string) : bool := PyList.contains ty BUILD_TAGS.

(** The object behind a handle has exactly these custom properties. *)
Definition carries (props : gmap string arg) (s : scene) (id : nat) : Prop :=
  exists ob, objects s !! id = Some ob /\ ob_props ob = props.

Definition build_color (color : string) : bool :=
  match BuildCustomAnatomy.hex_to_rgb color with Ok _ => true | Raise _ => false end.

(** A table entry whose type has a branch and whose colour parses. *)
Definition buildable (entry : string * BuildCustomAnatomy.structure) : bool :=
  handled (BuildCustomAnatomy.s_type entry.2) && build_color (BuildCustomAnatomy.s_color entry.2).

(** The objects with a handle below [n] are the same in both scenes. *)
Definition kept_below (n : nat) (s s' : scene) : Prop :=
  forall i, (i < n)%nat -> objects s' !! i = objects s !! i.

(** The handle refers to an object of the scene. *)
Definition alive (s : scene) (id : nat) : Prop := is_Some (objects s !! id).

(** The handle refers to an object that is hidden. *)
Definition hidden_in (s : scene) (id : nat) : Prop :=
  exists ob, objects s !! id = Some ob /\ ob_hidden ob = true.

(** The first lines of [build_anatomy_model]. *)
Definition build_banner : list event :=
  [Print [Txt "\n"; Txt (rule 70)]; Print [Txt "CUSTOM ANATOMY MODEL BUILDER"];
   Print [Txt (rule 70); Txt "\n"]; Print [Txt "Clearing scene..."]].

(** Only [#] characters. *)
Definition all_hash (s : string) : bool :=
  forallb (Ascii.eqb "#"%char) (list_ascii_of_string s).

Definition starts_with_hash (s : string) : bool :=
  match s with
  | String a _ => Ascii.eqb a "#"%char
  | EmptyString => false
  end.

(** The range a colour component can take: a two-character slice reads
    as a number from [-f] to [ff]. *)
Definition component_range (q : Q) : Prop := (inject_Z (-15) / 255 <= q /\ q <= 1)%Q.

(** Every character, and the check of [int(s, 16)] on a text of one or
    two characters. *)
Definition all_ascii : list ascii := map ascii_of_nat (seq 0 256).

Definition short_parse_ok (s : string) : bool :=
  match PyStr.parse16 s with
  | Some v => (-15 <=? v)%Z && (v <=? 255)%Z
  | None => true
  end.

Definition short_parses_ok (chars : list ascii) : bool :=
  forallb (fun a =>
             short_parse_ok (String a EmptyString) &&
             forallb (fun b => short_parse_ok (String a (String b EmptyString))) chars)
          chars.

(** [z_anatomy_path and Path(z_anatomy_path).exists()] *)
Definition reference_given (host : Host) (z_anatomy_path : option string) : bool :=
  match z_anatomy_path with
  | Some z => negb (String.eqb z "") && path_exists host (PyPath.of_string z)
  | None => false
  end.

(** The material [materials.new] makes on a host where new materials
    have no node tree. *)
Definition bare_material (name : string) : material :=
  {| mat_name := name; mat_tree := false; mat_bsdf := None;
     mat_output := false; mat_linked := false; mat_blend := "OPAQUE" |}.

Definition brain_structure : BuildCustomAnatomy.structure :=
  {| BuildCustomAnatomy.s_type := "complex";
     BuildCustomAnatomy.s_position := (0, 1.52, 0.02)%Q;
     BuildCustomAnatomy.s_size := (0.12, 0.14, 0.11)%Q;
     BuildCustomAnatomy.s_color := "#E8B4D9";
     BuildCustomAnatomy.s_system := "NERVOUS";
     BuildCustomAnatomy.s_subdivisions := 4;
     BuildCustomAnatomy.s_features := Some ["cerebrum"; "cerebellum"; "brainstem"] |}.

(** [geometry_type] is one of the four [create_organ] has a branch for. *)
Definition known_geometry (geometry_type : string) : bool :=
  PyList.contains geometry_type ["sphere"; "ellipsoid"; "cylinder"; "capsule"].

(** Two objects that differ at most in their geometry. *)
Definition same_but_data (a b : object) : Prop :=
  ob_name a = ob_name b /\ ob_type a = ob_type b /\ ob_props a = ob_props b /\
  ob_materials a = ob_materials b /\ ob_hidden a = ob_hidden b.

(** An object that is not the product of any creation: a camera that
    happens to be active. *)
Definition camera_scene : scene :=
  {| objects := <[0%nat := camera_object]> ∅;
     materials := ∅; next_id := 1; active := Some 0%nat; selected := []; linked := [];
     edit_mode := [] |}.

(** The Principled BSDF has the four inputs the BodyParts3D material sets. *)
Definition legacy_shader (host : Host) : Prop :=
  is_Some (principled_inputs host !! "Base Color") /\
  is_Some (principled_inputs host !! "Roughness") /\
  is_Some (principled_inputs host !! "Subsurface") /\
  is_Some (principled_inputs host !! "Subsurface Color").

Definition import_color (color : string) : bool :=
  match ImportBodyParts3D.hex_to_rgb color with Ok _ => true | Raise _ => false end.

(** [not obj or obj.type != 'MESH'], read off the scene *)
Definition no_mesh_behind (s : scene) (obj : option nat) : Prop :=
  match obj with
  | None => True
  | Some id => exists ob, objects s !! id = Some ob /\ ob_type ob <> "MESH"
  end.

(** The custom properties [add_organ_meshes] gives an organ. *)
Definition organ_props (organ_name color : string) : gmap string arg :=
  <["displayColor" := AStr color]>
    (<["organName" := AStr organ_name]> (<["isOrgan" := ABool true]> ∅)).

Definition organ_color (organ : string * vec3 * Q * string) : bool :=
  match CreateMorphTargets.organ_rgb organ.2 with Ok _ => true | Raise _ => false end.

(** The Principled BSDF has the two inputs [add_organ_meshes] sets. *)
Definition organ_shader (host : Host) : Prop :=
  is_Some (principled_inputs host !! "Base Color") /\
  is_Some (principled_inputs host !! "Roughness").

(** [obj == base_obj or obj.get('isOrgan')], for the object behind a handle *)
Definition exported (base_obj : option nat) (s : scene) (id : nat) : bool :=
  bool_decide (Some id = base_obj) ||
  match objects s !! id with
  | Some ob => CreateMorphTargets.truthy (ob_props ob !! "isOrgan")
  | None => false
  end.

(** The body mesh [import_base_model] makes. *)
Definition base_body (host : Host) : object :=
  let kwargs := [("size", AInt 2); ("location", AVec (0, 0, 1)%Q)] in
  {| ob_name := "BodyReference_BMI22"; ob_type := "MESH";
     ob_data := run_mesh_op host (ApplyScale (0.3, 0.2, 0.85)%Q)
                  (primitive_mesh host "mesh.primitive_cube_add" kwargs);
     ob_scale := vec_one; ob_location := Bpy.kw_location kwargs;
     ob_props := ∅; ob_materials := []; ob_modifiers := [];
     ob_shape_keys := []; ob_vertex_groups := []; ob_hidden := false |}.

(** The keyword arguments of the exporter call in [create_morph_targets.py]. *)
Definition morph_export_kwargs (output_path : path) : list (string * arg) :=
  [("filepath", APath output_path); ("export_format", AStr "GLB");
   ("use_selection", ABool true); ("export_textures", ABool true);
   ("export_normals", ABool true); ("export_materials", AStr "EXPORT");
   ("export_colors", ABool true); ("export_cameras", ABool false);
   ("export_lights", ABool false); ("export_yup", ABool true);
   ("export_apply", ABool true); ("export_morph", ABool true);
   ("export_morph_normal", ABool true); ("export_morph_tangent", ABool true);
   ("export_draco_mesh_compression_enable", ABool true);
   ("export_draco_mesh_compression_level", AInt 6)].

(** The first lines of [create_morph_targets.main], and the call that
    makes the output directory. *)
Definition morph_banner (host : Host) : list event :=
  [Print [Txt "\n"; Txt (rule 60)];
   Print [Txt "3D Morphable Anatomy Model Generator"];
   Print [Txt "Creating patient-specific body model with BMI variants"];
   Print [Txt (rule 60); Txt "\n"];
   Mkdir (CreateMorphTargets.OUTPUT_DIR host)].

(** A computation that, however it ends, leaves the scene related to
    the one it started from. *)
Definition keeps (R : scene -> scene -> Prop) {A} (m : M A) : Prop :=
  forall s, R s (scene_of (m s)).

(** No handle was handed out in between. *)
Definition same_handles (s s' : scene) : Prop := next_id s' = next_id s.

(** The key a preset gives: the base vertices moved by the preset. *)
Definition preset_key (name : string) (params : CreateMorphTargets.preset)
    (base_verts : list vec3) : shape_key :=
  {| sk_name := name; sk_data := CreateMorphTargets.scale_vertex params <$> base_verts |}.

Definition obese1 : CreateMorphTargets.preset :=
  {| CreateMorphTargets.bmi := 32.5; CreateMorphTargets.abdomen_scale := 1.45;
     CreateMorphTargets.limbs_scale := 1.15; CreateMorphTargets.face_scale := 1.12 |}.

(** * Theorems *)

(** ** Colour conversion *)

Lemma hex_value_bound c v : PyStr.hex_value c = Some v -> (0 <= v < 16)%Z.
Proof.
  unfold PyStr.hex_value, PyStr.digit_value.
  repeat case_match; intros; simplify_eq; lia.
Qed.

Lemma hex_digit_cases a :
  is_hex_digit a = true ->
  In a (list_ascii_of_string "0123456789abcdefABCDEF").
Proof.
  destruct a as [[] [] [] [] [] [] [] []]; try discriminate; intros _; cbn; tauto.
Qed.

(** [int] on a slice made of two hexadecimal digits. *)
Lemma int16_two_digits a b :
  is_hex_digit a = true -> is_hex_digit b = true ->
  PyStr.int16 (String a (String b EmptyString)) = Ok (byte_of a b).
Proof.
  intros Ha Hb. apply hex_digit_cases in Ha, Hb. cbn in Ha, Hb.
  intuition subst; reflexivity.
Qed.

Lemma six_hex_inv s :
  six_hex s = true ->
  exists a b c d e f,
    s = String a (String b (String c (String d (String e (String f EmptyString))))) /\
    is_hex_digit a = true /\ is_hex_digit b = true /\ is_hex_digit c = true /\
    is_hex_digit d = true /\ is_hex_digit e = true /\ is_hex_digit f = true.
Proof.
  unfold six_hex. intros H. apply andb_true_iff in H as [Hlen Hall].
  apply Nat.eqb_eq in Hlen.
  do 6 (destruct s as [|? s]; [discriminate Hlen|]).
  destruct s; [|discriminate Hlen].
  cbn in Hall. repeat (apply andb_true_iff in Hall as [? Hall]).
  eauto 20.
Qed.

Lemma hex_digit_not_hash a : is_hex_digit a = true -> Ascii.eqb a "#"%char = false.
Proof. intros Ha. apply hex_digit_cases in Ha. cbn in Ha. intuition subst; reflexivity. Qed.

Lemma strip_hash_digit a r : is_hex_digit a = true -> strip_hash (String a r) = String a r.
Proof. intros Ha. apply hex_digit_cases in Ha. cbn in Ha. intuition subst; reflexivity. Qed.

Lemma byte_of_bound a b :
  is_hex_digit a = true -> is_hex_digit b = true -> (0 <= byte_of a b <= 255)%Z.
Proof.
  unfold is_hex_digit, byte_of.
  destruct (PyStr.hex_value a) eqn:Ha; [|discriminate].
  destruct (PyStr.hex_value b) eqn:Hb; [|discriminate].
  apply hex_value_bound in Ha, Hb. cbn. lia.
Qed.

Lemma byte_fraction_unit v : (0 <= v <= 255)%Z -> unit_interval (inject_Z v / 255).
Proof.
  intros Hv. unfold unit_interval, Qle, Qdiv, Qmult, Qinv, inject_Z. cbn. lia.
Qed.

(** What the conversion written in [build_custom_anatomy.py] returns on six
    hexadecimal digits. *)
Lemma hex_to_rgb_six a b c d e f :
  is_hex_digit a = true -> is_hex_digit b = true -> is_hex_digit c = true ->
  is_hex_digit d = true -> is_hex_digit e = true -> is_hex_digit f = true ->
  let body := String a (String b (String c (String d (String e (String f EmptyString))))) in
  let colour := (inject_Z (byte_of a b) / 255, inject_Z (byte_of c d) / 255,
                 inject_Z (byte_of e f) / 255)%Q in
  BuildCustomAnatomy.hex_to_rgb body = Ok colour /\
  BuildCustomAnatomy.hex_to_rgb (String "#"%char body) = Ok colour.
Proof.
  intros Ha Hb Hc Hd He Hf body colour.
  assert (Hstrip : PyStr.lstrip "#"%char body = body).
  { subst body. cbn [PyStr.lstrip]. by rewrite (hex_digit_not_hash a Ha). }
  assert (Hcode : BuildCustomAnatomy.hex_to_rgb body = Ok colour).
  { unfold BuildCustomAnatomy.hex_to_rgb. rewrite Hstrip. subst body.
    cbn [PyStr.slice substring].
    rewrite !int16_two_digits by assumption. reflexivity. }
  split; [exact Hcode|].
  unfold BuildCustomAnatomy.hex_to_rgb in *.
  change (PyStr.lstrip "#"%char (String "#"%char body)) with (PyStr.lstrip "#"%char body).
  exact Hcode.
Qed.

(** C10. The three [hex_to_rgb] functions agree: on six hexadecimal digits,
    with or without a leading [#], each returns the triple of the three
    bytes divided by 255, and every component lies between 0 and 1. *)
Theorem hex_to_rgb_three_scripts_agree (s : string) :
  hex_color_input s = true ->
  exists colour : rgb,
    hex_to_rgb_spec s = Some colour /\
    BuildCustomAnatomy.hex_to_rgb s = Ok colour /\
    GenerateProcedural.hex_to_rgb s = Ok colour /\
    ImportBodyParts3D.hex_to_rgb s = Ok colour /\
    unit_interval colour.1.1 /\ unit_interval colour.1.2 /\ unit_interval colour.2.
Proof.
  intros Hin.
  assert (Hcases : exists a b c d e f,
             let body := String a (String b (String c (String d (String e (String f EmptyString))))) in
             (s = body \/ s = String "#"%char body) /\
             is_hex_digit a = true /\ is_hex_digit b = true /\ is_hex_digit c = true /\
             is_hex_digit d = true /\ is_hex_digit e = true /\ is_hex_digit f = true).
  { unfold hex_color_input in Hin. apply orb_true_iff in Hin as [H | H].
    - apply six_hex_inv in H as (a & b & c & d & e & f & -> & ?). exists a, b, c, d, e, f.
      cbn. tauto.
    - destruct s as [|h body]; [discriminate|].
      destruct (Ascii.eqb_spec h "#"%char) as [-> | Hne].
      + apply six_hex_inv in H as (a & b & c & d & e & f & -> & ?). exists a, b, c, d, e, f.
        cbn. tauto.
      + destruct h as [[] [] [] [] [] [] [] []]; try discriminate H. congruence. }
  destruct Hcases as (a & b & c & d & e & f & Hs & Ha & Hb & Hc & Hd & He & Hf).
  destruct (hex_to_rgb_six a b c d e f Ha Hb Hc Hd He Hf) as [Hplain Hhash].
  cbn zeta in Hs, Hplain, Hhash.
  eexists. split; [|split; [|split; [|split]]].
  - unfold hex_to_rgb_spec.
    destruct Hs as [-> | ->].
    + rewrite strip_hash_digit by assumption. reflexivity.
    + reflexivity.
  - destruct Hs as [-> | ->]; assumption.
  - destruct Hs as [-> | ->]; assumption.
  - destruct Hs as [-> | ->]; assumption.
  - cbn. repeat split; apply byte_fraction_unit; apply byte_of_bound; assumption.
Qed.

(** ** BMI scaling *)

Lemma scale_vertex_at_one (params : CreateMorphTargets.preset) (co : vec3) :
  (CreateMorphTargets.abdomen_scale params == 1)%Q ->
  (CreateMorphTargets.limbs_scale params == 1)%Q ->
  (CreateMorphTargets.face_scale params == 1)%Q ->
  vec_eq (CreateMorphTargets.scale_vertex params co) co.
Proof.
  intros Ha Hl Hf. destruct co as [[x y] z].
  unfold CreateMorphTargets.scale_vertex, vec_eq.
  repeat match goal with
         | |- context [if ?b then _ else _] => destruct b
         end; cbn [fst snd]; rewrite ?Ha, ?Hl, ?Hf; repeat split; ring.
Qed.

Lemma normal_preset_scales :
  exists params,
    preset_named "Normal" = Some params /\
    (CreateMorphTargets.abdomen_scale params == 1)%Q /\
    (CreateMorphTargets.limbs_scale params == 1)%Q /\
    (CreateMorphTargets.face_scale params == 1)%Q.
Proof. eexists. split; [reflexivity|]. repeat split. Qed.

(** ** Reasoning about runs *)

Lemma wp_bind {A B} (m : M A) (f : A -> M B) s Q :
  wp m s (fun a s1 l1 => wp (f a) s1 (fun b s2 l2 => Q b s2 (l1 ++ l2))) ->
  wp (bind m f) s Q.
Proof.
  unfold wp, bind. destruct (m s) as [[[a|e] s1] l1]; [|done].
  destruct (f a s1) as [[[b|e] s2] l2]; done.
Qed.

Lemma wp_mono {A} (m : M A) s (Q Q' : A -> scene -> list event -> Prop) :
  wp m s Q -> (forall a s' l, Q a s' l -> Q' a s' l) -> wp m s Q'.
Proof. unfold wp. destruct (m s) as [[[a|e] s1] l1]; [auto|done]. Qed.

Lemma wp_run {A} (m : M A) s Q :
  wp m s Q <-> exists a s' l, m s = (Ok a, s', l) /\ Q a s' l.
Proof.
  unfold wp. split.
  - destruct (m s) as [[[a|e] s1] l1]; [eauto 6|done].
  - intros (a & s' & l & -> & HQ). done.
Qed.

Lemma wp_ret {A} (a : A) s Q : Q a s [] -> wp (ret a) s Q.
Proof. done. Qed.

Lemma wp_emit e s Q : Q tt s [e] -> wp (emit e) s Q.
Proof. done. Qed.

Lemma wp_modify f s Q : Q tt (f s) [] -> wp (modify f) s Q.
Proof. done. Qed.

Lemma wp_get s Q : Q s s [] -> wp get s Q.
Proof. done. Qed.

Lemma wp_lift {A} (r : res A) a s Q : r = Ok a -> Q a s [] -> wp (lift r) s Q.
Proof. by intros ->. Qed.

Lemma wp_export_gltf host kwargs s (Q : unit -> scene -> list event -> Prop) :
  exporter_accepts host -> Q tt s [Op "export_scene.gltf" kwargs] ->
  wp (Bpy.ops_export_gltf host kwargs) s Q.
Proof.
  intros Hexp HQ. unfold wp, Bpy.ops_export_gltf, bind, emit, get, lift.
  by rewrite Hexp.
Qed.

Lemma wp_deref id ob attr s Q :
  objects s !! id = Some ob -> Q (id, ob) s [] -> wp (Bpy.deref (Some id) attr) s Q.
Proof. unfold wp, Bpy.deref. by intros ->. Qed.

Lemma wp_need_active id ob op s Q :
  active s = Some id -> objects s !! id = Some ob -> Q (id, ob) s [] ->
  wp (Bpy.need_active op) s Q.
Proof. unfold wp, Bpy.need_active. by intros -> ->. Qed.

Lemma wp_active_object s Q : Q (active s) s [] -> wp Bpy.active_object s Q.
Proof. done. Qed.

Lemma wp_mat_deref id m attr s Q :
  materials s !! id = Some m -> Q m s [] -> wp (Bpy.mat_deref id attr) s Q.
Proof. unfold wp, Bpy.mat_deref. by intros ->. Qed.

Lemma wp_selected_objects s Q : Q (selected s) s [] -> wp Bpy.selected_objects s Q.
Proof. done. Qed.

Lemma wp_data_objects s Q :
  Q (map_to_list (objects s)).*1 s [] -> wp Bpy.data_objects s Q.
Proof. done. Qed.

Lemma wp_duplicate_single host s b ob (Q : unit -> scene -> list event -> Prop) :
  selected s = [b] -> active s = Some b -> objects s !! b = Some ob ->
  Q tt
    {| objects := <[next_id s := ob]> (objects s);
       materials := materials s;
       next_id := S (next_id s);
       active := Some (next_id s);
       selected := [next_id s];
       linked := if context_is_scene_collection host
                 then linked s ++ [next_id s] else linked s;
       edit_mode := edit_mode s |}
    [Op "object.duplicate" []] ->
  wp (Bpy.ops_duplicate host) s Q.
Proof.
  intros Hsel Hact Hob HQ. unfold Bpy.ops_duplicate.
  apply wp_bind, wp_modify, wp_emit.
  rewrite Hsel, Hact. cbn [omap list_omap]. rewrite Hob. cbn.
  rewrite decide_True by done. exact HQ.
Qed.

(** A [try]/[except: pass] block ends normally whatever its body does. *)
Lemma wp_try_pass body s (Q : unit -> scene -> list event -> Prop) :
  (forall r s1 l1, body s = (r, s1, l1) -> Q tt s1 l1) -> wp (try_pass body) s Q.
Proof.
  unfold wp, try_pass. intros H.
  destruct (body s) as [[[a|e] s1] l1] eqn:E; eauto.
Qed.

(** Loops, by an invariant [I] on the elements still to come, the scene
    and the log so far. *)
Lemma wp_for_fold {A B} (body : B -> A -> M B)
    (I : list A -> B -> scene -> list event -> Prop) xs acc s Q :
  I xs acc s [] ->
  (forall x rest acc s l,
      I (x :: rest) acc s l ->
      wp (body acc x) s (fun acc' s' l' => I rest acc' s' (l ++ l'))) ->
  (forall acc s l, I [] acc s l -> Q acc s l) ->
  wp (for_fold xs acc body) s Q.
Proof.
  intros Hinit Hstep Hend.
  assert (Hgen : forall xs acc s l,
             I xs acc s l -> wp (for_fold xs acc body) s (fun a s' l' => Q a s' (l ++ l'))).
  { clear Hinit xs acc s. induction xs as [|x rest IH]; intros acc s l HI.
    - apply wp_ret. rewrite app_nil_r. auto.
    - cbn [for_fold]. apply wp_bind.
      eapply wp_mono; [apply (Hstep _ _ _ _ _ HI)|].
      cbn beta. intros acc' s' l' HI'.
      eapply wp_mono; [apply (IH _ _ _ HI')|].
      cbn beta. intros a s'' l''. by rewrite app_assoc. }
  exact (Hgen xs acc s [] Hinit).
Qed.

Lemma wp_for_each {A} (body : A -> M unit)
    (I : list A -> scene -> list event -> Prop) xs s Q :
  I xs s [] ->
  (forall x rest s l,
      I (x :: rest) s l -> wp (body x) s (fun _ s' l' => I rest s' (l ++ l'))) ->
  (forall s l, I [] s l -> Q tt s l) ->
  wp (for_each xs body) s Q.
Proof.
  intros Hinit Hstep Hend.
  assert (Hgen : forall xs s l,
             I xs s l -> wp (for_each xs body) s (fun a s' l' => Q a s' (l ++ l'))).
  { clear Hinit xs s. induction xs as [|x rest IH]; intros s l HI.
    - apply wp_ret. rewrite app_nil_r. auto.
    - cbn [for_each]. apply wp_bind.
      eapply wp_mono; [apply (Hstep _ _ _ _ HI)|].
      cbn beta. intros [] s' l' HI'.
      eapply wp_mono; [apply (IH _ _ HI')|].
      cbn beta. intros a s'' l''. by rewrite app_assoc. }
  exact (Hgen xs s [] Hinit).
Qed.

(** *** What a computation can log *)

Section LogAll.
Context (P : event -> Prop).

Lemma log_all_silent {A} (m : M A) : (forall s, log_of (m s) = []) -> log_all P m.
Proof. intros H s. rewrite H. constructor. Qed.

Lemma log_all_ret {A} (a : A) : log_all P (ret a).
Proof. by apply log_all_silent. Qed.

Lemma log_all_raise {A} e : log_all P (raise (A := A) e).
Proof. by apply log_all_silent. Qed.

Lemma log_all_sys_exit {A} code : log_all P (sys_exit (A := A) code).
Proof. by apply log_all_silent. Qed.

Lemma log_all_get : log_all P get.
Proof. by apply log_all_silent. Qed.

Lemma log_all_modify f : log_all P (modify f).
Proof. by apply log_all_silent. Qed.

Lemma log_all_lift {A} (r : res A) : log_all P (lift r).
Proof. by apply log_all_silent. Qed.

Lemma log_all_emit e : P e -> log_all P (emit e).
Proof. intros H s. cbn. by constructor. Qed.

Lemma log_all_print line : P (Print line) -> log_all P (print line).
Proof. apply log_all_emit. Qed.

Lemma log_all_bind {A B} (m : M A) (f : A -> M B) :
  log_all P m -> (forall a, log_all P (f a)) -> log_all P (bind m f).
Proof.
  intros Hm Hf s. unfold bind, log_of. specialize (Hm s). unfold log_of in Hm.
  destruct (m s) as [[[a|e] s1] l1]; cbn in *; [|done].
  specialize (Hf a s1). unfold log_of in Hf.
  destruct (f a s1) as [[r s2] l2]; cbn in *. by apply Forall_app.
Qed.

Lemma log_all_try_pass body : log_all P body -> log_all P (try_pass body).
Proof.
  intros H s. specialize (H s). unfold try_pass, log_of in *.
  by destruct (body s) as [[[a|e] s1] l1].
Qed.

Lemma log_all_for_each {A} (xs : list A) body :
  (forall x, log_all P (body x)) -> log_all P (for_each xs body).
Proof.
  intros H. induction xs as [|x rest IH]; cbn [for_each].
  - apply log_all_ret.
  - apply log_all_bind; auto.
Qed.

Lemma log_all_for_fold {A B} (xs : list A) (acc : B) body :
  (forall acc x, log_all P (body acc x)) -> log_all P (for_fold xs acc body).
Proof.
  intros H. revert acc. induction xs as [|x rest IH]; intros acc; cbn [for_fold].
  - apply log_all_ret.
  - apply log_all_bind; auto.
Qed.

Lemma log_all_deref o attr : log_all P (Bpy.deref o attr).
Proof. apply log_all_silent. intros s. unfold Bpy.deref. by repeat case_match. Qed.

Lemma log_all_need_active op : log_all P (Bpy.need_active op).
Proof. apply log_all_silent. intros s. unfold Bpy.need_active. by repeat case_match. Qed.

Lemma log_all_mat_deref id attr : log_all P (Bpy.mat_deref id attr).
Proof. apply log_all_silent. intros s. unfold Bpy.mat_deref. by repeat case_match. Qed.

Lemma log_all_active_object : log_all P Bpy.active_object.
Proof. by apply log_all_silent. Qed.

Lemma log_all_selected_objects : log_all P Bpy.selected_objects.
Proof. by apply log_all_silent. Qed.

Lemma log_all_data_objects : log_all P Bpy.data_objects.
Proof. by apply log_all_silent. Qed.

End LogAll.

Ltac head_of t :=
  lazymatch t with
  | ?f _ => head_of f
  | _ => t
  end.

(** One step of a proof that a computation only logs events satisfying a
    predicate: split sequences, loops and branches, unfold a named
    function, and leave the predicate to be checked at each logged event. *)
Ltac log_step side :=
  lazymatch goal with
  | |- log_all _ (bind _ _) => apply log_all_bind; [|intros ?]
  | |- log_all _ (ret _) => apply log_all_ret
  | |- log_all _ (raise _) => apply log_all_raise
  | |- log_all _ (sys_exit _) => apply log_all_sys_exit
  | |- log_all _ get => apply log_all_get
  | |- log_all _ (modify _) => apply log_all_modify
  | |- log_all _ (lift _) => apply log_all_lift
  | |- log_all _ (emit _) => apply log_all_emit; side
  | |- log_all _ (print _) => apply log_all_print; side
  | |- log_all _ (try_pass _) => apply log_all_try_pass
  | |- log_all _ (for_each _ _) => apply log_all_for_each; intros ?
  | |- log_all _ (for_fold _ _ _) => apply log_all_for_fold; intros ? ?
  | |- log_all _ (Bpy.deref _ _) => apply log_all_deref
  | |- log_all _ (Bpy.need_active _) => apply log_all_need_active
  | |- log_all _ (Bpy.mat_deref _ _) => apply log_all_mat_deref
  | |- log_all _ Bpy.active_object => apply log_all_active_object
  | |- log_all _ Bpy.selected_objects => apply log_all_selected_objects
  | |- log_all _ Bpy.data_objects => apply log_all_data_objects
  | |- log_all _ (if ?b then _ else _) => destruct b
  | |- log_all _ (let _ := _ in _) => cbv zeta
  | |- log_all _ ?m =>
      let h := head_of m in
      first [ is_const h; unfold h | case_match ]
  end.

Ltac log_auto side := repeat (log_step side; cbv beta).

(** ** Exports *)

Lemma parent_join dir file :
  PyPath.is_root file = false -> PyPath.parent (PyPath.join dir [file]) = dir.
Proof.
  intros Hfile. unfold PyPath.parent, PyPath.join.
  destruct dir as [|d [|d' dir]]; cbn [app].
  - by rewrite Hfile.
  - reflexivity.
  - apply (removelast_last (d :: d' :: dir)).
Qed.

Lemma plain_name_not_root name : plain_name name = true -> PyPath.is_root name = false.
Proof.
  unfold plain_name. destruct (PyPath.of_string name) as [|c [|]]; try done.
  intros H. apply andb_true_iff in H as [_ H]. by apply negb_true_iff in H.
Qed.

Lemma plain_name_parts name : plain_name name = true -> PyPath.of_string name = [name].
Proof.
  unfold plain_name. destruct (PyPath.of_string name) as [|c [|]]; try done.
  intros H. apply andb_true_iff in H as [H _]. apply andb_true_iff in H as [H _].
  apply String.eqb_eq in H. by subst.
Qed.

(** A file name appended to a directory stays directly inside it. *)
Lemma div_plain_name dir name :
  plain_name name = true ->
  PyPath.div dir (PyPath.of_string name) = PyPath.join dir [name] /\
  PyPath.parent (PyPath.join dir [name]) = dir.
Proof.
  intros H. split; [|by apply parent_join, plain_name_not_root].
  unfold PyPath.div. rewrite (plain_name_parts _ H). cbn [PyPath.is_absolute].
  by rewrite (plain_name_not_root _ H).
Qed.

Ltac export_side :=
  cbn;
  first [ exact I
        | eexists; refine (conj _ (conj (conj eq_refl eq_refl) _));
          [ vm_compute; reflexivity | apply parent_join; reflexivity ] ].

Lemma build_main_exports host argv :
  log_all (export_ok (BuildCustomAnatomy.OUTPUT_DIR host)) (BuildCustomAnatomy.main host argv).
Proof. log_auto export_side. Qed.

Lemma procedural_main_exports host :
  log_all (export_ok (GenerateProcedural.OUTPUT_DIR host)) (GenerateProcedural.main host).
Proof. log_auto export_side. Qed.

Lemma import_main_exports host :
  log_all (export_ok (ImportBodyParts3D.MODELS_OUTPUT_DIR host)) (ImportBodyParts3D.main host).
Proof. log_auto export_side. Qed.

Lemma morph_main_exports host :
  log_all (export_ok (CreateMorphTargets.OUTPUT_DIR host)) (CreateMorphTargets.main host).
Proof. log_auto export_side. Qed.

(** ** The BodyParts3D script gives up without input *)

Lemma import_pass_stays_clear host :
  log_all (fun e => optimize_or_export e = false) (ImportBodyParts3D.import_anatomy_models host).
Proof. log_auto ltac:(reflexivity). Qed.

(** C3. [main] of the BodyParts3D script: when the input directory is
    missing it prints an error and exits with status 1 before touching
    the host; when the import pass returns zero it prints an error and
    exits with status 1, and nothing of the optimisation or export steps
    has run. *)
Theorem import_main_exits_without_input (host : Host) (s : scene) :
  (path_exists host (ImportBodyParts3D.MODELS_INPUT_DIR host) = false ->
   exists l,
     ImportBodyParts3D.main host s = (Raise (SystemExit 1), s, l) /\
     In (Print [Txt "\n❌ ERROR: Input directory not found: ";
                Val (APath (ImportBodyParts3D.MODELS_INPUT_DIR host))]) l /\
     Forall (fun e => is_op e = false) l) /\
  (path_exists host (ImportBodyParts3D.MODELS_INPUT_DIR host) = true ->
   forall s1 l1,
     ImportBodyParts3D.import_anatomy_models host s = (Ok 0%Z, s1, l1) ->
     exists l,
       ImportBodyParts3D.main host s = (Raise (SystemExit 1), s1, l) /\
       In (Print [Txt "\n❌ ERROR: No models were imported!"]) l /\
       Forall (fun e => optimize_or_export e = false) l).
Proof.
  split.
  - intros Hdir. eexists. split; [|split].
    + unfold ImportBodyParts3D.main, bind, print, emit, sys_exit, raise.
      rewrite Hdir. cbn. reflexivity.
    + cbn. tauto.
    + repeat constructor.
  - intros Hdir s1 l1 Hpass. eexists. split; [|split].
    + unfold ImportBodyParts3D.main, bind, print, emit, sys_exit, raise, Bpy.glob_obj, ret.
      rewrite Hdir. cbn [negb]. rewrite Hpass. cbn. reflexivity.
    + cbn [In]. do 4 right. apply in_or_app. right. cbn [In]. tauto.
    + pose proof (import_pass_stays_clear host s) as Hclear.
      rewrite Hpass in Hclear. unfold log_of in Hclear. cbn [snd] in Hclear.
      do 4 (constructor; [reflexivity|]).
      apply Forall_app. split; [exact Hclear | repeat constructor].
Qed.

Lemma import_main_exits_without_input_witness :
  (exists l,
      ImportBodyParts3D.main SampleHost.host empty_scene = (Raise (SystemExit 1), empty_scene, l) /\
      In (Print [Txt "\n❌ ERROR: Input directory not found: ";
                 Val (APath (ImportBodyParts3D.MODELS_INPUT_DIR SampleHost.host))]) l /\
      Forall (fun e => is_op e = false) l) /\
  (exists s1 l,
      ImportBodyParts3D.main host_empty_models_dir empty_scene = (Raise (SystemExit 1), s1, l) /\
      In (Print [Txt "\n❌ ERROR: No models were imported!"]) l /\
      Forall (fun e => optimize_or_export e = false) l).
Proof.
  split.
  - apply (proj1 (import_main_exits_without_input SampleHost.host empty_scene)). reflexivity.
  - exists (scene_of (ImportBodyParts3D.import_anatomy_models host_empty_models_dir empty_scene)).
    apply (proj2 (import_main_exits_without_input host_empty_models_dir empty_scene) eq_refl
             _ (log_of (ImportBodyParts3D.import_anatomy_models host_empty_models_dir empty_scene))).
    vm_compute. reflexivity.
Defined.

(** ** Symbolic execution of a run *)

Lemma wp_try_pass_ok body s (Q : unit -> scene -> list event -> Prop) :
  wp body s (fun _ s1 l1 => Q tt s1 l1) -> wp (try_pass body) s Q.
Proof.
  unfold wp, try_pass. by destruct (body s) as [[[a|e] s1] l1].
Qed.

Lemma bool_decide_is_Some {A} (x : A) : bool_decide (is_Some (Some x)) = true.
Proof. apply bool_decide_eq_true. eauto. Qed.

Lemma bool_decide_is_None {A} : bool_decide (is_Some (@None A)) = false.
Proof. apply bool_decide_eq_false. by intros [? ?]. Qed.

Lemma alter_lookup_insert {A} (f : A -> A) (m : gmap nat A) i x :
  m !! i = Some x -> alter f i m = <[i := f x]> m.
Proof.
  intros H. apply map_eq. intros j. destruct (decide (i = j)) as [->|Hne].
  - by rewrite lookup_alter_eq, lookup_insert_eq, H.
  - by rewrite lookup_alter_ne, lookup_insert_ne.
Qed.

Ltac scene_simpl :=
  cbn [objects materials next_id active selected linked edit_mode
       fst snd
       mat_name mat_tree mat_bsdf mat_output mat_linked mat_blend
       ob_name ob_type ob_data ob_scale ob_location ob_props ob_materials ob_modifiers
       ob_shape_keys ob_vertex_groups ob_hidden
       set_name set_type set_data set_scale set_location set_props set_materials
       set_modifiers set_shape_keys set_vertex_groups set_hidden
       verts polygons
       md_name md_type md_levels md_render_levels md_ratio md_triangulate
       fmap option_fmap option_map negb foldr String.eqb Ascii.eqb Bool.eqb].

Ltac use_facts :=
  match goal with
  | H : ?x = Some _ |- context [?x] => rewrite H
  | H : ?x = None |- context [?x] => rewrite H
  | H : ?x = true |- context [?x] => rewrite H
  | H : ?x = false |- context [?x] => rewrite H
  | H : objects ?s = _ |- context [objects ?s] => rewrite H
  | H : materials ?s = _ |- context [materials ?s] => rewrite H
  | H : next_id ?s = _ |- context [next_id ?s] => rewrite H
  | H : active ?s = _ |- context [active ?s] => rewrite H
  | H : selected ?s = _ |- context [selected ?s] => rewrite H
  | H : linked ?s = _ |- context [linked ?s] => rewrite H
  | H : edit_mode ?s = _ |- context [edit_mode ?s] => rewrite H
  end.

(** Scenes are kept as records whose maps are stacks of insertions. *)
Ltac map_simpl :=
  repeat first
    [ progress unfold with_objects, with_materials, with_active, with_selected, with_linked,
        with_next_id, with_edit_mode
    | progress scene_simpl
    | rewrite alter_insert_eq
    | rewrite lookup_alter_eq
    | rewrite lookup_insert_eq
    | rewrite insert_insert_eq
    | rewrite lookup_insert_ne by (done || lia)
    | rewrite lookup_alter_ne by (done || lia)
    | rewrite alter_insert_ne by (done || lia)
    | rewrite bool_decide_is_Some
    | rewrite bool_decide_is_None
    | use_facts
    | erewrite alter_lookup_insert by eassumption ].

Ltac list_simpl :=
  repeat first
    [ progress cbn [app map fmap list_fmap list_find filter list_filter
                    String.eqb Ascii.eqb Bool.eqb fst snd
                    md_name md_type md_levels md_render_levels md_ratio md_triangulate
                    Bpy.modifier_op]
    | rewrite decide_True by done
    | rewrite decide_False by done
    | rewrite decide_False by (intros ?; done)
    | match goal with H : ?x = [] |- context [?x] => rewrite H end ].

(** The continuation is kept folded while the head statement runs. *)
Ltac fold_cont :=
  lazymatch goal with
  | |- wp ?m ?s ?K =>
      tryif is_var K then idtac
      else (let k := fresh "K" in set (k := K))
  end.

Ltac unfold_cont :=
  lazymatch goal with
  | |- ?K _ _ _ => is_var K; unfold K; clear K; cbv beta
  end.

Ltac wp_side := map_simpl; first [eassumption | reflexivity].

(** Specifications proved further down are plugged in here. *)
Ltac wp_known := fail.

Ltac intro_facts :=
  intros;
  repeat match goal with
         | H : context [objects {| objects := _ |}] |- _ => progress cbn [objects] in H
         | H : context [materials {| objects := _ |}] |- _ => progress cbn [materials] in H
         | H : context [next_id {| objects := _ |}] |- _ => progress cbn [next_id] in H
         | H : context [active {| objects := _ |}] |- _ => progress cbn [active] in H
         | H : context [selected {| objects := _ |}] |- _ => progress cbn [selected] in H
         | H : context [linked {| objects := _ |}] |- _ => progress cbn [linked] in H
         | H : context [edit_mode {| objects := _ |}] |- _ => progress cbn [edit_mode] in H
         end.

Ltac wp_core :=
  lazymatch goal with
  | |- wp (bind _ _) _ _ => apply wp_bind; fold_cont
  | |- wp (ret _) _ _ => apply wp_ret
  | |- wp (emit _) _ _ => apply wp_emit
  | |- wp (print _) _ _ => apply wp_emit
  | |- wp (modify _) _ _ => apply wp_modify; cbv beta; map_simpl
  | |- wp get _ _ => apply wp_get
  | |- wp (lift _) _ _ => eapply wp_lift; [wp_side |]
  | |- wp (Bpy.ops_export_gltf _ _) _ _ => apply wp_export_gltf; [assumption |]
  | |- wp Bpy.active_object _ _ => apply wp_active_object; map_simpl
  | |- wp Bpy.selected_objects _ _ => apply wp_selected_objects; map_simpl
  | |- wp Bpy.data_objects _ _ => apply wp_data_objects
  | |- wp (Bpy.deref (Some _) _) _ _ => eapply wp_deref; [wp_side |]
  | |- wp (Bpy.deref _ _) _ _ => progress map_simpl
  | |- wp (Bpy.mat_deref _ _) _ _ => eapply wp_mat_deref; [wp_side |]
  | |- wp (Bpy.need_active _) _ _ => eapply wp_need_active; [wp_side | wp_side |]
  | |- wp (Bpy.ops_duplicate _) _ _ =>
      eapply wp_duplicate_single; [wp_side | wp_side | wp_side |]; map_simpl
  | |- wp (try_pass _) _ _ => apply wp_try_pass_ok
  | |- wp (for_each (_ :: _) _) _ _ => cbn [for_each]
  | |- wp (for_each [] _) _ _ => cbn [for_each]
  | |- wp (for_each _ _) _ _ => fail "a loop over an unknown list"
  | |- wp (for_fold (_ :: _) _ _) _ _ => cbn [for_fold]
  | |- wp (for_fold [] _ _) _ _ => cbn [for_fold]
  | |- wp (for_fold _ _ _) _ _ => fail "a loop over an unknown list"
  | |- wp (when true _) _ _ => unfold when
  | |- wp (when false _) _ _ => unfold when
  | |- wp (if true then _ else _) _ _ => cbv iota
  | |- wp (if false then _ else _) _ _ => cbv iota
  | |- wp (let _ := _ in _) _ _ => cbv zeta
  | |- wp (match Some _ with _ => _ end) _ _ => cbv iota beta
  | |- wp (match None with _ => _ end) _ _ => cbv iota beta
  | |- wp ?m ?s ?K =>
      let h := head_of m in
      first
        [ is_const h; unfold h; cbv beta
        | progress map_simpl
        | progress list_simpl ]
  | |- ?K _ _ _ => unfold_cont
  end.

Ltac wp_step := first [wp_known | wp_core].

Ltac wp_go := repeat wp_step.

Ltac log_clear :=
  unfold no_export;
  repeat first [apply Forall_app; split | apply Forall_cons; split | apply Forall_nil];
  try reflexivity; try assumption.

(** ** Counting what a run creates *)

Lemma count_primitives_app l1 l2 :
  count_primitives (l1 ++ l2) = (count_primitives l1 + count_primitives l2)%nat.
Proof. unfold count_primitives. by rewrite List.filter_app, length_app. Qed.

Lemma creates_nil : creates 0 [].
Proof. split; [constructor|reflexivity]. Qed.

Lemma creates_app n1 n2 l1 l2 :
  creates n1 l1 -> creates n2 l2 -> creates (n1 + n2) (l1 ++ l2).
Proof.
  intros [H1 <-] [H2 <-]. split.
  - by apply Forall_app.
  - apply count_primitives_app.
Qed.

Lemma creates_quiet l : Forall quiet l -> creates 0 l.
Proof.
  intros H. split.
  - eapply Forall_impl; [exact H|]. by intros e [? ?].
  - unfold count_primitives. induction H as [|e l [_ He] _ IH]; [done|].
    cbn. by rewrite He.
Qed.

Lemma creates_no_export n l : creates n l -> no_export l.
Proof. by intros [? _]. Qed.

Lemma always_eq n n' {A} (m : M A) : always n m -> n = n' -> always n' m.
Proof. by intros H <-. Qed.

Lemma always_ret {A} (a : A) : always 0 (ret a).
Proof. intros s. apply creates_nil. Qed.

Lemma always_emit e : quiet e -> always 0 (emit e).
Proof. intros H s. apply creates_quiet. by constructor. Qed.

Lemma always_print line : always 0 (print line).
Proof. by apply always_emit. Qed.

Lemma always_modify f : always 0 (modify f).
Proof. intros s. apply creates_nil. Qed.

Lemma always_get : always 0 get.
Proof. intros s. apply creates_nil. Qed.

Lemma always_bind n1 n2 {A B} (m : M A) (f : A -> M B) :
  always n1 m -> (forall a, always n2 (f a)) -> always (n1 + n2) (bind m f).
Proof.
  intros Hm Hf s. apply wp_bind. eapply wp_mono; [apply Hm|].
  cbn beta. intros a s1 l1 H1. eapply wp_mono; [apply Hf|].
  cbn beta. intros b s2 l2 H2. by apply creates_app.
Qed.

(** A guarded block cannot fail; whatever part of it ran is in the log. *)
Lemma always_try_pass body : log_all quiet body -> always 0 (try_pass body).
Proof.
  intros H s. apply wp_try_pass. intros r s1 l1 Hrun. apply creates_quiet.
  specialize (H s). by rewrite Hrun in H.
Qed.

Lemma always_for_each_cons n1 n2 {A} (x : A) xs body :
  always n1 (body x) -> always n2 (for_each xs body) ->
  always (n1 + n2) (for_each (x :: xs) body).
Proof. intros H1 H2. cbn [for_each]. apply always_bind; auto. Qed.

Lemma always_for_each_nil {A} (body : A -> M unit) : always 0 (for_each [] body).
Proof. apply always_ret. Qed.

Lemma always_wp n {A} (m : M A) s (Q : A -> scene -> list event -> Prop) :
  always n m -> (forall a s' l, creates n l -> Q a s' l) -> wp m s Q.
Proof. intros H HQ. eapply wp_mono; [apply H|]. auto. Qed.

Ltac creates_log :=
  repeat match goal with
         | H : creates _ _ |- _ => destruct H as [? ?]
         end;
  lazymatch goal with
  | |- creates _ _ =>
      split;
      [ log_clear
      | unfold count_primitives in *;
        repeat first
          [ rewrite List.filter_app
          | rewrite length_app
          | progress cbn [List.filter length is_primitive PyList.contains existsb
                          String.eqb Ascii.eqb Bool.eqb orb app] ];
        try lia ]
  end.

(** ** Materials *)

Lemma create_organ_material_ok host name color c roughness s base rough Q :
  default_nodes host = true ->
  principled_inputs host !! "Base Color" = Some base ->
  principled_inputs host !! "Roughness" = Some rough ->
  BuildCustomAnatomy.hex_to_rgb color = Ok c ->
  (forall s' l,
      objects s' = objects s -> active s' = active s -> selected s' = selected s ->
      linked s' = linked s ->
      next_id s' = S (next_id s) ->
      (forall i, i <> next_id s -> materials s' !! i = materials s !! i) ->
      (exists m ins, materials s' !! next_id s = Some m /\ mat_bsdf m = Some ins /\
                     ins !! "Base Color" = Some (AColor c 1.0) /\
                     ins !! "Roughness" = Some (ANum roughness)) ->
      creates 0 l ->
      Q (next_id s) s' l) ->
  wp (BuildCustomAnatomy.create_organ_material host name color roughness) s Q.
Proof.
  intros Hnodes Hbase Hrough Hc HQ.
  destruct (principled_inputs host !! "Subsurface Weight") eqn:Hsw.
  - wp_go. apply HQ; try reflexivity.
    + intros i Hi. by map_simpl.
    + map_simpl. eexists _, _. split; [reflexivity|]. split; [reflexivity|]. by map_simpl.
    + creates_log.
  - wp_go. apply HQ; try reflexivity.
    + intros i Hi. by map_simpl.
    + map_simpl. eexists _, _. split; [reflexivity|]. split; [reflexivity|]. by map_simpl.
    + creates_log.
Qed.

Lemma create_material_ok host name color c roughness subsurface s base rough Q :
  default_nodes host = true ->
  principled_inputs host !! "Base Color" = Some base ->
  principled_inputs host !! "Roughness" = Some rough ->
  GenerateProcedural.hex_to_rgb color = Ok c ->
  (forall s' l,
      objects s' = objects s -> active s' = active s -> selected s' = selected s ->
      linked s' = linked s ->
      next_id s' = S (next_id s) ->
      (forall i, i <> next_id s -> materials s' !! i = materials s !! i) ->
      (exists m ins, materials s' !! next_id s = Some m /\ mat_bsdf m = Some ins /\
                     ins !! "Base Color" = Some (AColor c 1.0) /\
                     ins !! "Roughness" = Some (ANum roughness)) ->
      creates 0 l ->
      Q (next_id s) s' l) ->
  wp (GenerateProcedural.create_material host name color roughness subsurface) s Q.
Proof.
  intros Hnodes Hbase Hrough Hc HQ.
  destruct (principled_inputs host !! "Subsurface Weight") eqn:Hsw;
    [|destruct (principled_inputs host !! "Subsurface") eqn:Hss].
  all: wp_go; apply HQ; try reflexivity;
    [ intros i Hi; by map_simpl
    | map_simpl; eexists _, _; split; [reflexivity|]; split; [reflexivity|]; by map_simpl
    | creates_log ].
Qed.

(** ** Mesh optimisation *)

Lemma optimize_mesh_skips host s id ob target :
  objects s !! id = Some ob ->
  ob_type ob <> "MESH" \/ (polygons (ob_data ob) <= target)%Z ->
  BuildCustomAnatomy.optimize_mesh host (Some id) target s = (Ok tt, s, []).
Proof.
  intros Hob Hskip.
  assert (Hwp : wp (BuildCustomAnatomy.optimize_mesh host (Some id) target) s
                   (fun _ s' l => s' = s /\ l = [])).
  { destruct (String.eqb (ob_type ob) "MESH") eqn:Hty.
    - destruct Hskip as [Hne | Hle]; [apply String.eqb_eq in Hty; done|].
      apply Z.leb_le in Hle. wp_go. done.
    - wp_go. done. }
  apply wp_run in Hwp as ([] & s' & l & -> & -> & ->). reflexivity.
Qed.

Lemma optimize_mesh_decimates host s id ob target :
  objects s !! id = Some ob ->
  ob_type ob = "MESH" -> ob_modifiers ob = [] ->
  (0 <= target < polygons (ob_data ob))%Z ->
  let ratio := (inject_Z target / inject_Z (polygons (ob_data ob)))%Q in
  wp (BuildCustomAnatomy.optimize_mesh host (Some id) target) s
     (fun _ s' l =>
        objects s' = <[id := decimated host ratio ob]> (objects s) /\
        materials s' = materials s /\ next_id s' = next_id s /\
        In (Assign id "Decimate.ratio" (ANum ratio)) l /\
        In (Op "object.modifier_apply" [("modifier", AStr "Decimate")]) l /\
        no_export l).
Proof.
  intros Hob Hty Hmods Hrange ratio.
  assert (Heqb : String.eqb (ob_type ob) "MESH" = true) by (by apply String.eqb_eq).
  assert (Hleb : (polygons (ob_data ob) <=? target)%Z = false) by (apply Z.leb_gt; lia).
  assert (Hz : (polygons (ob_data ob) =? 0)%Z = false) by (apply Z.eqb_neq; lia).
  wp_go. map_simpl. cbn [app In].
  split; [|split; [done|split; [done|split; [tauto|split; [tauto|log_clear]]]]].
  f_equal.
Qed.

Lemma optimize_models_skips host s detail t :
  ImportBodyParts3D.TARGET_POLYGON_COUNT !! detail = Some t ->
  (ImportBodyParts3D.scene_polygons s <= t)%Z ->
  exists l,
    ImportBodyParts3D.optimize_models host detail s = (Ok tt, s, l) /\
    Forall (fun e => is_print e = true) l.
Proof.
  intros Ht Hle. apply Z.leb_le in Hle.
  assert (Hwp : wp (ImportBodyParts3D.optimize_models host detail) s
                   (fun _ s' l => s' = s /\ Forall (fun e => is_print e = true) l)).
  { wp_go. split; [done|]. repeat constructor. }
  apply wp_run in Hwp as ([] & s' & l & -> & -> & Hl). eauto.
Qed.

(** C9. Optimisation does nothing at or below budget: on an object that
    is not a mesh, or a mesh with no more polygons than the target,
    [optimize_mesh] returns with the scene unchanged and without a host
    call; [optimize_models] leaves the scene unchanged (it only prints)
    when the scene's polygon total is at most the target.  A mesh above
    its target gets the Decimate modifier with ratio target / count,
    applied to its data. *)
Theorem optimization_only_above_budget
    (host : Host) (s : scene) (id : nat) (ob : object) (target : Z) :
  objects s !! id = Some ob ->
  (ob_type ob <> "MESH" \/ (polygons (ob_data ob) <= target)%Z ->
   BuildCustomAnatomy.optimize_mesh host (Some id) target s = (Ok tt, s, [])) /\
  (ob_type ob = "MESH" -> ob_modifiers ob = [] ->
   (0 <= target < polygons (ob_data ob))%Z ->
   exists s' l,
     BuildCustomAnatomy.optimize_mesh host (Some id) target s = (Ok tt, s', l) /\
     objects s' =
       <[id := decimated host (inject_Z target / inject_Z (polygons (ob_data ob))) ob]>
         (objects s) /\
     In (Assign id "Decimate.ratio"
           (ANum (inject_Z target / inject_Z (polygons (ob_data ob))))) l) /\
  (forall detail t,
      ImportBodyParts3D.TARGET_POLYGON_COUNT !! detail = Some t ->
      (ImportBodyParts3D.scene_polygons s <= t)%Z ->
      exists l,
        ImportBodyParts3D.optimize_models host detail s = (Ok tt, s, l) /\
        Forall (fun e => is_print e = true) l).
Proof.
  intros Hob. split; [|split].
  - intros Hskip. by eapply optimize_mesh_skips.
  - intros Hty Hmods Hrange.
    pose proof (optimize_mesh_decimates host s id ob target Hob Hty Hmods Hrange) as Hwp.
    cbv zeta in Hwp. apply wp_run in Hwp as ([] & s' & l & Hrun & Hobj & _ & _ & Hin & _).
    eauto.
  - intros detail t Ht Hle. by eapply optimize_models_skips.
Qed.

Lemma optimization_only_above_budget_witness :
  BuildCustomAnatomy.optimize_mesh SampleHost.host (Some 1%nat) 5000 two_object_scene
    = (Ok tt, two_object_scene, []) /\
  BuildCustomAnatomy.optimize_mesh SampleHost.host (Some 0%nat) 9000 two_object_scene
    = (Ok tt, two_object_scene, []) /\
  (exists s' l,
      BuildCustomAnatomy.optimize_mesh SampleHost.host (Some 0%nat) 5000 two_object_scene
        = (Ok tt, s', l) /\
      objects s' =
        <[0%nat := decimated SampleHost.host (inject_Z 5000 / inject_Z 8000) brain_mesh_object]>
          (objects two_object_scene) /\
      In (Assign 0 "Decimate.ratio" (ANum (inject_Z 5000 / inject_Z 8000))) l) /\
  (exists l,
      ImportBodyParts3D.optimize_models SampleHost.host "high_detail" two_object_scene
        = (Ok tt, two_object_scene, l) /\
      Forall (fun e => is_print e = true) l).
Proof.
  split; [|split; [|split]].
  - apply (optimization_only_above_budget SampleHost.host two_object_scene 1 camera_object 5000);
      [reflexivity | left; discriminate].
  - apply (optimization_only_above_budget SampleHost.host two_object_scene 0 brain_mesh_object 9000);
      [reflexivity | right; cbn; lia].
  - apply (optimization_only_above_budget SampleHost.host two_object_scene 0 brain_mesh_object 5000);
      [reflexivity | reflexivity | reflexivity | cbn; lia].
  - apply (optimization_only_above_budget SampleHost.host two_object_scene 0 brain_mesh_object 0
             eq_refl) with (t := 500000%Z); [reflexivity | vm_compute; discriminate].
Defined.

(** ** Shape keys *)

Lemma set_shape_keys_same ob : set_shape_keys (ob_shape_keys ob) ob = ob.
Proof. by destruct ob. Qed.

Lemma shape_key_fill b idx (rest : list vec3) :
  forall (filled : list vec3) s ob k old,
    objects s !! b = Some ob ->
    ob_shape_keys ob !! idx = Some k ->
    sk_data k = filled ++ old ->
    length old = length rest ->
    wp (for_each (zip (seq (length filled) (length rest)) rest)
                 (fun iv => Bpy.shape_key_set (b, idx) iv.1 iv.2)) s
       (fun _ s' l =>
          l = [] /\
          objects s' = <[b := with_key_data idx (filled ++ rest) ob]> (objects s)).
Proof.
  induction rest as [|v rest IH]; intros filled s ob k old Hob Hk Hdata Hlen.
  - destruct old; [|done]. cbn. split; [done|].
    rewrite app_nil_r in *. unfold with_key_data.
    rewrite <- Hdata.
    replace (alter _ idx (ob_shape_keys ob)) with (ob_shape_keys ob).
    + by rewrite set_shape_keys_same, insert_id.
    + symmetry. apply list_eq. intros j. destruct (decide (idx = j)) as [->|Hne].
      * rewrite list_lookup_alter_eq, Hk. by destruct k.
      * by rewrite list_lookup_alter_ne.
  - destruct old as [|o old]; [done|]. cbn [length seq zip zip_with for_each].
    apply wp_bind. unfold Bpy.shape_key_set at 1. cbn [fst snd].
    apply wp_bind. eapply wp_deref; [exact Hob|]. cbn [fst snd]. rewrite Hk.
    assert (Hlt : (length filled <? length (sk_data k))%nat = true).
    { apply Nat.ltb_lt. rewrite Hdata, length_app. cbn. lia. }
    rewrite Hlt. unfold Bpy.update. apply wp_modify.
    set (s1 := with_objects _ s).
    set (k1 := {| sk_name := sk_name k; sk_data := <[length filled := v]> (sk_data k) |}).
    assert (Hob1 : objects s1 !! b = Some (set_shape_keys
               (alter (fun k0 => {| sk_name := sk_name k0;
                                    sk_data := <[length filled := v]> (sk_data k0) |})
                      idx (ob_shape_keys ob)) ob)).
    { subst s1. cbn. by rewrite lookup_alter_eq, Hob. }
    assert (Hdata1 : sk_data k1 = (filled ++ [v]) ++ old).
    { subst k1. cbn. rewrite Hdata. rewrite insert_app_r_alt by lia.
      rewrite Nat.sub_diag. cbn. by rewrite <- app_assoc. }
    pose proof (IH (filled ++ [v]) s1 _ k1 old Hob1) as Hrest.
    rewrite length_app in Hrest. cbn [length] in Hrest. rewrite Nat.add_1_r in Hrest.
    eapply wp_mono.
    { apply Hrest; [|exact Hdata1|cbn in Hlen; lia].
      cbn. by rewrite list_lookup_alter_eq, Hk. }
    cbn beta. intros [] s' l [-> Hobj]. split; [done|].
    rewrite Hobj. subst s1. cbn. rewrite (alter_lookup_insert _ _ _ _ Hob), insert_insert_eq.
    f_equal. unfold with_key_data, set_shape_keys. cbn. f_equal.
    rewrite <- app_assoc. cbn.
    apply list_eq. intros j. destruct (decide (idx = j)) as [->|Hne].
    + rewrite !list_lookup_alter_eq. destruct (ob_shape_keys ob !! j); done.
    + by rewrite !list_lookup_alter_ne.
Qed.

Lemma add_variant_key_ok s b ob v d :
  objects s !! b = Some ob ->
  variant_in s v d ->
  wp (CreateMorphTargets.add_variant_key (Some b) (v.1, Some v.2)) s
     (fun _ s' l =>
        objects s' =
          <[b := set_shape_keys
                   (ob_shape_keys ob ++ matching_keys (verts (ob_data ob)) [d]) ob]>
            (objects s) /\
        l = variant_events b (verts (ob_data ob)) d).
Proof.
  intros Hob (Hname & vob & Hvob & Hverts). destruct v as [name vid], d as [dname vv].
  cbn [fst snd] in *. subst dname vv.
  unfold matching_keys, variant_events. cbn [omap list_omap fst snd].
  unfold CreateMorphTargets.add_variant_key.
  destruct (length (verts (ob_data ob)) =? length (verts (ob_data vob)))%nat eqn:Hlen.
  - pose proof (proj1 (Nat.eqb_eq _ _) Hlen) as Hlen'.
    wp_go.
    eapply wp_mono.
    { eapply (shape_key_fill b (length (ob_shape_keys ob)) (verts (ob_data vob)) []
               _ _ {| sk_name := name; sk_data := verts (ob_data ob) |} (verts (ob_data ob))).
      - map_simpl. reflexivity.
      - cbn. rewrite lookup_app_r by lia. by rewrite Nat.sub_diag.
      - reflexivity.
      - done. }
    cbn beta. intros [] s' l [-> Hobj]. unfold_cont. wp_go. split; [|reflexivity].
    rewrite Hobj. map_simpl. f_equal. unfold with_key_data, set_shape_keys. cbn. f_equal.
    apply list_eq. intros j. destruct (decide (length (ob_shape_keys ob) = j)) as [<-|Hne].
    + rewrite list_lookup_alter_eq, !lookup_app_r by lia. by rewrite Nat.sub_diag.
    + rewrite list_lookup_alter_ne by done.
      destruct (decide (j < length (ob_shape_keys ob))%nat).
      * by rewrite !lookup_app_l by lia.
      * rewrite !lookup_app_r by lia.
        destruct (j - length (ob_shape_keys ob))%nat as [|j'] eqn:E; [lia|done].
  - wp_go. split; [|reflexivity].
    rewrite app_nil_r, set_shape_keys_same. by rewrite insert_id.
Qed.

Lemma matching_keys_cons bv d rest :
  matching_keys bv (d :: rest) = matching_keys bv [d] ++ matching_keys bv rest.
Proof. unfold matching_keys. cbn. by destruct (_ =? _)%nat. Qed.

Lemma variants_loop_ok b (variants : list (string * nat)) :
  forall (vdata : list (string * list vec3)) s ob,
    objects s !! b = Some ob ->
    Forall2 (variant_in s) variants vdata ->
    wp (for_each ((fun v => (v.1, Some v.2)) <$> variants)
                 (CreateMorphTargets.add_variant_key (Some b))) s
       (fun _ s' l =>
          objects s' =
            <[b := set_shape_keys
                     (ob_shape_keys ob ++ matching_keys (verts (ob_data ob)) vdata) ob]>
              (objects s) /\
          l = flat_map (variant_events b (verts (ob_data ob))) vdata).
Proof.
  induction variants as [|v variants IH]; intros vdata s ob Hob Hall.
  - apply Forall2_nil_inv_l in Hall as ->. cbn. split; [|done].
    unfold matching_keys. cbn. rewrite app_nil_r, set_shape_keys_same. by rewrite insert_id.
  - apply Forall2_cons_inv_l in Hall as (d & rest & Hd & Hrest & ->).
    cbn [fmap list_fmap for_each]. apply wp_bind.
    eapply wp_mono; [apply (add_variant_key_ok s b ob v d Hob Hd)|].
    cbn beta. intros [] s1 l1 [Hobj1 ->].
    set (ob1 := set_shape_keys _ ob) in Hobj1.
    assert (Hob1 : objects s1 !! b = Some ob1) by (by rewrite Hobj1, lookup_insert_eq).
    eapply wp_mono.
    { apply (IH rest s1 ob1 Hob1).
      eapply Forall2_impl; [exact Hrest|].
      intros v' d' (Hn & vob & Hvob & Hv). split; [done|].
      rewrite Hobj1. destruct (decide (b = v'.2)) as [Heq|Hne].
      - rewrite <- Heq in *. rewrite lookup_insert_eq. eexists. split; [done|].
        rewrite Hob in Hvob. injection Hvob as <-. done.
      - rewrite lookup_insert_ne by done. eauto. }
    cbn beta. intros [] s2 l2 [Hobj2 ->]. split.
    + rewrite Hobj2, Hobj1, insert_insert_eq. f_equal. subst ob1.
      unfold set_shape_keys.
      cbn [ob_name ob_type ob_data ob_scale ob_location ob_props ob_materials ob_modifiers
           ob_shape_keys ob_vertex_groups ob_hidden]. f_equal.
      by rewrite (matching_keys_cons _ d rest), app_assoc.
    + cbn [flat_map]. done.
Qed.

(** C2. [create_shape_keys], for a base object and variants that are
    objects of the scene: the run ends normally; the base gains the Basis
    key and then, in order, one key per variant whose vertex count equals
    the base's, holding exactly that variant's vertex coordinates; a
    variant with another vertex count gets no key and an error line, and
    the variants after it are still processed. *)
Theorem shape_keys_skip_mismatching_variants
    (s : scene) (b : nat) (ob : object)
    (variants : list (string * nat)) (vdata : list (string * list vec3)) :
  objects s !! b = Some ob ->
  Forall2 (variant_in s) variants vdata ->
  let base_verts := verts (ob_data ob) in
  exists s' l,
    CreateMorphTargets.create_shape_keys (Some b) ((fun v => (v.1, Some v.2)) <$> variants) s
      = (Ok tt, s', l) /\
    objects s' =
      <[b := set_shape_keys
               (ob_shape_keys ob ++
                {| sk_name := "Basis"; sk_data := base_verts |} ::
                matching_keys base_verts vdata) ob]> (objects s) /\
    l = [Print [Txt "Creating shape keys from variants..."];
         Op "view_layer.objects.active" [("value", ARef b)];
         Op "shape_key_add" [("object", ARef b); ("name", AStr "Basis")];
         Print [Txt "  ✓ Basis shape key created"]] ++
        flat_map (variant_events b base_verts) vdata ++
        [Print [Txt "✓ "; Val (AInt (Z.of_nat (length variants))); Txt " shape keys created"]] /\
    (forall d, In d vdata ->
       if (length base_verts =? length d.2)%nat
       then In {| sk_name := d.1; sk_data := d.2 |} (matching_keys base_verts vdata)
       else In (Print [Txt "  ✗ ERROR: Vertex count mismatch for "; Val (AStr d.1)]) l) /\
    (forall k, In k (matching_keys base_verts vdata) ->
       exists d, In d vdata /\ length base_verts = length d.2 /\
                 k = {| sk_name := d.1; sk_data := d.2 |}).
Proof.
  intros Hob Hall base_verts.
  set (ob0 := set_shape_keys
                (ob_shape_keys ob ++ [{| sk_name := "Basis"; sk_data := base_verts |}]) ob).
  assert (Hwp : wp (CreateMorphTargets.create_shape_keys (Some b)
                      ((fun v => (v.1, Some v.2)) <$> variants)) s
                  (fun _ s' l =>
                     objects s' =
                       <[b := set_shape_keys
                                (ob_shape_keys ob ++
                                 {| sk_name := "Basis"; sk_data := base_verts |} ::
                                 matching_keys base_verts vdata) ob]> (objects s) /\
                     l = [Print [Txt "Creating shape keys from variants..."];
                          Op "view_layer.objects.active" [("value", ARef b)];
                          Op "shape_key_add" [("object", ARef b); ("name", AStr "Basis")];
                          Print [Txt "  ✓ Basis shape key created"]] ++
                         flat_map (variant_events b base_verts) vdata ++
                         [Print [Txt "✓ "; Val (AInt (Z.of_nat (length variants)));
                                 Txt " shape keys created"]])).
  { wp_go.
    eapply wp_mono.
    { eapply (variants_loop_ok b variants vdata _ ob0).
      - map_simpl. reflexivity.
      - eapply Forall2_impl; [exact Hall|].
        intros v d (Hn & vob & Hvob & Hv). split; [done|]. map_simpl.
        destruct (decide (b = v.2)) as [Heq|Hne].
        + rewrite <- Heq in *. rewrite lookup_insert_eq. eexists. split; [done|].
          rewrite Hob in Hvob. injection Hvob as <-. done.
        + rewrite lookup_insert_ne by done. eauto. }
    cbn beta. intros [] s1 l1 [Hobj1 ->]. unfold_cont. wp_go.
    rewrite length_fmap. split; [|reflexivity].
    rewrite Hobj1. map_simpl. f_equal. subst ob0. unfold set_shape_keys.
    cbn [ob_name ob_type ob_data ob_scale ob_location ob_props ob_materials ob_modifiers
         ob_shape_keys ob_vertex_groups ob_hidden]. f_equal.
    by rewrite <- app_assoc. }
  apply wp_run in Hwp as ([] & s' & l & Hrun & Hobj & Hl).
  exists s', l. split; [exact Hrun|]. split; [exact Hobj|]. split; [exact Hl|]. split.
  - intros d Hd. destruct (length base_verts =? length d.2)%nat eqn:Hlen.
    + unfold matching_keys. apply list_elem_of_In, list_elem_of_omap.
      exists d. split; [by apply list_elem_of_In|]. by rewrite Hlen.
    + rewrite Hl. apply in_or_app. right. apply in_or_app. left.
      apply in_flat_map. exists d. split; [done|].
      unfold variant_events. rewrite Hlen. by left.
  - intros k Hk. unfold matching_keys in Hk.
    apply list_elem_of_In, list_elem_of_omap in Hk as (d & Hd & Hsome).
    exists d. split; [by apply list_elem_of_In|].
    destruct (length base_verts =? length d.2)%nat eqn:Hlen; [|done].
    apply Nat.eqb_eq in Hlen. split; [done|]. congruence.
Qed.

Lemma shape_keys_skip_mismatching_variants_witness :
  exists s' l,
    CreateMorphTargets.create_shape_keys (Some 0%nat)
        [("Obese1", Some 1%nat); ("Broken", Some 2%nat)] morph_scene
      = (Ok tt, s', l) /\
    objects s' =
      <[0%nat := set_shape_keys
               [{| sk_name := "Basis"; sk_data := SampleHost.cube_verts |};
                {| sk_name := "Obese1"; sk_data := verts (ob_data stretched_cube) |}]
               cube_object]> (objects morph_scene) /\
    In (Print [Txt "  ✗ ERROR: Vertex count mismatch for "; Val (AStr "Broken")]) l.
Proof.
  destruct (shape_keys_skip_mismatching_variants morph_scene 0 cube_object
              [("Obese1", 1%nat); ("Broken", 2%nat)]
              [("Obese1", verts (ob_data stretched_cube));
               ("Broken", verts (ob_data triangle_object))]) as (s' & l & Hrun & Hobj & Hl & Hd & _).
  - reflexivity.
  - repeat constructor; cbn; eexists; split; reflexivity.
  - exists s', l. split; [exact Hrun|]. split; [exact Hobj|].
    apply (Hd ("Broken", verts (ob_data triangle_object))). cbn. tauto.
Defined.

Lemma hex_to_rgb_three_scripts_agree_witness :
  hex_color_input "#E8B4D9" = true /\
  exists colour : rgb,
    hex_to_rgb_spec "#E8B4D9" = Some colour /\
    BuildCustomAnatomy.hex_to_rgb "#E8B4D9" = Ok colour /\
    GenerateProcedural.hex_to_rgb "#E8B4D9" = Ok colour /\
    ImportBodyParts3D.hex_to_rgb "#E8B4D9" = Ok colour /\
    unit_interval colour.1.1 /\ unit_interval colour.1.2 /\ unit_interval colour.2.
Proof.
  split; [reflexivity|]. apply (hex_to_rgb_three_scripts_agree "#E8B4D9"). reflexivity.
Defined.

(** ** The Normal preset *)

Lemma create_bmi_variant_ok host s b ob name params Q :
  objects s !! b = Some ob ->
  (forall s' l,
      objects s' = <[next_id s := variant_of name params ob]> (objects s) ->
      next_id s' = S (next_id s) ->
      materials s' = materials s ->
      no_export l ->
      Q (Some (next_id s)) s' l) ->
  wp (CreateMorphTargets.create_bmi_variant host (Some b) name params) s Q.
Proof.
  intros Hob HQ. wp_go. apply HQ; try reflexivity. log_clear.
Qed.

(** C8. With the three scale factors equal to 1, as in the Normal preset,
    the scaling of [create_bmi_variant] returns every vertex as it was:
    the variant object it creates has the base mesh's vertices. *)
Theorem unit_scales_leave_mesh_unchanged
    (host : Host) (s : scene) (b : nat) (base : object)
    (preset_name : string) (params : CreateMorphTargets.preset) :
  objects s !! b = Some base ->
  (CreateMorphTargets.abdomen_scale params == 1)%Q ->
  (CreateMorphTargets.limbs_scale params == 1)%Q ->
  (CreateMorphTargets.face_scale params == 1)%Q ->
  (forall co, vec_eq (CreateMorphTargets.scale_vertex params co) co) /\
  exists s' l variant,
    CreateMorphTargets.create_bmi_variant host (Some b) preset_name params s
      = (Ok (Some (next_id s)), s', l) /\
    objects s' !! next_id s = Some variant /\
    Forall2 vec_eq (verts (ob_data variant)) (verts (ob_data base)).
Proof.
  intros Hbase Ha Hl Hf.
  assert (Hid : forall co, vec_eq (CreateMorphTargets.scale_vertex params co) co)
    by (intros co; by apply scale_vertex_at_one).
  split; [exact Hid|].
  assert (Hwp : wp (CreateMorphTargets.create_bmi_variant host (Some b) preset_name params) s
                   (fun r s' _ =>
                      r = Some (next_id s) /\
                      objects s' !! next_id s = Some (variant_of preset_name params base))).
  { apply create_bmi_variant_ok with (ob := base); [exact Hbase|].
    intros s' l Hobj _ _ _. split; [done|]. by rewrite Hobj, lookup_insert_eq. }
  apply wp_run in Hwp as (r & s' & l & Hrun & -> & Hvariant).
  exists s', l, (variant_of preset_name params base).
  split; [exact Hrun|]. split; [exact Hvariant|].
  cbn. induction (verts (ob_data base)) as [|co vs IH]; constructor; auto.
Qed.

Lemma unit_scales_leave_mesh_unchanged_witness :
  exists normal,
    preset_named "Normal" = Some normal /\
    (forall co, vec_eq (CreateMorphTargets.scale_vertex normal co) co) /\
    exists s' l variant,
      CreateMorphTargets.create_bmi_variant SampleHost.host (Some 0%nat) "Normal" normal cube_scene
        = (Ok (Some 1%nat), s', l) /\
      objects s' !! 1%nat = Some variant /\
      Forall2 vec_eq (verts (ob_data variant)) SampleHost.cube_verts.
Proof.
  eexists. split; [reflexivity|].
  apply (unit_scales_leave_mesh_unchanged SampleHost.host cube_scene 0 cube_object "Normal");
    reflexivity.
Defined.

(** ** Missing shader inputs *)

Lemma fails_bind {A B} (m : M A) (f : A -> M B) s P :
  match m s with
  | (Ok a, s1, _) => fails (f a) s1 P
  | (Raise e, _, _) => P e
  end ->
  fails (bind m f) s P.
Proof.
  unfold fails, bind. destruct (m s) as [[[a|e] s1] l1]; [|done].
  by destruct (f a s1) as [[[b|e] s2] l2].
Qed.

Lemma fails_after {A B} (m : M A) (f : A -> M B) s P :
  wp m s (fun a s1 _ => fails (f a) s1 P) -> fails (bind m f) s P.
Proof.
  intros H. apply fails_bind. unfold wp in H. by destruct (m s) as [[[a|e] s1] l1].
Qed.

Lemma fails_now {A B} (m : M A) (f : A -> M B) s P :
  fails m s P -> fails (bind m f) s P.
Proof.
  intros H. apply fails_bind. unfold fails in H. by destruct (m s) as [[[a|e] s1] l1].
Qed.

Lemma fails_raise {A} e s (P : exn -> Prop) : P e -> fails (raise (A:=A) e) s P.
Proof. done. Qed.

Lemma fails_lift {A} e s (P : exn -> Prop) : P e -> fails (lift (A:=A) (Raise e)) s P.
Proof. done. Qed.

Ltac fails_step :=
  lazymatch goal with
  | |- fails (bind _ _) _ _ =>
      first [ apply fails_now; solve [repeat fails_step]
            | apply fails_after; wp_go ]
  | |- fails (raise _) _ _ => apply fails_raise; eauto
  | |- fails (lift ?r) _ _ =>
      match goal with H : r = Raise _ |- _ => rewrite H end; apply fails_lift; eauto
  | |- fails ?m ?s ?P =>
      let h := head_of m in
      first [ is_const h; unfold h; cbv beta | progress map_simpl ]
  end.

(** On a host whose Principled BSDF has no input named Subsurface, the
    material function of the BodyParts3D script never returns. *)
Lemma import_material_fails host name color roughness s :
  principled_inputs host !! "Subsurface" = None ->
  fails (ImportBodyParts3D.create_material host name color roughness) s
        (fun e => e = ValueError \/ exists k, e = KeyError k).
Proof.
  intros Hsub.
  assert (Hhex : forall e, ImportBodyParts3D.hex_to_rgb color = Raise e -> e = ValueError).
  { intros e. unfold ImportBodyParts3D.hex_to_rgb, res_bind, PyStr.int16.
    repeat case_match; congruence. }
  destruct (ImportBodyParts3D.hex_to_rgb color) as [c|e] eqn:Hc;
    [|specialize (Hhex e eq_refl); subst e];
  destruct (default_nodes host) eqn:Hnodes;
  destruct (principled_inputs host !! "Base Color") eqn:Hbase;
  destruct (principled_inputs host !! "Roughness") eqn:Hrough.
  all: repeat fails_step.
Qed.

(** C6, at the failing input.  On the sample host (a Principled BSDF with
    Subsurface Weight and without the older Subsurface input) the material
    functions of the build and procedural scripts return a material with
    Base Color and Roughness set, while [create_material] of the BodyParts3D
    script raises [KeyError] at its unguarded access. *)
Theorem import_material_raises_on_missing_subsurface :
  principled_inputs SampleHost.host !! "Subsurface" = None /\
  result_of (ImportBodyParts3D.create_material SampleHost.host "brain" "#9B59B6" 0.4 empty_scene)
    = Raise (KeyError "Subsurface") /\
  wp (BuildCustomAnatomy.create_organ_material SampleHost.host "brain" "#E8B4D9" 0.4) empty_scene
     (fun mat s' _ => shaded s' mat (232 # 255, 180 # 255, 217 # 255) 0.4) /\
  wp (GenerateProcedural.create_material SampleHost.host "brain" "#E8B4D9" 0.4 0.1) empty_scene
     (fun mat s' _ => shaded s' mat (232 # 255, 180 # 255, 217 # 255) 0.4).
Proof.
  split; [reflexivity|]. split; [vm_compute; reflexivity|]. split.
  - eapply create_organ_material_ok; [reflexivity..|].
    intros s' l _ _ _ _ _ _ Hshaded _. exact Hshaded.
  - eapply create_material_ok; [reflexivity..|].
    intros s' l _ _ _ _ _ _ Hshaded _. exact Hshaded.
Qed.

(** ** The procedural script, end to end *)

Ltac wp_known ::=
  lazymatch goal with
  | |- wp (BuildCustomAnatomy.create_organ_material _ _ _ _) _ _ =>
      eapply create_organ_material_ok; [eassumption | eassumption | eassumption | eassumption |];
      intro_facts
  | |- wp (GenerateProcedural.create_material _ _ _ _ _) _ _ =>
      eapply create_material_ok; [eassumption | eassumption | eassumption | eassumption |];
      intro_facts
  end.

(** The part of [create_organ] after the dispatch on the geometry type. *)
Lemma create_organ_tail host name color sys c s n ob0 base rough Q :
  default_nodes host = true ->
  principled_inputs host !! "Base Color" = Some base ->
  principled_inputs host !! "Roughness" = Some rough ->
  GenerateProcedural.hex_to_rgb color = Ok c ->
  active s = Some n -> selected s = [n] -> objects s !! n = Some ob0 ->
  ob_props ob0 = ∅ ->
  (forall s' l ob,
      objects s' = <[n := ob]> (objects s) ->
      ob_props ob = tags sys ->
      next_id s' = S (next_id s) ->
      creates 0 l ->
      Q (Some n) s' l) ->
  wp (obj <- Bpy.active_object ;;
      Bpy.assign_name obj name ;;;
      mat <- GenerateProcedural.create_material host name color 0.4 0.1 ;;
      Bpy.materials_append obj mat ;;;
      Bpy.set_item obj "system" (AStr sys) ;;;
      Bpy.set_item obj "clickable" (ABool true) ;;;
      Bpy.ops_shade_smooth host ;;;
      ret obj)%py s Q.
Proof.
  intros Hnodes Hbase Hrough Hc Hact Hsel Hob Hprops HQ.
  wp_go.
  eapply HQ.
  - map_simpl. reflexivity.
  - map_simpl. rewrite Hprops. reflexivity.
  - map_simpl. reflexivity.
  - creates_log.
Qed.

Lemma create_organ_ok host name gt size pos color sys c s base rough Q :
  default_nodes host = true ->
  principled_inputs host !! "Base Color" = Some base ->
  principled_inputs host !! "Roughness" = Some rough ->
  GenerateProcedural.hex_to_rgb color = Ok c ->
  dispatched gt size = true ->
  (forall s' l ob,
      objects s' = <[next_id s := ob]> (objects s) ->
      ob_props ob = tags sys ->
      next_id s' = S (S (next_id s)) ->
      creates 1 l ->
      Q (Some (next_id s)) s' l) ->
  wp (GenerateProcedural.create_organ host name gt size pos color sys) s Q.
Proof.
  intros Hnodes Hbase Hrough Hc Hd HQ.
  unfold GenerateProcedural.create_organ. apply wp_bind.
  apply wp_mono with
    (Q := fun _ s1 l1 =>
            exists ob0, objects s1 = <[next_id s := ob0]> (objects s) /\ ob_props ob0 = ∅ /\
                        active s1 = Some (next_id s) /\ selected s1 = [next_id s] /\
                        next_id s1 = S (next_id s) /\ creates 1 l1).
  - destruct size as [r|a b|v]; cbn in Hd;
      repeat (apply orb_true_iff in Hd as [Hd|Hd]);
      apply String.eqb_eq in Hd; subst gt; cbn [String.eqb Ascii.eqb Bool.eqb].
    all: wp_go; eexists; split; [map_simpl; reflexivity|];
      split; [reflexivity|]; repeat (split; [reflexivity|]); creates_log.
  - cbn beta. intros [] s1 l1 (ob0 & Hobj1 & Hprops0 & Hact1 & Hsel1 & Hnext1 & Hl1).
    eapply create_organ_tail; try eassumption.
    + by rewrite Hobj1, lookup_insert_eq.
    + intros s' l ob Hobj Hprops Hnext Hl. eapply HQ.
      * by rewrite Hobj, Hobj1, insert_insert_eq.
      * exact Hprops.
      * by rewrite Hnext, Hnext1.
      * by apply (creates_app 1 0).
Qed.


Lemma create_organ_always host name gt size pos color sys :
  shader_ready host -> dispatched gt size = true -> valid_color color = true ->
  always 1 (GenerateProcedural.create_organ host name gt size pos color sys).
Proof.
  intros (Hnodes & [base Hbase] & [rough Hrough]) Hd Hc s.
  unfold valid_color in Hc.
  destruct (GenerateProcedural.hex_to_rgb color) as [c|] eqn:Hhex; [|done].
  eapply create_organ_ok; eauto.
Qed.

Ltac quiet_side := first [split; reflexivity | exact I].

Ltac always_step :=
  lazymatch goal with
  | |- always _ (bind _ _) => eapply always_bind; [|intros ?]
  | |- always _ (ret _) => apply always_ret
  | |- always _ (print _) => apply always_print
  | |- always _ (emit _) => apply always_emit; split; reflexivity
  | |- always _ (modify _) => apply always_modify
  | |- always _ get => apply always_get
  | |- always _ (for_each (_ :: _) _) => eapply always_for_each_cons
  | |- always _ (for_each [] _) => apply always_for_each_nil
  | |- always _ (try_pass _) => apply always_try_pass; log_auto ltac:(split; reflexivity)
  | |- always _ (GenerateProcedural.create_organ _ _ _ _ _ _ _) =>
      eapply create_organ_always; [eassumption | reflexivity | reflexivity]
  | |- always _ ?m =>
      let h := head_of m in
      is_const h; unfold h; cbv beta
  end.

Ltac always_go := repeat (always_step; cbv beta iota).


Lemma creates_eq n n' l : creates n l -> n = n' -> creates n' l.
Proof. by intros H <-. Qed.

Ltac always_unfold :=
  unfold GenerateProcedural.create_body_outline, GenerateProcedural.create_urinary_system,
    GenerateProcedural.create_skeletal_system, GenerateProcedural.create_nervous_system,
    GenerateProcedural.sides_arms, GenerateProcedural.sides_near;
  cbn [seq].

Ltac always_solve := eapply always_eq; [always_unfold; always_go | reflexivity].

Lemma create_body_outline_always host :
  shader_ready host -> always 12 (GenerateProcedural.create_body_outline host).
Proof. intros Hready. always_solve. Qed.

Lemma create_brain_always host :
  shader_ready host -> always 1 (GenerateProcedural.create_brain host).
Proof. intros Hready. always_solve. Qed.

Lemma create_heart_always host :
  shader_ready host -> always 1 (GenerateProcedural.create_heart host).
Proof. intros Hready. always_solve. Qed.

Lemma create_lungs_always host :
  shader_ready host -> always 2 (GenerateProcedural.create_lungs host).
Proof. intros Hready. always_solve. Qed.

Lemma create_digestive_system_always host :
  shader_ready host -> always 5 (GenerateProcedural.create_digestive_system host).
Proof. intros Hready. always_solve. Qed.

Lemma create_urinary_system_always host :
  shader_ready host -> always 3 (GenerateProcedural.create_urinary_system host).
Proof. intros Hready. always_solve. Qed.

Lemma create_skeletal_system_always host :
  shader_ready host -> always 8 (GenerateProcedural.create_skeletal_system host).
Proof. intros Hready. always_solve. Qed.

Lemma create_vascular_system_always host :
  shader_ready host -> always 2 (GenerateProcedural.create_vascular_system host).
Proof. intros Hready. always_solve. Qed.

Lemma create_nervous_system_always host :
  shader_ready host -> always 3 (GenerateProcedural.create_nervous_system host).
Proof. intros Hready. always_solve. Qed.

Create HintDb always_db.
#[local] Hint Resolve create_body_outline_always create_brain_always create_heart_always
  create_lungs_always create_digestive_system_always create_urinary_system_always
  create_skeletal_system_always create_vascular_system_always create_nervous_system_always
  : always_db.

(** The functions whose primitive count is in [always_db]. *)
Ltac counted m :=
  lazymatch m with
  | GenerateProcedural.create_body_outline _ => idtac
  | GenerateProcedural.create_brain _ => idtac
  | GenerateProcedural.create_heart _ => idtac
  | GenerateProcedural.create_lungs _ => idtac
  | GenerateProcedural.create_digestive_system _ => idtac
  | GenerateProcedural.create_urinary_system _ => idtac
  | GenerateProcedural.create_skeletal_system _ => idtac
  | GenerateProcedural.create_vascular_system _ => idtac
  | GenerateProcedural.create_nervous_system _ => idtac
  end.

Ltac wp_known ::=
  lazymatch goal with
  | |- wp (BuildCustomAnatomy.create_organ_material _ _ _ _) _ _ =>
      eapply create_organ_material_ok; [eassumption | eassumption | eassumption | eassumption |];
      intro_facts
  | |- wp (GenerateProcedural.create_material _ _ _ _ _) _ _ =>
      eapply create_material_ok; [eassumption | eassumption | eassumption | eassumption |];
      intro_facts
  | |- wp ?m _ _ =>
      counted m; eapply always_wp; [solve [eauto with always_db] | intro_facts]
  end.

Lemma procedural_main_pipeline host s :
  shader_ready host ->
  exporter_accepts host ->
  wp (GenerateProcedural.main host) s (fun _ _ l => pipeline false 37 l).
Proof.
  intros Hready Hexp. unfold GenerateProcedural.main, GenerateProcedural.clear_scene,
    GenerateProcedural.count_meshes.
  wp_go.
  exists [Print [Txt "\n"; Txt (rule 70)]; Print [Txt "PROCEDURAL ANATOMY MODEL GENERATOR"];
          Print [Txt (rule 70); Txt "\n"]; Print [Txt "Clearing scene..."]], [],
    (l ++ l0 ++ l1 ++ l2 ++ l3 ++ l4 ++ l5 ++ l6 ++ l7 ++
       [Print [Txt "\n✓ Created "; Val (AInt (Z.of_nat (length (filter
                 (fun p : nat * object => ob_type p.2 = "MESH") (map_to_list (objects s'7))))));
               Txt " anatomical structures"];
        Print [Txt "\nExporting to GLTF..."]; Mkdir (GenerateProcedural.OUTPUT_DIR host)]).
  eexists _, _. split; [|split; [|split; [|split; [|split]]]].
  - cbn [app]. rewrite <- !app_assoc. cbn [app]. reflexivity.
  - repeat constructor.
  - eapply creates_eq; [repeat (eapply creates_app; [eassumption|]); apply creates_quiet;
      repeat constructor | reflexivity].
  - repeat constructor.
  - reflexivity.
  - reflexivity.
Qed.

(** ** The build script: one structure *)

Lemma create_complex_mesh_ok host name position size subdivisions s Q :
  (forall s1 l1 ob0,
      objects s1 = <[next_id s := ob0]> (objects s) ->
      ob_props ob0 = ∅ -> ob_type ob0 = "MESH" -> ob_modifiers ob0 = [] ->
      active s1 = Some (next_id s) -> selected s1 = [next_id s] ->
      next_id s1 = S (next_id s) -> materials s1 = materials s ->
      creates 1 l1 ->
      Q (Some (next_id s)) s1 l1) ->
  wp (BuildCustomAnatomy.create_complex_mesh host name position size subdivisions) s Q.
Proof.
  intros HQ. wp_go. list_simpl. map_simpl.
  eapply HQ; [map_simpl; reflexivity | reflexivity ..| creates_log].
Qed.

Lemma create_tube_mesh_ok host name position size subdivisions s Q :
  (forall s1 l1 ob0,
      objects s1 = <[next_id s := ob0]> (objects s) ->
      ob_props ob0 = ∅ -> ob_type ob0 = "MESH" -> ob_modifiers ob0 = [] ->
      active s1 = Some (next_id s) -> selected s1 = [next_id s] ->
      next_id s1 = S (next_id s) -> materials s1 = materials s ->
      creates 1 l1 ->
      Q (Some (next_id s)) s1 l1) ->
  wp (BuildCustomAnatomy.create_tube_mesh host name position size subdivisions) s Q.
Proof.
  intros HQ. destruct size as [[radius height] depth]. wp_go. list_simpl. map_simpl.
  eapply HQ; [map_simpl; reflexivity | reflexivity ..| creates_log].
Qed.

Lemma create_bean_mesh_ok host name position size subdivisions s Q :
  (forall s1 l1 ob0,
      objects s1 = <[next_id s := ob0]> (objects s) ->
      ob_props ob0 = ∅ -> ob_type ob0 = "MESH" -> ob_modifiers ob0 = [] ->
      active s1 = Some (next_id s) -> selected s1 = [next_id s] ->
      next_id s1 = S (next_id s) -> materials s1 = materials s ->
      creates 1 l1 ->
      Q (Some (next_id s)) s1 l1) ->
  wp (BuildCustomAnatomy.create_bean_mesh host name position size subdivisions) s Q.
Proof.
  intros HQ. wp_go. list_simpl. map_simpl.
  eapply HQ; [map_simpl; reflexivity | reflexivity ..| creates_log].
Qed.

Lemma create_dome_mesh_ok host name position size subdivisions s Q :
  (forall s1 l1 ob0,
      objects s1 = <[next_id s := ob0]> (objects s) ->
      ob_props ob0 = ∅ -> ob_type ob0 = "MESH" -> ob_modifiers ob0 = [] ->
      active s1 = Some (next_id s) -> selected s1 = [next_id s] ->
      next_id s1 = S (next_id s) -> materials s1 = materials s ->
      creates 1 l1 ->
      Q (Some (next_id s)) s1 l1) ->
  wp (BuildCustomAnatomy.create_dome_mesh host name position size subdivisions) s Q.
Proof.
  intros HQ. wp_go. list_simpl. map_simpl.
  eapply HQ; [map_simpl; reflexivity | reflexivity ..| creates_log].
Qed.

Lemma create_coiled_tube_mesh_ok host name position size subdivisions s Q :
  (forall s1 l1 ob0,
      objects s1 = <[next_id s := ob0]> (objects s) ->
      ob_props ob0 = ∅ -> ob_type ob0 = "MESH" -> ob_modifiers ob0 = [] ->
      active s1 = Some (next_id s) -> selected s1 = [next_id s] ->
      next_id s1 = S (next_id s) -> materials s1 = materials s ->
      creates 1 l1 ->
      Q (Some (next_id s)) s1 l1) ->
  wp (BuildCustomAnatomy.create_coiled_tube_mesh host name position size subdivisions) s Q.
Proof.
  intros HQ. wp_go. list_simpl. map_simpl.
  eapply HQ; [map_simpl; reflexivity | reflexivity ..| creates_log].
Qed.

(** The dispatch on the type tag: every tag in [BUILD_TAGS] reaches one of
    the five creation functions. *)
Lemma create_mesh_for_ok host name spec s Q :
  handled (BuildCustomAnatomy.s_type spec) = true ->
  (forall s1 l1 ob0,
      objects s1 = <[next_id s := ob0]> (objects s) ->
      ob_props ob0 = ∅ -> ob_type ob0 = "MESH" -> ob_modifiers ob0 = [] ->
      active s1 = Some (next_id s) -> selected s1 = [next_id s] ->
      next_id s1 = S (next_id s) -> materials s1 = materials s ->
      creates 1 l1 ->
      Q (Some (next_id s)) s1 l1) ->
  wp (BuildCustomAnatomy.create_mesh_for host name spec) s Q.
Proof.
  intros Hh HQ. unfold BuildCustomAnatomy.create_mesh_for.
  destruct spec as [ty pos size color sys sub feat].
  cbn [BuildCustomAnatomy.s_type BuildCustomAnatomy.s_position BuildCustomAnatomy.s_size
       BuildCustomAnatomy.s_subdivisions] in *.
  unfold handled, PyList.contains, BUILD_TAGS in Hh. cbn [existsb] in Hh.
  repeat (apply orb_true_iff in Hh as [Hh|Hh]); try discriminate;
    apply String.eqb_eq in Hh; subst ty;
    cbn [String.eqb Ascii.eqb Bool.eqb PyList.contains existsb orb].
  all: lazymatch goal with
       | |- wp (BuildCustomAnatomy.create_complex_mesh _ _ _ _ _) _ _ =>
           apply create_complex_mesh_ok; exact HQ
       | |- wp (BuildCustomAnatomy.create_tube_mesh _ _ _ _ _) _ _ =>
           apply create_tube_mesh_ok; exact HQ
       | |- wp (BuildCustomAnatomy.create_bean_mesh _ _ _ _ _) _ _ =>
           apply create_bean_mesh_ok; exact HQ
       | |- wp (BuildCustomAnatomy.create_dome_mesh _ _ _ _ _) _ _ =>
           apply create_dome_mesh_ok; exact HQ
       | |- wp (BuildCustomAnatomy.create_coiled_tube_mesh _ _ _ _ _) _ _ =>
           apply create_coiled_tube_mesh_ok; exact HQ
       end.
Qed.

Lemma polygon_budget_nonneg name budget :
  BuildCustomAnatomy.POLYGON_BUDGET !! name = Some budget -> (0 <= budget)%Z.
Proof.
  intros H. apply elem_of_list_to_map_2 in H. apply list_elem_of_In in H.
  cbn [In] in H. intuition (try done); match goal with H : _ = (_, _) |- _ => inversion H end; lia.
Qed.

Lemma optimize_mesh_ok host s id ob target Q :
  objects s !! id = Some ob ->
  ob_type ob = "MESH" -> ob_modifiers ob = [] -> (0 <= target)%Z ->
  (forall s' l ob',
      objects s' = <[id := ob']> (objects s) ->
      ob_props ob' = ob_props ob -> ob_type ob' = "MESH" ->
      materials s' = materials s -> next_id s' = next_id s ->
      creates 0 l ->
      Q tt s' l) ->
  wp (BuildCustomAnatomy.optimize_mesh host (Some id) target) s Q.
Proof.
  intros Hob Hty Hmods Htarget HQ.
  destruct (Z_le_gt_dec (polygons (ob_data ob)) target) as [Hle|Hgt].
  - unfold wp. rewrite (optimize_mesh_skips host s id ob target Hob (or_intror Hle)).
    apply (HQ s [] ob); try done.
    + by rewrite insert_id.
    + apply creates_nil.
  - assert (Heqb : String.eqb (ob_type ob) "MESH" = true) by (by apply String.eqb_eq).
    assert (Hleb : (polygons (ob_data ob) <=? target)%Z = false) by (apply Z.leb_gt; lia).
    assert (Hz : (polygons (ob_data ob) =? 0)%Z = false) by (apply Z.eqb_neq; lia).
    wp_go. map_simpl. eapply HQ; [map_simpl; reflexivity | reflexivity | done ..| creates_log].
Qed.

Lemma build_structure_ok host acc name spec c s base rough Q :
  default_nodes host = true ->
  principled_inputs host !! "Base Color" = Some base ->
  principled_inputs host !! "Roughness" = Some rough ->
  BuildCustomAnatomy.hex_to_rgb (BuildCustomAnatomy.s_color spec) = Ok c ->
  handled (BuildCustomAnatomy.s_type spec) = true ->
  (forall s' l ob,
      objects s' = <[next_id s := ob]> (objects s) ->
      ob_props ob = tags (BuildCustomAnatomy.s_system spec) ->
      ob_type ob = "MESH" ->
      next_id s' = S (S (next_id s)) ->
      creates 1 l ->
      Q (acc ++ [next_id s]) s' l) ->
  wp (BuildCustomAnatomy.build_structure host acc (name, spec)) s Q.
Proof.
  intros Hnodes Hbase Hrough Hc Hh HQ.
  unfold BuildCustomAnatomy.build_structure.
  apply wp_bind, wp_emit, wp_bind.
  eapply create_mesh_for_ok; [exact Hh|].
  intros s1 l1 ob0 Hobj1 Hprops0 Hty0 Hmods0 Hact1 Hsel1 Hnext1 Hmat1 Hl1.
  cbv iota beta.
  apply wp_bind. eapply create_organ_material_ok; try eassumption.
  intros s2 l2 Hobj2 Hact2 Hsel2 Hlinked2 Hnext2 Hmats2 Hmat Hl2.
  rewrite Hobj1 in Hobj2.
  wp_go.
  destruct (BuildCustomAnatomy.POLYGON_BUDGET !! name) as [budget|] eqn:Hbudget.
  - eapply optimize_mesh_ok.
    + map_simpl. reflexivity.
    + scene_simpl. exact Hty0.
    + scene_simpl. exact Hmods0.
    + by eapply polygon_budget_nonneg.
    + intro_facts. wp_go.
      eapply HQ.
      * map_simpl. reflexivity.
      * match goal with H : ob_props _ = _ |- _ => rewrite H end.
        scene_simpl. rewrite Hprops0. reflexivity.
      * assumption.
      * map_simpl. reflexivity.
      * creates_log.
  - wp_go. eapply HQ.
    + map_simpl. reflexivity.
    + scene_simpl. rewrite Hprops0. reflexivity.
    + scene_simpl. exact Hty0.
    + scene_simpl. reflexivity.
    + creates_log.
Qed.

Lemma build_loop_ok host entries : forall acc s Q,
  shader_ready host ->
  forallb buildable entries = true ->
  (forall ids s' l,
      Forall2 (fun entry id =>
                 carries (tags (BuildCustomAnatomy.s_system entry.2)) s' id) entries ids ->
      Forall (fun id => (next_id s <= id < next_id s')%nat) ids ->
      kept_below (next_id s) s s' ->
      (next_id s <= next_id s')%nat ->
      creates (length entries) l ->
      Q (acc ++ ids) s' l) ->
  wp (for_fold entries acc (BuildCustomAnatomy.build_structure host)) s Q.
Proof.
  induction entries as [|[name spec] entries IH]; intros acc s Q Hready Hall HQ.
  - cbn [for_fold]. apply wp_ret. rewrite <- (app_nil_r acc). apply HQ.
    + constructor.
    + constructor.
    + by intros i Hi.
    + done.
    + apply creates_nil.
  - cbn [forallb] in Hall. apply andb_true_iff in Hall as [Hentry Hall].
    apply andb_true_iff in Hentry as [Hh Hc]. cbn [snd] in Hh, Hc.
    unfold build_color in Hc.
    destruct (BuildCustomAnatomy.hex_to_rgb (BuildCustomAnatomy.s_color spec)) as [c|] eqn:Hhex;
      [|done].
    pose proof Hready as (Hnodes & [base Hbase] & [rough Hrough]).
    cbn [for_fold]. apply wp_bind.
    eapply build_structure_ok; try eassumption.
    intros s1 l1 ob Hobj1 Hprops Hty Hnext1 Hl1.
    apply IH; [exact Hready | exact Hall |].
    intros ids s' l HF2 Hrange Hkept Hnext Hl.
    rewrite <- app_assoc. apply HQ.
    + constructor; [|exact HF2]. exists ob. split; [|exact Hprops].
      rewrite Hkept by lia. by rewrite Hobj1, lookup_insert_eq.
    + constructor; [lia|]. eapply Forall_impl; [exact Hrange|]. cbn beta. lia.
    + intros i Hi. rewrite Hkept by lia. rewrite Hobj1. by rewrite lookup_insert_ne by lia.
    + lia.
    + cbn [length]. by apply (creates_app 1).
Qed.

(** ** Loading and removing the reference objects *)

Lemma add_objects_spec obs : forall s,
  (Bpy.add_objects obs s).2 = seq (next_id s) (length obs) /\
  next_id (Bpy.add_objects obs s).1 = (next_id s + length obs)%nat /\
  kept_below (next_id s) s (Bpy.add_objects obs s).1 /\
  Forall2 (fun id ob => objects (Bpy.add_objects obs s).1 !! id = Some ob)
          (Bpy.add_objects obs s).2 obs /\
  materials (Bpy.add_objects obs s).1 = materials s /\
  active (Bpy.add_objects obs s).1 = active s /\
  selected (Bpy.add_objects obs s).1 = selected s /\
  linked (Bpy.add_objects obs s).1 = linked s.
Proof.
  induction obs as [|ob obs IH]; intros s.
  - cbn. repeat split; try done; try lia.
  - cbn [Bpy.add_objects].
    set (s1 := with_next_id (S (next_id s)) (with_objects (insert (next_id s) ob) s)).
    specialize (IH s1). destruct (Bpy.add_objects obs s1) as [s' ids].
    cbn [fst snd] in *. destruct IH as (Hids & Hnext & Hkept & Hall & Hmat & Hact & Hsel & Hlinked).
    subst s1. unfold kept_below, with_next_id, with_objects in *.
    cbn [next_id objects materials active selected linked] in *.
    repeat split; try done.
    + by rewrite Hids.
    + cbn [length]. lia.
    + intros i Hi. rewrite Hkept by lia. by rewrite lookup_insert_ne by lia.
    + constructor; [|exact Hall]. rewrite Hkept by lia. by rewrite lookup_insert_eq.
Qed.

Lemma dict_replace_absent {V} k (v : V) d :
  k ∉ d.*1 -> map (fun p => if String.eqb p.1 k then (k, v) else p) d = d.
Proof.
  induction d as [|[k0 v0] d IH]; [done|]. cbn [fmap list_fmap fst map]. intros Hk.
  apply not_elem_of_cons in Hk as [Hne Hk]. rewrite IH by done.
  destruct (String.eqb k0 k) eqn:E; [|done]. apply String.eqb_eq in E. congruence.
Qed.

Lemma dict_replace_values {V} k (v : V) d :
  NoDup d.*1 -> NoDup d.*2 -> v ∉ d.*2 ->
  NoDup (map (fun p => if String.eqb p.1 k then (k, v) else p) d).*2 /\
  (forall x, x ∈ (map (fun p => if String.eqb p.1 k then (k, v) else p) d).*2 ->
             x = v \/ x ∈ d.*2) /\
  (map (fun p => if String.eqb p.1 k then (k, v) else p) d).*1 = d.*1.
Proof.
  induction d as [|[k0 v0] d IH]; intros Hkeys Hvals Hv.
  - cbn. split; [constructor|]. split; [|done]. intros x Hx. by right.
  - cbn [fmap list_fmap fst snd map] in *.
    apply NoDup_cons in Hkeys as [Hk0 Hkeys]. apply NoDup_cons in Hvals as [Hv0 Hvals].
    apply not_elem_of_cons in Hv as [Hvne Hv].
    destruct (String.eqb k0 k) eqn:E.
    + apply String.eqb_eq in E. subst k0. rewrite dict_replace_absent by done.
      cbn [fst snd]. split; [by apply NoDup_cons|]. split; [|done].
      intros x Hx. apply elem_of_cons in Hx as [->|Hx]; [by left|]. right. by right.
    + destruct (IH Hkeys Hvals Hv) as (Hnd & Hsub & Hk). cbn [fst snd]. split; [|split].
      * apply NoDup_cons. split; [|exact Hnd]. intros Hin. apply Hsub in Hin as [->|Hin]; done.
      * intros x Hx. apply elem_of_cons in Hx as [->|Hx]; [right; by left|].
        apply Hsub in Hx as [->|Hx]; [by left|]. right. by right.
      * by rewrite Hk.
Qed.

Lemma dict_set_values {V} k (v : V) d :
  NoDup d.*1 -> NoDup d.*2 -> v ∉ d.*2 ->
  NoDup (PyDict.set k v d).*1 /\ NoDup (PyDict.set k v d).*2 /\
  (forall x, x ∈ (PyDict.set k v d).*2 -> x = v \/ x ∈ d.*2).
Proof.
  intros Hkeys Hvals Hv. unfold PyDict.set.
  destruct (existsb (fun p => String.eqb p.1 k) d) eqn:E.
  - destruct (dict_replace_values k v d Hkeys Hvals Hv) as (Hnd & Hsub & Hk).
    rewrite Hk. done.
  - rewrite !fmap_app. cbn [fmap list_fmap fst snd].
    assert (Hk : k ∉ d.*1).
    { intros Hin. apply list_elem_of_fmap in Hin as ([k0 v0] & Hk0 & Hin).
      apply list_elem_of_In in Hin.
      assert (existsb (fun p : string * V => String.eqb p.1 k) d = true) as Ht.
      { apply existsb_exists. exists (k0, v0). split; [done|]. rewrite Hk0.
        apply String.eqb_refl. }
      congruence. }
    split; [|split].
    + apply NoDup_app. split; [done|]. split; [|apply NoDup_singleton].
      intros x Hx Hx'. apply list_elem_of_singleton in Hx'. by subst.
    + apply NoDup_app. split; [done|]. split; [|apply NoDup_singleton].
      intros x Hx Hx'. apply list_elem_of_singleton in Hx'. by subst.
    + intros x Hx. apply elem_of_app in Hx as [Hx|Hx]; [by right|].
      apply list_elem_of_singleton in Hx. by left.
Qed.

Lemma load_reference_ok host z s Q :
  (forall refs s' l,
      NoDup refs.*2 ->
      Forall (fun id => hidden_in s' id /\ (id < next_id s')%nat) refs.*2 ->
      creates 0 l ->
      Q refs s' l) ->
  wp (BuildCustomAnatomy.load_reference host z) s Q.
Proof.
  intros HQ. unfold BuildCustomAnatomy.load_reference.
  destruct z as [z|]; [|apply wp_ret, HQ; [constructor | constructor | apply creates_nil]].
  destruct (negb (String.eqb z "") && path_exists host (PyPath.of_string z));
    [|apply wp_ret, HQ; [constructor | constructor | apply creates_nil]].
  apply wp_bind, wp_emit, wp_bind. unfold Bpy.libraries_load.
  apply wp_bind, wp_get.
  pose proof (add_objects_spec (blend_file host (PyPath.of_string z)) s)
    as (Hids & Hnext & Hkept & Hall & _).
  destruct (Bpy.add_objects (blend_file host (PyPath.of_string z)) s) as [s1 ids].
  cbn [fst snd] in *.
  apply wp_bind, wp_modify, wp_bind, wp_emit, wp_ret, wp_bind.
  assert (Hnd : NoDup ids) by (rewrite Hids; apply NoDup_seq).
  assert (Hlt : Forall (fun id => (id < next_id s1)%nat) ids).
  { rewrite Hids, Hnext. apply Forall_forall. intros i Hi. apply elem_of_seq in Hi. lia. }
  assert (Halive : Forall (alive s1) ids).
  { clear -Hall. induction Hall; constructor; [by eexists | done]. }
  clear Hids Hnext Hkept Hall.
  eapply wp_for_fold with
    (I := fun rest refs s' l =>
            NoDup rest /\ Forall (alive s') rest /\
            NoDup refs.*1 /\ NoDup refs.*2 /\
            Forall (fun id => (id ∉ rest) /\ hidden_in s' id /\ (id < next_id s1)%nat) refs.*2 /\
            Forall (fun id => (id < next_id s1)%nat) rest /\
            next_id s' = next_id s1 /\ creates 0 l).
  - split_and!; try done; try apply creates_nil; constructor.
  - intros id rest refs s2 l2 (Hnd2 & Hal2 & Hk & Hv & Hrefs & Hlt2 & Hnext2 & Hl2).
    apply NoDup_cons in Hnd2 as [Hid Hnd2].
    apply Forall_cons in Hal2 as [[ob Hob] Hal2].
    apply Forall_cons in Hlt2 as [Hidlt Hlt2].
    wp_go.
    assert (Hfresh : id ∉ refs.*2).
    { intros Hin. eapply Forall_forall in Hrefs; [|exact Hin]. destruct Hrefs as [Hno _].
      apply Hno. by left. }
    destruct (dict_set_values (PyStr.lower (ob_name ob)) id refs Hk Hv Hfresh)
      as (Hk' & Hv' & Hsub).
    split_and!; try done.
    + apply Forall_forall. intros i Hi. unfold alive. scene_simpl.
      destruct (decide (i = id)) as [->|Hne]; [by rewrite lookup_insert_eq|].
      rewrite lookup_insert_ne by done. eapply Forall_forall in Hal2; [exact Hal2 | done].
    + apply Forall_forall. intros i Hi. apply Hsub in Hi as [->|Hi].
      * split; [done|]. split; [|done]. unfold hidden_in. scene_simpl.
        rewrite lookup_insert_eq. exists (set_hidden true ob). by split.
      * eapply Forall_forall in Hrefs; [|exact Hi]. destruct Hrefs as (Hno & Ha & Hl).
        split; [|split; [|done]].
        -- intros Hin. apply Hno. by right.
        -- unfold hidden_in. scene_simpl.
           destruct (decide (i = id)) as [->|Hne].
           ++ rewrite lookup_insert_eq. exists (set_hidden true ob). by split.
           ++ by rewrite lookup_insert_ne.
    + creates_log.
  - cbn beta. intros refs s2 l2 (_ & _ & Hk & Hv & Hrefs & _ & Hnext2 & Hl2).
    wp_go. apply HQ; [done | | creates_log].
    eapply Forall_impl; [exact Hrefs|]. cbn beta. intros i (_ & (ob & Hob & Hh) & Hl).
    scene_simpl. split; [by exists ob|]. lia.
Qed.

Lemma remove_refs_ok (refs : list (string * nat)) : forall s Q,
  NoDup refs.*2 ->
  Forall (alive s) refs.*2 ->
  (forall s' l,
      (forall i, i ∉ refs.*2 -> objects s' !! i = objects s !! i) ->
      next_id s' = next_id s ->
      creates 0 l ->
      Q tt s' l) ->
  wp (for_each refs (fun kv => Bpy.objects_remove (Some kv.2) [])) s Q.
Proof.
  induction refs as [|[k id] refs IH]; intros s Q Hnd Halive HQ.
  - cbn [for_each]. apply wp_ret, HQ; [done | done | apply creates_nil].
  - cbn [fmap list_fmap snd] in *.
    apply NoDup_cons in Hnd as [Hid Hnd]. apply Forall_cons in Halive as [[ob Hob] Halive].
    cbn [for_each snd]. wp_go. apply IH; [exact Hnd | |].
    + apply Forall_forall. intros i Hi. unfold alive. scene_simpl.
      rewrite lookup_delete_ne by (intros ->; done).
      eapply Forall_forall in Halive; [exact Halive | done].
    + intros s' l Hsame Hnext Hl. apply HQ.
      * intros i Hi. apply not_elem_of_cons in Hi as [Hne Hi]. rewrite Hsame by done.
        scene_simpl. by rewrite lookup_delete_ne.
      * by rewrite Hnext.
      * creates_log.
Qed.

Lemma total_polygons_ok (ids : list nat) : forall (total : Z) s (Q : Z -> scene -> list event -> Prop),
  Forall (alive s) ids ->
  (forall t, Q t s []) ->
  wp (for_fold ids total (fun total id =>
        ty <- Bpy.obj_type (Some id) ;;
        if String.eqb ty "MESH"
        then (n <- Bpy.polygon_count (Some id) ;; ret (total + n)%Z)
        else ret total)%py) s Q.
Proof.
  induction ids as [|id ids IH]; intros total s Q Halive HQ.
  - cbn [for_fold]. apply wp_ret, HQ.
  - apply Forall_cons in Halive as [[ob Hob] Halive]. cbn [for_fold].
    destruct (String.eqb (ob_type ob) "MESH") eqn:Hty; wp_go;
      (apply IH; [exact Halive|]); intros t; apply HQ.
Qed.

(** ** The build script, end to end *)

Lemma structures_buildable : forallb buildable BuildCustomAnatomy.ANATOMY_STRUCTURES = true.
Proof. vm_compute. reflexivity. Qed.

Ltac wp_known ::=
  lazymatch goal with
  | |- wp (BuildCustomAnatomy.create_organ_material _ _ _ _) _ _ =>
      eapply create_organ_material_ok; [eassumption | eassumption | eassumption | eassumption |];
      intro_facts
  | |- wp (GenerateProcedural.create_material _ _ _ _ _) _ _ =>
      eapply create_material_ok; [eassumption | eassumption | eassumption | eassumption |];
      intro_facts
  | |- wp (BuildCustomAnatomy.load_reference _ _) _ _ => idtac
  | |- wp ?m _ _ =>
      counted m; eapply always_wp; [solve [eauto with always_db] | intro_facts]
  end.

Lemma build_anatomy_model_ok host z s Q :
  shader_ready host ->
  (forall ids s' mid,
      Forall2 (fun entry id => carries (tags (BuildCustomAnatomy.s_system entry.2)) s' id)
              BuildCustomAnatomy.ANATOMY_STRUCTURES ids ->
      creates 17 mid ->
      Q ids s'
        (build_banner ++
         [Op "object.select_all" [("action", AStr "SELECT")]; Op "object.delete" []] ++ mid)) ->
  wp (BuildCustomAnatomy.build_anatomy_model host z) s Q.
Proof.
  intros Hready HQ. unfold BuildCustomAnatomy.build_anatomy_model.
  wp_go.
  apply load_reference_ok. intros refs s1 l1 Hnd Hrefs Hl1.
  wp_go.
  apply build_loop_ok; [exact Hready | exact structures_buildable |].
  intros ids s2 l2 Hall Hrange Hkept Hnext Hl2. cbn [app].
  wp_go. apply remove_refs_ok; [exact Hnd | |].
  { eapply Forall_impl; [exact Hrefs|]. cbn beta. intros i [(ob & Hob & _) Hi].
    exists ob. by rewrite Hkept. }
  intros s3 l3 Hsame Hnext3 Hl3.
  assert (Hall3 : Forall2 (fun entry id =>
                     carries (tags (BuildCustomAnatomy.s_system entry.2)) s3 id)
                    BuildCustomAnatomy.ANATOMY_STRUCTURES ids).
  { clear -Hall Hrange Hrefs Hsame.
    induction Hall as [|e i es is_ He _ IH]; [constructor|].
    apply Forall_cons in Hrange as [Hi Hrange]. constructor; [|by apply IH].
    destruct He as (ob & Hob & Hprops). exists ob. split; [|done].
    rewrite Hsame; [done|]. intros Hin. eapply Forall_forall in Hrefs; [|exact Hin].
    lia. }
  wp_go.
  apply total_polygons_ok.
  { eapply Forall2_Forall_r; [exact Hall3|]. apply Forall_forall.
    intros e _ i (ob & Hob & _). by exists ob. }
  intros t. wp_go.
  cbn [app].
  apply (HQ ids s3
           (l1 ++ Print [Txt "\nBuilding anatomical structures..."] :: l2 ++ l3 ++
            [Print [Txt "\n✓ Created "; Val (AInt (Z.of_nat (length ids)));
                    Txt " anatomical structures"];
             Print [Txt "  Total polygons: "; Val (AInt t)]])).
  - exact Hall3.
  - change (length BuildCustomAnatomy.ANATOMY_STRUCTURES) with 17%nat in Hl2. creates_log.
Qed.

Lemma build_main_ok host sys_argv s :
  shader_ready host ->
  exporter_accepts host ->
  wp (BuildCustomAnatomy.main host sys_argv) s
     (fun _ s' l =>
        pipeline false 17 l /\
        exists ids,
          Forall2 (fun entry id => carries (tags (BuildCustomAnatomy.s_system entry.2)) s' id)
                  BuildCustomAnatomy.ANATOMY_STRUCTURES ids).
Proof.
  intros Hready Hexp. unfold BuildCustomAnatomy.main. cbv zeta. apply wp_bind.
  apply build_anatomy_model_ok; [exact Hready|].
  intros ids s1 mid Hall Hmid.
  unfold BuildCustomAnatomy.export_model. wp_go.
  split; [|by exists ids].
  exists build_banner, [],
    (mid ++ [Print [Txt "\nExporting to GLTF..."]; Mkdir (BuildCustomAnatomy.OUTPUT_DIR host)]).
  eexists _, _. split_and!.
  - unfold build_banner. rewrite <- ?app_assoc. cbn [app]. rewrite <- ?app_assoc. cbn [app]. reflexivity.
  - repeat constructor.
  - creates_log.
  - repeat constructor.
  - reflexivity.
  - reflexivity.
Qed.

(** ** The colour conversion on other inputs *)

Lemma lstrip_hashes h s :
  all_hash h = true -> PyStr.lstrip "#"%char (h ++ s)%string = PyStr.lstrip "#"%char s.
Proof.
  unfold all_hash. induction h as [|a h IH]; [done|]. cbn [list_ascii_of_string forallb].
  intros H. apply andb_true_iff in H as [Ha Hh]. apply Ascii.eqb_eq in Ha. subst a.
  cbn. by apply IH.
Qed.

Lemma lstrip_no_hash s : starts_with_hash s = false -> PyStr.lstrip "#"%char s = s.
Proof. destruct s as [|a s]; [done|]. cbn. by intros ->. Qed.

Lemma substring_app_l i n (a b : string) :
  (i + n <= String.length a)%nat -> substring i n (a ++ b)%string = substring i n a.
Proof.
  revert i n. induction a as [|c a IH]; intros i n H.
  - cbn in H. assert (i = 0%nat) as -> by lia. assert (n = 0%nat) as -> by lia.
    cbn. by destruct b.
  - destruct i as [|i].
    + destruct n as [|n]; [done|]. simpl. f_equal. apply (IH 0%nat). simpl in *. lia.
    + simpl. apply IH. simpl in H. lia.
Qed.

Lemma substring_past_end i n (s : string) :
  (String.length s <= i)%nat -> substring i n s = EmptyString.
Proof.
  revert i n. induction s as [|c s IH]; intros i n H.
  - by destruct i, n.
  - destruct i as [|i]; [cbn in H; lia|]. cbn. apply IH. cbn in H. lia.
Qed.

Lemma substring_length_le i n (s : string) : (String.length (substring i n s) <= n)%nat.
Proof.
  revert i n. induction s as [|c s IH]; intros i n.
  - destruct i, n; cbn; lia.
  - destruct i as [|i].
    + destruct n as [|n]; [cbn; lia|]. cbn. specialize (IH 0%nat n). lia.
    + cbn. apply IH.
Qed.

Lemma int16_cases s : (exists v, PyStr.int16 s = Ok v) \/ PyStr.int16 s = Raise ValueError.
Proof. unfold PyStr.int16. destruct (PyStr.parse16 s); eauto. Qed.

Lemma in_all_ascii a : In a all_ascii.
Proof.
  unfold all_ascii. rewrite <- (ascii_nat_embedding a). apply in_map, in_seq.
  pose proof (nat_ascii_bounded a). lia.
Qed.

Lemma short_parses_checked : short_parses_ok all_ascii = true.
Proof. vm_compute. reflexivity. Qed.

Lemma short_parse_all (chars : list ascii) :
  short_parses_ok chars = true ->
  forall a b, In a chars -> In b chars ->
    short_parse_ok (String a EmptyString) = true /\
    short_parse_ok (String a (String b EmptyString)) = true.
Proof.
  unfold short_parses_ok. intros H a b Ha Hb.
  pose proof (proj1 (forallb_forall _ _) H a Ha) as Hab.
  apply andb_true_iff in Hab as [H1 H2]. split; [exact H1|].
  exact (proj1 (forallb_forall _ _) H2 b Hb).
Qed.

Lemma parse16_short s v :
  (String.length s <= 2)%nat -> PyStr.parse16 s = Some v -> (-15 <= v <= 255)%Z.
Proof.
  intros Hlen Hv.
  assert (Hok : short_parse_ok s = true).
  { destruct s as [|a [|b [|c s]]].
    - reflexivity.
    - exact (proj1 (short_parse_all all_ascii short_parses_checked a a
                      (in_all_ascii a) (in_all_ascii a))).
    - exact (proj2 (short_parse_all all_ascii short_parses_checked a b
                      (in_all_ascii a) (in_all_ascii b))).
    - simpl in Hlen. lia. }
  unfold short_parse_ok in Hok. rewrite Hv in Hok. lia.
Qed.

Lemma component_in_range v : (-15 <= v <= 255)%Z -> component_range (inject_Z v / 255).
Proof.
  intros Hv. unfold component_range, Qle, Qdiv, Qmult, Qinv, inject_Z. cbn. lia.
Qed.

(** X1. The colour conversion of the three Blender scripts, and the one
    written inside [add_organ_meshes], raise [ValueError] on a text that
    has fewer than five characters once its leading [#] are stripped:
    the third slice is then empty, and [int('', 16)] fails. *)
Theorem hex_to_rgb_rejects_short_text (s : string) :
  (String.length (PyStr.lstrip "#"%char s) <= 4)%nat ->
  BuildCustomAnatomy.hex_to_rgb s = Raise ValueError /\
  GenerateProcedural.hex_to_rgb s = Raise ValueError /\
  ImportBodyParts3D.hex_to_rgb s = Raise ValueError /\
  CreateMorphTargets.organ_rgb s = Raise ValueError.
Proof.
  intros Hlen.
  assert (H : BuildCustomAnatomy.hex_to_rgb s = Raise ValueError).
  { unfold BuildCustomAnatomy.hex_to_rgb. cbv zeta. unfold PyStr.slice.
    rewrite (substring_past_end 4 2) by exact Hlen.
    destruct (int16_cases (substring 0 2 (PyStr.lstrip "#"%char s))) as [[r ->]| ->]; [|done].
    destruct (int16_cases (substring 2 2 (PyStr.lstrip "#"%char s))) as [[g ->]| ->]; done. }
  repeat split; exact H.
Qed.

Lemma hex_to_rgb_rejects_short_text_witness :
  BuildCustomAnatomy.hex_to_rgb "#FFF" = Raise ValueError /\
  GenerateProcedural.hex_to_rgb "#FFF" = Raise ValueError /\
  ImportBodyParts3D.hex_to_rgb "#FFF" = Raise ValueError /\
  CreateMorphTargets.organ_rgb "#FFF" = Raise ValueError.
Proof. apply (hex_to_rgb_rejects_short_text "#FFF"). vm_compute. lia. Defined.

(** X2. Only the first six characters after the leading [#] count: any
    number of leading [#] is stripped and whatever follows the sixth
    character is ignored, so an eight-digit colour with an alpha byte
    gives the colour of its first six digits. *)
Theorem hex_to_rgb_reads_six_characters (hashes six tail : string) :
  all_hash hashes = true ->
  String.length six = 6%nat ->
  starts_with_hash six = false ->
  BuildCustomAnatomy.hex_to_rgb (hashes ++ six ++ tail) = BuildCustomAnatomy.hex_to_rgb six /\
  GenerateProcedural.hex_to_rgb (hashes ++ six ++ tail) = GenerateProcedural.hex_to_rgb six /\
  ImportBodyParts3D.hex_to_rgb (hashes ++ six ++ tail) = ImportBodyParts3D.hex_to_rgb six /\
  CreateMorphTargets.organ_rgb (hashes ++ six ++ tail) = CreateMorphTargets.organ_rgb six.
Proof.
  intros Hh Hlen Hsix.
  assert (H : BuildCustomAnatomy.hex_to_rgb (hashes ++ six ++ tail)
              = BuildCustomAnatomy.hex_to_rgb six).
  { unfold BuildCustomAnatomy.hex_to_rgb. cbv zeta. unfold PyStr.slice.
    rewrite lstrip_hashes by exact Hh.
    assert (Hst : starts_with_hash (six ++ tail) = false).
    { destruct six; [done|]. exact Hsix. }
    rewrite (lstrip_no_hash _ Hst), (lstrip_no_hash _ Hsix).
    rewrite !substring_app_l by lia. reflexivity. }
  repeat split; exact H.
Qed.

Lemma hex_to_rgb_reads_six_characters_witness :
  BuildCustomAnatomy.hex_to_rgb "##E8B4D9FF" = BuildCustomAnatomy.hex_to_rgb "E8B4D9" /\
  GenerateProcedural.hex_to_rgb "##E8B4D9FF" = GenerateProcedural.hex_to_rgb "E8B4D9" /\
  ImportBodyParts3D.hex_to_rgb "##E8B4D9FF" = ImportBodyParts3D.hex_to_rgb "E8B4D9" /\
  CreateMorphTargets.organ_rgb "##E8B4D9FF" = CreateMorphTargets.organ_rgb "E8B4D9".
Proof.
  apply (hex_to_rgb_reads_six_characters "##" "E8B4D9" "FF"); reflexivity.
Defined.

(** X3. Whatever text the conversion accepts, each component it returns
    lies between -15/255 and 1: a slice has at most two characters, so it
    reads as a number from [-f] to [ff].  The conversion does not check
    that the characters are digits only, so a sign is accepted and a
    component can be negative. *)
Theorem hex_to_rgb_components_in_range (s : string) (c : rgb) :
  BuildCustomAnatomy.hex_to_rgb s = Ok c \/ GenerateProcedural.hex_to_rgb s = Ok c \/
  ImportBodyParts3D.hex_to_rgb s = Ok c \/ CreateMorphTargets.organ_rgb s = Ok c ->
  component_range c.1.1 /\ component_range c.1.2 /\ component_range c.2.
Proof.
  intros H.
  assert (Hc : BuildCustomAnatomy.hex_to_rgb s = Ok c) by (destruct H as [H|[H|[H|H]]]; exact H).
  clear H. unfold BuildCustomAnatomy.hex_to_rgb, PyStr.int16, PyStr.slice in Hc. cbv zeta in Hc.
  destruct (PyStr.parse16 (substring 0 2 _)) as [r|] eqn:Hr; [|done].
  destruct (PyStr.parse16 (substring 2 2 _)) as [g|] eqn:Hg; [|done].
  destruct (PyStr.parse16 (substring 4 2 _)) as [b|] eqn:Hb; [|done].
  cbn in Hc. injection Hc as <-. cbn [fst snd].
  apply parse16_short in Hr, Hg, Hb; try apply substring_length_le.
  repeat split; by apply component_in_range.
Qed.

Lemma hex_to_rgb_components_in_range_witness :
  BuildCustomAnatomy.hex_to_rgb "#-f80ff" = Ok (inject_Z (-15) / 255, inject_Z 128 / 255, inject_Z 255 / 255)%Q /\
  component_range (inject_Z (-15) / 255) /\ component_range (inject_Z 128 / 255) /\
  component_range (inject_Z 255 / 255).
Proof.
  split; [reflexivity|].
  apply (hex_to_rgb_components_in_range "#-f80ff"
           (inject_Z (-15) / 255, inject_Z 128 / 255, inject_Z 255 / 255)%Q).
  left. reflexivity.
Defined.

(** ** The build script: what its functions guarantee *)

Lemma sample_host_ready : shader_ready SampleHost.host.
Proof. split; [reflexivity|]. split; eexists; vm_compute; reflexivity. Qed.

Lemma sample_host_accepts : exporter_accepts SampleHost.host.
Proof. by intros kwargs s. Qed.


(** X5. The dispatch on the type tag in [build_anatomy_model].  For a tag
    it has a branch for, one primitive is created under a fresh handle,
    which is returned; the object is a mesh (also for [coiled_tube], which
    starts as a curve), has no modifier left on it and no custom property
    yet, and is the active object.  For any other tag nothing is created:
    [obj] stays [None], and the whole loop turn only prints its line and
    leaves the list of created objects as it was. *)
Theorem create_mesh_for_dispatch
    (host : Host) (name : string) (spec : BuildCustomAnatomy.structure)
    (created_objects : list nat) (s : scene) :
  if handled (BuildCustomAnatomy.s_type spec) then
    exists s' l ob,
      BuildCustomAnatomy.create_mesh_for host name spec s = (Ok (Some (next_id s)), s', l) /\
      objects s' = <[next_id s := ob]> (objects s) /\
      ob_type ob = "MESH" /\ ob_modifiers ob = [] /\ ob_props ob = ∅ /\
      active s' = Some (next_id s) /\ next_id s' = S (next_id s) /\
      creates 1 l
  else
    BuildCustomAnatomy.create_mesh_for host name spec s = (Ok None, s, []) /\
    BuildCustomAnatomy.build_structure host created_objects (name, spec) s
      = (Ok created_objects, s, [Print [Txt "Creating "; Val (AStr name); Txt "..."]]).
Proof.
  destruct (handled (BuildCustomAnatomy.s_type spec)) eqn:Hh.
  - assert (Hwp : wp (BuildCustomAnatomy.create_mesh_for host name spec) s
                    (fun r s' l =>
                       r = Some (next_id s) /\
                       exists ob, objects s' = <[next_id s := ob]> (objects s) /\
                         ob_type ob = "MESH" /\ ob_modifiers ob = [] /\ ob_props ob = ∅ /\
                         active s' = Some (next_id s) /\ next_id s' = S (next_id s) /\
                         creates 1 l)).
    { apply create_mesh_for_ok; [exact Hh|]. intros. split; [done|]. eexists. eauto 10. }
    apply wp_run in Hwp as (r & s' & l & Hrun & -> & ob & H).
    exists s', l, ob. split; [exact Hrun | exact H].
  - assert (Hnone : BuildCustomAnatomy.create_mesh_for host name spec s = (Ok None, s, [])).
    { unfold BuildCustomAnatomy.create_mesh_for. cbv zeta.
      unfold handled, PyList.contains, BUILD_TAGS in Hh. cbn [existsb] in Hh.
      repeat (apply orb_false_iff in Hh as [? Hh]).
      unfold PyList.contains. cbn [existsb].
      repeat match goal with H : String.eqb _ _ = false |- _ => rewrite H; clear H end.
      reflexivity. }
    split; [exact Hnone|].
    unfold BuildCustomAnatomy.build_structure, bind, print, emit. by rewrite Hnone.
Qed.

(** X6. One turn of the loop of [build_anatomy_model], for an entry whose
    tag has a branch and whose colour parses, on a host whose shader has
    the two inputs the material needs: the turn ends normally, appends
    the new handle to the list, and the object behind it is a mesh whose
    custom properties are exactly [system] (the entry's system) and
    [clickable] (True).  Two handles are used (object and material), one
    primitive is created and nothing is exported. *)
Theorem build_structure_tags_the_object
    (host : Host) (created_objects : list nat) (name : string)
    (spec : BuildCustomAnatomy.structure) (s : scene) :
  shader_ready host ->
  buildable (name, spec) = true ->
  exists s' l ob,
    BuildCustomAnatomy.build_structure host created_objects (name, spec) s
      = (Ok (created_objects ++ [next_id s]), s', l) /\
    objects s' = <[next_id s := ob]> (objects s) /\
    ob_type ob = "MESH" /\
    ob_props ob = tags (BuildCustomAnatomy.s_system spec) /\
    next_id s' = S (S (next_id s)) /\
    creates 1 l.
Proof.
  intros (Hnodes & [base Hbase] & [rough Hrough]) Hb.
  apply andb_true_iff in Hb as [Hh Hc]. cbn [snd] in Hh, Hc. unfold build_color in Hc.
  destruct (BuildCustomAnatomy.hex_to_rgb (BuildCustomAnatomy.s_color spec)) as [c|] eqn:Hhex;
    [|done].
  assert (Hwp : wp (BuildCustomAnatomy.build_structure host created_objects (name, spec)) s
                  (fun r s' l =>
                     r = created_objects ++ [next_id s] /\
                     exists ob, objects s' = <[next_id s := ob]> (objects s) /\
                       ob_type ob = "MESH" /\
                       ob_props ob = tags (BuildCustomAnatomy.s_system spec) /\
                       next_id s' = S (S (next_id s)) /\ creates 1 l)).
  { eapply build_structure_ok; try eassumption. intros. split; [done|]. eexists. eauto 10. }
  apply wp_run in Hwp as (r & s' & l & Hrun & -> & ob & H).
  exists s', l, ob. split; [exact Hrun | exact H].
Qed.

Lemma build_structure_tags_the_object_witness :
  exists s' l ob,
    BuildCustomAnatomy.build_structure SampleHost.host [] ("brain", brain_structure) empty_scene
      = (Ok ([] ++ [next_id empty_scene]), s', l) /\
    objects s' = <[next_id empty_scene := ob]> (objects empty_scene) /\
    ob_type ob = "MESH" /\
    ob_props ob = tags "NERVOUS" /\
    next_id s' = S (S (next_id empty_scene)) /\
    creates 1 l.
Proof.
  apply (build_structure_tags_the_object SampleHost.host [] "brain" brain_structure empty_scene).
  - exact sample_host_ready.
  - vm_compute. reflexivity.
Defined.



(** X8. On a host where a new material has no node tree (before Blender
    5.0, [use_nodes] is off by default), [create_organ_material] and the
    procedural [create_material] raise [AttributeError] at
    [mat.node_tree.nodes]: neither sets [use_nodes].  The material has
    been created by then and stays in the file, without nodes. *)
Theorem materials_need_a_node_tree
    (host : Host) (name color : string) (roughness subsurface : Q) (s : scene) :
  default_nodes host = false ->
  let s' := with_next_id (S (next_id s))
              (with_materials (insert (next_id s) (bare_material ("Mat_" ++ name))) s) in
  let l := [Op "materials.new" [("name", AStr ("Mat_" ++ name)%string)]] in
  BuildCustomAnatomy.create_organ_material host name color roughness s
    = (Raise (AttributeError "nodes"), s', l) /\
  GenerateProcedural.create_material host name color roughness subsurface s
    = (Raise (AttributeError "nodes"), s', l).
Proof.
  intros Hnodes s' l.
  unfold BuildCustomAnatomy.create_organ_material, GenerateProcedural.create_material,
    Bpy.materials_new, Bpy.node_tree_nodes, Bpy.mat_deref, bind, get, modify, emit, ret, raise.
  rewrite Hnodes. unfold with_next_id, with_materials. cbn [materials next_id].
  rewrite lookup_insert_eq. cbn [mat_tree]. done.
Qed.

Lemma materials_need_a_node_tree_witness :
  BuildCustomAnatomy.create_organ_material SampleHost.host_with_models "brain" "#E8B4D9" 0.4
      empty_scene
    = (Raise (AttributeError "nodes"),
       with_next_id 1 (with_materials (insert 0%nat (bare_material "Mat_brain")) empty_scene),
       [Op "materials.new" [("name", AStr "Mat_brain")]]) /\
  GenerateProcedural.create_material SampleHost.host_with_models "brain" "#E8B4D9" 0.4 0.1
      empty_scene
    = (Raise (AttributeError "nodes"),
       with_next_id 1 (with_materials (insert 0%nat (bare_material "Mat_brain")) empty_scene),
       [Op "materials.new" [("name", AStr "Mat_brain")]]).
Proof.
  apply (materials_need_a_node_tree SampleHost.host_with_models "brain" "#E8B4D9" 0.4 0.1
           empty_scene).
  reflexivity.
Defined.

(** ** The procedural script: what its functions guarantee *)

Lemma same_but_data_refl a : same_but_data a a.
Proof. by repeat split. Qed.

Lemma foldr_alter_same_but_data (f : object -> object) (m : gmap nat object) ids i ob :
  (forall x, same_but_data x (f x)) ->
  m !! i = Some ob ->
  exists ob', foldr (alter f) m ids !! i = Some ob' /\ same_but_data ob ob'.
Proof.
  intros Hf Hob. induction ids as [|j ids (ob' & Hob' & Hsame)].
  - exists ob. split; [done|]. apply same_but_data_refl.
  - cbn [foldr]. destruct (decide (j = i)) as [->|Hne].
    + rewrite lookup_alter_eq, Hob'. exists (f ob'). split; [done|].
      destruct Hsame as (? & ? & ? & ? & ?), (Hf ob') as (? & ? & ? & ? & ?).
      repeat split; congruence.
    + rewrite lookup_alter_ne by done. eauto.
Qed.

(** X9. [create_organ] with one of its four geometry types, a size of
    the matching shape and a colour that parses, on a host whose shader
    has the two inputs: the call ends normally and returns a fresh
    handle; one primitive is created; the object's custom properties are
    exactly [system] and [clickable]; two handles are used. *)
Theorem create_organ_creates_tagged_object
    (host : Host) (name geometry_type : string) (size : GenerateProcedural.size_arg)
    (position : vec3) (color system : string) (s : scene) :
  shader_ready host ->
  dispatched geometry_type size = true ->
  valid_color color = true ->
  exists s' l ob,
    GenerateProcedural.create_organ host name geometry_type size position color system s
      = (Ok (Some (next_id s)), s', l) /\
    objects s' = <[next_id s := ob]> (objects s) /\
    ob_props ob = tags system /\
    next_id s' = S (S (next_id s)) /\
    creates 1 l.
Proof.
  intros (Hnodes & [base Hbase] & [rough Hrough]) Hd Hc. unfold valid_color in Hc.
  destruct (GenerateProcedural.hex_to_rgb color) as [c|] eqn:Hhex; [|done].
  assert (Hwp : wp (GenerateProcedural.create_organ host name geometry_type size position
                      color system) s
                  (fun r s' l =>
                     r = Some (next_id s) /\
                     exists ob, objects s' = <[next_id s := ob]> (objects s) /\
                       ob_props ob = tags system /\ next_id s' = S (S (next_id s)) /\
                       creates 1 l)).
  { eapply create_organ_ok; try eassumption. intros. split; [done|]. eexists. eauto 10. }
  apply wp_run in Hwp as (r & s' & l & Hrun & -> & ob & H).
  exists s', l, ob. split; [exact Hrun | exact H].
Qed.

Lemma create_organ_creates_tagged_object_witness :
  exists s' l ob,
    GenerateProcedural.create_organ SampleHost.host "neck" "cylinder"
        (GenerateProcedural.SPair 0.04 0.12) (0, 1.35, 0)%Q "#FFD7BE" "BODY" empty_scene
      = (Ok (Some (next_id empty_scene)), s', l) /\
    objects s' = <[next_id empty_scene := ob]> (objects empty_scene) /\
    ob_props ob = tags "BODY" /\
    next_id s' = S (S (next_id empty_scene)) /\
    creates 1 l.
Proof.
  apply (create_organ_creates_tagged_object SampleHost.host "neck" "cylinder"
           (GenerateProcedural.SPair 0.04 0.12) (0, 1.35, 0)%Q "#FFD7BE" "BODY" empty_scene).
  - exact sample_host_ready.
  - reflexivity.
  - vm_compute. reflexivity.
Defined.





(** ** The BodyParts3D script: what its functions guarantee *)

(** X12. A model whose OBJ file is missing is skipped: [import_obj_model]
    prints the warning and returns [None] without calling the host, and
    the loop turn of [import_anatomy_models] only adds one to the count of
    skipped models.  A file that is there but holds no object is skipped
    as well, after the importer has run: no object appears, nothing is
    renamed and no line is printed. *)
Theorem import_skips_missing_model
    (host : Host) (counts : Z * Z) (m : ImportBodyParts3D.model) (s : scene) :
  let obj_path := PyPath.join (ImportBodyParts3D.MODELS_INPUT_DIR host)
                    [(ImportBodyParts3D.m_fma_code m ++ ".obj")%string] in
  (path_exists host obj_path = false ->
   ImportBodyParts3D.import_obj_model host (ImportBodyParts3D.m_fma_code m)
       (ImportBodyParts3D.m_organ_name m) s
     = (Ok None, s, [Print [Txt "⚠️  WARNING: Model not found: "; Val (APath obj_path)]]) /\
   ImportBodyParts3D.import_one host counts m s
     = (Ok (counts.1, counts.2 + 1)%Z, s,
        [Print [Txt "⚠️  WARNING: Model not found: "; Val (APath obj_path)]])) /\
  (path_exists host obj_path = true -> obj_file host obj_path = [] ->
   exists s',
     ImportBodyParts3D.import_one host counts m s
       = (Ok (counts.1, counts.2 + 1)%Z, s', [Op "import_scene.obj" [("filepath", APath obj_path)]]) /\
     objects s' = objects s /\ materials s' = materials s /\ next_id s' = next_id s).
Proof.
  intros obj_path. split.
  - intros Hmissing.
    assert (H : ImportBodyParts3D.import_obj_model host (ImportBodyParts3D.m_fma_code m)
                  (ImportBodyParts3D.m_organ_name m) s
                = (Ok None, s,
                   [Print [Txt "⚠️  WARNING: Model not found: "; Val (APath obj_path)]])).
    { unfold ImportBodyParts3D.import_obj_model. cbv zeta. fold obj_path. rewrite Hmissing.
      reflexivity. }
    split; [exact H|]. unfold ImportBodyParts3D.import_one, bind. rewrite H. reflexivity.
  - intros Hthere Hempty. eexists.
    unfold ImportBodyParts3D.import_one, ImportBodyParts3D.import_obj_model, bind.
    cbv zeta. fold obj_path. rewrite Hthere. cbn [negb].
    unfold Bpy.ops_import_obj, Bpy.selected_objects, bind, modify, emit, ret.
    rewrite Hempty. cbn. split; [reflexivity|]. done.
Qed.

Lemma import_skips_missing_model_witness :
  let m := ImportBodyParts3D.mk "FMA50801" "brain" "NERVOUS" "#9B59B6" (0, 1.5, 0)%Q in
  let obj_path := PyPath.join (ImportBodyParts3D.MODELS_INPUT_DIR SampleHost.host)
                    ["FMA50801.obj"] in
  ImportBodyParts3D.import_obj_model SampleHost.host "FMA50801" "brain" empty_scene
    = (Ok None, empty_scene,
       [Print [Txt "⚠️  WARNING: Model not found: "; Val (APath obj_path)]]) /\
  ImportBodyParts3D.import_one SampleHost.host (0, 0)%Z m empty_scene
    = (Ok (0, 1)%Z, empty_scene,
       [Print [Txt "⚠️  WARNING: Model not found: "; Val (APath obj_path)]]).
Proof.
  intros m obj_path.
  apply (import_skips_missing_model SampleHost.host (0, 0)%Z m empty_scene).
  reflexivity.
Defined.

Lemma import_material_ok host name color c roughness s Q :
  legacy_shader host ->
  ImportBodyParts3D.hex_to_rgb color = Ok c ->
  (forall s' l m ins,
      objects s' = objects s -> active s' = active s -> selected s' = selected s ->
      linked s' = linked s ->
      next_id s' = S (next_id s) ->
      (forall i, i <> next_id s -> materials s' !! i = materials s !! i) ->
      materials s' !! next_id s = Some m ->
      mat_bsdf m = Some ins ->
      ins !! "Base Color" = Some (AColor c 1.0) ->
      ins !! "Roughness" = Some (ANum roughness) ->
      ins !! "Subsurface" = Some (ANum 0.05) ->
      ins !! "Subsurface Color" = Some (AColor c 1.0) ->
      mat_tree m = true -> mat_output m = true -> mat_linked m = true ->
      creates 0 l ->
      Q (next_id s) s' l) ->
  wp (ImportBodyParts3D.create_material host name color roughness) s Q.
Proof.
  intros ([base Hbase] & [rough Hrough] & [sub Hsub] & [subc Hsubc]) Hc HQ.
  destruct (default_nodes host) eqn:Hnodes.
  - wp_go.
    eapply HQ;
      first [ creates_log
            | reflexivity
            | by map_simpl
            | by intros i Hi; map_simpl
            | map_simpl; reflexivity ].
  - wp_go.
    eapply HQ;
      first [ creates_log
            | reflexivity
            | by map_simpl
            | by intros i Hi; map_simpl
            | map_simpl; reflexivity ].
Qed.

(** X13. The BodyParts3D [create_material] on a host whose Principled
    BSDF has the inputs [Base Color], [Roughness], [Subsurface] and
    [Subsurface Color], with a colour that parses: the call ends normally
    whether or not new materials come with a node tree (it sets
    [use_nodes] itself) and returns a fresh material whose node has the
    colour in [Base Color] and [Subsurface Color], the roughness given and
    [Subsurface] 0.05, with an output node linked to it.  No object is
    touched. *)
Theorem import_material_sets_four_inputs
    (host : Host) (name color : string) (c : rgb) (roughness : Q) (s : scene) :
  legacy_shader host ->
  ImportBodyParts3D.hex_to_rgb color = Ok c ->
  exists s' l m ins,
    ImportBodyParts3D.create_material host name color roughness s = (Ok (next_id s), s', l) /\
    materials s' !! next_id s = Some m /\
    mat_bsdf m = Some ins /\
    ins !! "Base Color" = Some (AColor c 1.0) /\
    ins !! "Roughness" = Some (ANum roughness) /\
    ins !! "Subsurface" = Some (ANum 0.05) /\
    ins !! "Subsurface Color" = Some (AColor c 1.0) /\
    mat_tree m = true /\ mat_output m = true /\ mat_linked m = true /\
    objects s' = objects s /\
    (forall i, i <> next_id s -> materials s' !! i = materials s !! i).
Proof.
  intros Hshader Hc.
  assert (Hwp : wp (ImportBodyParts3D.create_material host name color roughness) s
                  (fun r s' l =>
                     r = next_id s /\
                     exists m ins,
                       materials s' !! next_id s = Some m /\
                       mat_bsdf m = Some ins /\
                       ins !! "Base Color" = Some (AColor c 1.0) /\
                       ins !! "Roughness" = Some (ANum roughness) /\
                       ins !! "Subsurface" = Some (ANum 0.05) /\
                       ins !! "Subsurface Color" = Some (AColor c 1.0) /\
                       mat_tree m = true /\ mat_output m = true /\ mat_linked m = true /\
                       objects s' = objects s /\
                       (forall i, i <> next_id s -> materials s' !! i = materials s !! i))).
  { eapply import_material_ok; try eassumption. intros. split; [done|].
    eexists _, _. split_and!; eassumption. }
  apply wp_run in Hwp as (r & s' & l & Hrun & -> & m & ins & Hpost).
  exists s', l, m, ins. split; [exact Hrun | exact Hpost].
Qed.

Lemma legacy_sample_host : legacy_shader SampleHost.host_with_models.
Proof. repeat split; eexists; vm_compute; reflexivity. Qed.

Lemma import_material_sets_four_inputs_witness :
  exists s' l m ins,
    ImportBodyParts3D.create_material SampleHost.host_with_models "brain" "#9B59B6" 0.4
        empty_scene = (Ok (next_id empty_scene), s', l) /\
    materials s' !! next_id empty_scene = Some m /\
    mat_bsdf m = Some ins /\
    ins !! "Base Color" = Some (AColor (inject_Z 155 / 255, inject_Z 89 / 255, inject_Z 182 / 255)%Q 1.0) /\
    ins !! "Roughness" = Some (ANum 0.4) /\
    ins !! "Subsurface" = Some (ANum 0.05) /\
    ins !! "Subsurface Color" = Some (AColor (inject_Z 155 / 255, inject_Z 89 / 255, inject_Z 182 / 255)%Q 1.0) /\
    mat_tree m = true /\ mat_output m = true /\ mat_linked m = true /\
    objects s' = objects empty_scene /\
    (forall i, i <> next_id empty_scene -> materials s' !! i = materials empty_scene !! i).
Proof.
  apply (import_material_sets_four_inputs SampleHost.host_with_models "brain" "#9B59B6").
  - exact legacy_sample_host.
  - reflexivity.
Defined.

(** X14. [clean_mesh] and [decimate_mesh] do nothing at all, and do not
    fail, when they are given [None] or an object that is not a mesh.
    On a mesh without modifiers [decimate_mesh] adds a Decimate modifier
    with the ratio given and applies it: the object's mesh data is what
    the host's decimation makes of it, the modifier is gone again, and
    the object is made the active one. *)
Theorem clean_and_decimate_skip_non_meshes
    (host : Host) (obj : option nat) (ratio : Q) (s : scene) :
  (no_mesh_behind s obj ->
   ImportBodyParts3D.clean_mesh host obj s = (Ok tt, s, []) /\
   ImportBodyParts3D.decimate_mesh host obj ratio s = (Ok tt, s, [])) /\
  (forall id ob,
     obj = Some id -> objects s !! id = Some ob ->
     ob_type ob = "MESH" -> ob_modifiers ob = [] ->
     exists s' l,
       ImportBodyParts3D.decimate_mesh host obj ratio s = (Ok tt, s', l) /\
       objects s' = <[id := decimated host ratio ob]> (objects s) /\
       active s' = Some id /\
       materials s' = materials s /\ next_id s' = next_id s /\
       creates 0 l).
Proof.
  split.
  - intros Hno. destruct obj as [id|].
    + destruct Hno as (ob & Hob & Hty).
      assert (Hneq : String.eqb (ob_type ob) "MESH" = false) by (by apply String.eqb_neq).
      unfold ImportBodyParts3D.clean_mesh, ImportBodyParts3D.decimate_mesh,
        ImportBodyParts3D.not_a_mesh, Bpy.obj_type, Bpy.deref, bind, ret.
      rewrite Hob. cbn. rewrite Hneq. done.
    + done.
  - intros id ob -> Hob Hty Hmods.
    assert (Heqb : String.eqb (ob_type ob) "MESH" = true) by (by apply String.eqb_eq).
    assert (Hwp : wp (ImportBodyParts3D.decimate_mesh host (Some id) ratio) s
                    (fun _ s' l =>
                       objects s' = <[id := decimated host ratio ob]> (objects s) /\
                       active s' = Some id /\
                       materials s' = materials s /\ next_id s' = next_id s /\
                       creates 0 l)).
    { wp_go. list_simpl. map_simpl. split_and!; try done; creates_log. }
    apply wp_run in Hwp as ([] & s' & l & Hrun & Hpost). eauto.
Qed.

Lemma clean_and_decimate_skip_non_meshes_witness :
  (ImportBodyParts3D.clean_mesh SampleHost.host (Some 1%nat) two_object_scene
     = (Ok tt, two_object_scene, []) /\
   ImportBodyParts3D.decimate_mesh SampleHost.host (Some 1%nat) 0.1 two_object_scene
     = (Ok tt, two_object_scene, [])) /\
  exists s' l,
    ImportBodyParts3D.decimate_mesh SampleHost.host (Some 0%nat) 0.1 two_object_scene
      = (Ok tt, s', l) /\
    objects s' = <[0%nat := decimated SampleHost.host 0.1 brain_mesh_object]>
                   (objects two_object_scene) /\
    active s' = Some 0%nat /\
    materials s' = materials two_object_scene /\ next_id s' = next_id two_object_scene /\
    creates 0 l.
Proof.
  split.
  - apply (proj1 (clean_and_decimate_skip_non_meshes SampleHost.host (Some 1%nat) 0.1
                    two_object_scene)).
    exists camera_object. split; [reflexivity|]. discriminate.
  - apply (proj2 (clean_and_decimate_skip_non_meshes SampleHost.host (Some 0%nat) 0.1
                    two_object_scene) 0%nat brain_mesh_object); reflexivity.
Defined.

(** X15. [optimize_models] looks its argument up in
    [TARGET_POLYGON_COUNT]: with any name other than [high_detail] and
    [low_detail] it raises [KeyError], after the three banner lines and
    before looking at the scene. *)
Theorem optimize_models_rejects_unknown_detail
    (host : Host) (target_detail : string) (s : scene) :
  ImportBodyParts3D.TARGET_POLYGON_COUNT !! target_detail = None ->
  ImportBodyParts3D.optimize_models host target_detail s
    = (Raise (KeyError target_detail), s,
       [Print [Txt "\n"; Txt (rule 70)];
        Print [Txt "OPTIMIZING MODELS (Target: "; Val (AStr target_detail); Txt ")"];
        Print [Txt (rule 70); Txt "\n"]]).
Proof.
  intros Hnone. unfold ImportBodyParts3D.optimize_models, bind, print, emit, raise.
  rewrite Hnone. reflexivity.
Qed.

Lemma optimize_models_rejects_unknown_detail_witness :
  ImportBodyParts3D.optimize_models SampleHost.host "medium_detail" two_object_scene
    = (Raise (KeyError "medium_detail"), two_object_scene,
       [Print [Txt "\n"; Txt (rule 70)];
        Print [Txt "OPTIMIZING MODELS (Target: "; Val (AStr "medium_detail"); Txt ")"];
        Print [Txt (rule 70); Txt "\n"]]).
Proof.
  apply (optimize_models_rejects_unknown_detail SampleHost.host "medium_detail" two_object_scene).
  vm_compute. reflexivity.
Defined.

(** ** Reading the command line *)

Lemma contains_In x l : PyList.contains x l = true <-> In x l.
Proof.
  unfold PyList.contains. rewrite existsb_exists. split.
  - intros (y & Hy & Heq). apply String.eqb_eq in Heq. by subst.
  - intros H. exists x. split; [done|]. apply String.eqb_refl.
Qed.

Lemma contains_not_In x l : PyList.contains x l = false <-> ~ In x l.
Proof.
  rewrite <- contains_In. destruct (PyList.contains x l); split; intros; congruence.
Qed.

Lemma index_first x pre post :
  ~ In x pre -> PyList.index x (pre ++ x :: post) = Some (length pre).
Proof.
  induction pre as [|y pre IH]; intros Hx.
  - cbn. by rewrite String.eqb_refl.
  - cbn. destruct (String.eqb y x) eqn:E.
    + apply String.eqb_eq in E. subst. exfalso. apply Hx. by left.
    + rewrite IH; [done|]. intros H. apply Hx. by right.
Qed.

Lemma index_absent x l : ~ In x l -> PyList.index x l = None.
Proof.
  induction l as [|y l IH]; intros Hx; [done|].
  cbn. destruct (String.eqb y x) eqn:E.
  - apply String.eqb_eq in E. subst. exfalso. apply Hx. by left.
  - rewrite IH; [done|]. intros H. apply Hx. by right.
Qed.

Lemma arguments_after_separator pre post :
  ~ In "--" pre -> drop (length pre + 1) (pre ++ "--" :: post) = post.
Proof.
  intros _. rewrite Nat.add_1_r. change (pre ++ "--" :: post) with (pre ++ ["--"] ++ post).
  rewrite app_assoc. rewrite drop_app_length'; [done|]. rewrite length_app. cbn. lia.
Qed.

(** X16. How [build_custom_anatomy.main] reads [sys.argv]: only what
    follows the first [--] is looked at; the reference path is the
    argument right after the first [--reference] there.  Without [--],
    without [--reference] after it, or with [--reference] as the very
    last argument, there is no reference path. *)
Theorem parse_reference_reads_argument_after_flag (pre mid rest : list string) (p : string) :
  PyList.contains "--" pre = false -> PyList.contains "--reference" mid = false ->
  BuildCustomAnatomy.parse_reference (pre ++ "--" :: mid ++ "--reference" :: p :: rest) = Some p /\
  BuildCustomAnatomy.parse_reference (pre ++ "--" :: mid ++ ["--reference"]) = None /\
  BuildCustomAnatomy.parse_reference (pre ++ "--" :: mid) = None /\
  BuildCustomAnatomy.parse_reference pre = None.
Proof.
  intros Hpre Hmid. apply contains_not_In in Hpre, Hmid.
  unfold BuildCustomAnatomy.parse_reference.
  assert (Hsep : forall post, PyList.contains "--" (pre ++ "--" :: post) = true).
  { intros post. apply contains_In, in_or_app. right. by left. }
  split; [|split; [|split]].
  - rewrite Hsep, index_first by done. rewrite arguments_after_separator by done.
    assert (Hflag : PyList.contains "--reference" (mid ++ "--reference" :: p :: rest) = true).
    { apply contains_In, in_or_app. right. by left. }
    rewrite Hflag, index_first by done.
    assert (Hlt : (length mid + 1 <? length (mid ++ "--reference" :: p :: rest))%nat = true).
    { apply Nat.ltb_lt. rewrite length_app. cbn. lia. }
    rewrite Hlt. rewrite lookup_app_r by lia.
    by replace (length mid + 1 - length mid)%nat with 1%nat by lia.
  - rewrite Hsep, index_first by done. rewrite arguments_after_separator by done.
    assert (Hflag : PyList.contains "--reference" (mid ++ ["--reference"]) = true).
    { apply contains_In, in_or_app. right. by left. }
    rewrite Hflag, index_first by done.
    assert (Hlt : (length mid + 1 <? length (mid ++ ["--reference"]))%nat = false).
    { apply Nat.ltb_ge. rewrite length_app. cbn. lia. }
    by rewrite Hlt.
  - rewrite Hsep, index_first by done. rewrite arguments_after_separator by done.
    by rewrite (proj2 (contains_not_In _ _) Hmid).
  - by rewrite (proj2 (contains_not_In _ _) Hpre).
Qed.

Lemma parse_reference_reads_argument_after_flag_witness :
  BuildCustomAnatomy.parse_reference
    (["blender"; "--reference"; "ignored.blend"] ++
     "--" :: ["--verbose"] ++ "--reference" :: "z.blend" :: ["--reference"; "late.blend"])
    = Some "z.blend" /\
  BuildCustomAnatomy.parse_reference
    (["blender"; "--reference"; "ignored.blend"] ++ "--" :: ["--verbose"] ++ ["--reference"])
    = None /\
  BuildCustomAnatomy.parse_reference
    (["blender"; "--reference"; "ignored.blend"] ++ "--" :: ["--verbose"]) = None /\
  BuildCustomAnatomy.parse_reference ["blender"; "--reference"; "ignored.blend"] = None.
Proof.
  apply (parse_reference_reads_argument_after_flag
           ["blender"; "--reference"; "ignored.blend"] ["--verbose"]
           ["--reference"; "late.blend"] "z.blend").
  - reflexivity.
  - reflexivity.
Defined.

(** ** The morph-target script: regions of the body *)

Lemma Qltb_true a b : CreateMorphTargets.Qltb a b = true <-> (a < b)%Q.
Proof.
  unfold CreateMorphTargets.Qltb. rewrite negb_true_iff. split.
  - intros H. apply Qnot_le_lt. intros Hle. apply Qle_bool_iff in Hle. congruence.
  - intros H. destruct (Qle_bool b a) eqn:E; [|done].
    apply Qle_bool_iff in E. exfalso. by apply (Qlt_not_le a b).
Qed.

Lemma Qltb_false a b : CreateMorphTargets.Qltb a b = false <-> (b <= a)%Q.
Proof.
  unfold CreateMorphTargets.Qltb. rewrite negb_false_iff. apply Qle_bool_iff.
Qed.

(** X17. The regions of [create_bmi_variant].  A vertex at height
    [z <= 1.0] keeps its height whatever the preset.  A vertex in the
    chest band [0.7 <= z <= 1.0] is not moved at all: no preset has a
    scale for it.  A vertex above [1.0] has all three coordinates
    multiplied by [face_scale]. *)
Theorem scale_vertex_regions (params : CreateMorphTargets.preset) (x y z : Q) :
  ((z <= 1.0)%Q -> (CreateMorphTargets.scale_vertex params (x, y, z)).2 = z) /\
  ((0.7 <= z)%Q -> (z <= 1.0)%Q -> CreateMorphTargets.scale_vertex params (x, y, z) = (x, y, z)) /\
  ((1.0 < z)%Q ->
   CreateMorphTargets.scale_vertex params (x, y, z)
     = (x * CreateMorphTargets.face_scale params, y * CreateMorphTargets.face_scale params,
        z * CreateMorphTargets.face_scale params)%Q).
Proof.
  unfold CreateMorphTargets.scale_vertex. cbv zeta. split; [|split].
  - intros Hz. apply Qltb_false in Hz. rewrite Hz.
    by repeat (destruct (CreateMorphTargets.Qltb _ _); cbn [andb fst snd]).
  - intros Hlo Hhi.
    assert (H1 : CreateMorphTargets.Qltb z 0.7 = false) by (by apply Qltb_false).
    assert (H2 : CreateMorphTargets.Qltb z 0.5 = false).
    { apply Qltb_false. eapply Qle_trans; [|exact Hlo]. done. }
    assert (H3 : CreateMorphTargets.Qltb 1.0 z = false) by (by apply Qltb_false).
    rewrite H1, H2, H3. by rewrite andb_false_r.
  - intros Hz.
    assert (H1 : CreateMorphTargets.Qltb z 0.7 = false).
    { apply Qltb_false. apply Qlt_le_weak. eapply Qle_lt_trans; [|exact Hz]. done. }
    assert (H2 : CreateMorphTargets.Qltb z 0.5 = false).
    { apply Qltb_false. apply Qlt_le_weak. eapply Qle_lt_trans; [|exact Hz]. done. }
    assert (H3 : CreateMorphTargets.Qltb 1.0 z = true) by (by apply Qltb_true).
    rewrite H1, H2, H3. by rewrite andb_false_r.
Qed.

Lemma group_append_names (f : string -> list nat) g i names :
  CreateMorphTargets.group_append g i ((fun n => (n, f n)) <$> names)
  = (fun n => (n, if String.eqb n g then f n ++ [i] else f n)) <$> names.
Proof.
  unfold CreateMorphTargets.group_append. induction names as [|n names IH]; [done|].
  cbn [fmap list_fmap map fst snd] in *. rewrite IH. by destruct (String.eqb n g).
Qed.

Lemma fold_groups (ivs : list (nat * vec3)) names : forall f : string -> list nat,
  fold_left
    (fun groups iv =>
       match CreateMorphTargets.vertex_group_of iv.2 with
       | Some g => CreateMorphTargets.group_append g iv.1 groups
       | None => groups
       end) ivs ((fun n => (n, f n)) <$> names)
  = (fun n => (n, f n ++ (filter (fun iv => CreateMorphTargets.vertex_group_of iv.2 = Some n)
                                 ivs).*1)) <$> names.
Proof.
  induction ivs as [|[i co] ivs IH]; intros f.
  - cbn [fold_left]. apply list_fmap_ext. intros _ n _. by rewrite filter_nil, app_nil_r.
  - cbn [fold_left fst snd]. destruct (CreateMorphTargets.vertex_group_of co) as [g|] eqn:E.
    + rewrite group_append_names, IH. apply list_fmap_ext. intros _ n _. f_equal.
      rewrite filter_cons. cbn [snd]. rewrite E.
      destruct (String.eqb n g) eqn:En.
      * apply String.eqb_eq in En. subst n. rewrite decide_True by done.
        cbn [fmap list_fmap fst]. by rewrite <- app_assoc.
      * apply String.eqb_neq in En. rewrite decide_False by congruence. done.
    + rewrite IH. apply list_fmap_ext. intros _ n _. f_equal.
      rewrite filter_cons. cbn [snd]. rewrite E. by rewrite decide_False.
Qed.

(** ** Runs that may fail *)

Lemma ends_run {A} (m : M A) s (P : res A -> scene -> list event -> Prop) :
  ends m s P -> exists r s' l, m s = (r, s', l) /\ P r s' l.
Proof. unfold ends. destruct (m s) as [[r s'] l]. eauto. Qed.

Lemma ends_wp {A} (m : M A) s (P : res A -> scene -> list event -> Prop) :
  wp m s (fun a s' l => P (Ok a) s' l) -> ends m s P.
Proof. unfold wp, ends. by destruct (m s) as [[[a|e] s'] l]. Qed.

(** The first statement ends normally; the run goes on with the rest. *)
Lemma ends_after {A B} (m : M A) (f : A -> M B) s
    (P : res B -> scene -> list event -> Prop) :
  wp m s (fun a s1 l1 => ends (f a) s1 (fun r s2 l2 => P r s2 (l1 ++ l2))) ->
  ends (bind m f) s P.
Proof.
  unfold wp, ends, bind. destruct (m s) as [[[a|e] s1] l1]; [|done].
  by destruct (f a s1) as [[r s2] l2].
Qed.

(** The first statement raises; the rest does not run. *)
Lemma ends_stop {A B} (m : M A) (f : A -> M B) s
    (P : res B -> scene -> list event -> Prop) :
  ends m s (fun r s1 l1 => exists e, r = Raise e /\ P (Raise e) s1 l1) ->
  ends (bind m f) s P.
Proof.
  unfold ends, bind. destruct (m s) as [[[a|e] s1] l1]; intros (e' & H & HP); [done|].
  by injection H as ->.
Qed.

Lemma ends_raise {A} e s (P : res A -> scene -> list event -> Prop) :
  P (Raise e) s [] -> ends (raise e) s P.
Proof. done. Qed.

(** The exporter call: logged, then the host decides. *)
Lemma ends_export {B} host kwargs (f : unit -> M B) s
    (P : res B -> scene -> list event -> Prop) :
  match gltf_export host kwargs s with
  | Ok _ => ends (f tt) s (fun r s2 l2 => P r s2 (Op "export_scene.gltf" kwargs :: l2))
  | Raise e => P (Raise e) s [Op "export_scene.gltf" kwargs]
  end ->
  ends (bind (Bpy.ops_export_gltf host kwargs) f) s P.
Proof.
  unfold ends, bind, Bpy.ops_export_gltf, bind, emit, get, lift.
  destruct (gltf_export host kwargs s) as [[]|e]; [|done].
  by destruct (f tt s) as [[r s2] l2].
Qed.

Ltac ends_step :=
  lazymatch goal with
  | |- ends (bind (Bpy.ops_export_gltf _ _) _) _ _ => apply ends_export
  | |- ends (bind _ _) _ _ => apply ends_after; wp_go
  | |- ends (raise _) _ _ => apply ends_raise
  | |- ends (ret _) _ _ => apply ends_wp, wp_ret
  | |- ends (print _) _ _ => apply ends_wp, wp_emit
  | |- ends (if true then _ else _) _ _ => cbv iota
  | |- ends (if false then _ else _) _ _ => cbv iota
  | |- ends (let _ := _ in _) _ _ => cbv zeta
  end.

(** ** The morph-target script: vertex groups *)

Lemma member_head (x : nat) (l : list nat) : member x (x :: l) = true.
Proof. unfold member. cbn [existsb]. by rewrite Nat.eqb_refl. Qed.

Lemma create_vertex_groups_stops b ob s
    (P : res (list (string * list nat)) -> scene -> list event -> Prop) :
  objects s !! b = Some ob ->
  (forall s',
      objects s' = <[b := set_vertex_groups (ob_vertex_groups ob ++ [("abdomen", [])]) ob]>
                     (objects s) ->
      materials s' = materials s -> next_id s' = next_id s ->
      active s' = Some b -> member b (edit_mode s') = true ->
      P (Raise (RuntimeError "VertexGroup.add")) s'
        [Print [Txt "Creating vertex groups for body regions..."];
         Op "view_layer.objects.active" [("value", ARef b)];
         Op "object.mode_set" [("mode", AStr "EDIT")];
         Op "vertex_groups.new" [("object", ARef b); ("name", AStr "abdomen")]]) ->
  ends (CreateMorphTargets.create_vertex_groups (Some b)) s P.
Proof.
  intros Hob HP. unfold CreateMorphTargets.create_vertex_groups.
  do 4 ends_step. cbv zeta.
  change [("abdomen", []); ("chest", []); ("limbs_upper", []); ("limbs_lower", []);
          ("face", []); ("neck", [])]
    with ((fun n : string => (n, @nil nat)) <$>
            ["abdomen"; "chest"; "limbs_upper"; "limbs_lower"; "face"; "neck"]).
  rewrite (fold_groups _ _ (fun _ => [])).
  cbn [fmap list_fmap for_each].
  apply ends_stop, ends_stop. unfold Bpy.vertex_group_new.
  do 4 ends_step. cbn [edit_mode]. rewrite member_head. ends_step.
  cbn [app]. eexists. split; [reflexivity|]. eexists. split; [reflexivity|].
  apply HP; try reflexivity. apply member_head.
Qed.

(** X18. [create_vertex_groups] never makes its groups.  On any object of
    the scene it raises [RuntimeError] at the first [vgroup.add]: it has
    put the object in edit mode, where the host refuses to add vertices
    to a group.  By then the object is the active one, it is in edit mode
    and it has one new group, [abdomen], which is empty; the other five
    groups are not created and the object is not put back in object
    mode. *)
Theorem create_vertex_groups_stops_in_edit_mode (b : nat) (ob : object) (s : scene) :
  objects s !! b = Some ob ->
  exists s',
    CreateMorphTargets.create_vertex_groups (Some b) s
      = (Raise (RuntimeError "VertexGroup.add"), s',
         [Print [Txt "Creating vertex groups for body regions..."];
          Op "view_layer.objects.active" [("value", ARef b)];
          Op "object.mode_set" [("mode", AStr "EDIT")];
          Op "vertex_groups.new" [("object", ARef b); ("name", AStr "abdomen")]]) /\
    objects s' = <[b := set_vertex_groups (ob_vertex_groups ob ++ [("abdomen", [])]) ob]>
                   (objects s) /\
    active s' = Some b /\
    b ∈ edit_mode s'.
Proof.
  intros Hob.
  assert (H : ends (CreateMorphTargets.create_vertex_groups (Some b)) s
                (fun r s' l =>
                   r = Raise (RuntimeError "VertexGroup.add") /\
                   l = [Print [Txt "Creating vertex groups for body regions..."];
                        Op "view_layer.objects.active" [("value", ARef b)];
                        Op "object.mode_set" [("mode", AStr "EDIT")];
                        Op "vertex_groups.new" [("object", ARef b); ("name", AStr "abdomen")]] /\
                   objects s' = <[b := set_vertex_groups
                                          (ob_vertex_groups ob ++ [("abdomen", [])]) ob]>
                                  (objects s) /\
                   active s' = Some b /\ member b (edit_mode s') = true)).
  { eapply create_vertex_groups_stops; [exact Hob|]. intros. done. }
  apply ends_run in H as (r & s' & l & Hrun & -> & -> & Hobj & Hact & Hmode).
  exists s'. split_and!; try done.
  unfold member in Hmode. apply existsb_exists in Hmode as (x & Hx & Hbx).
  apply Nat.eqb_eq in Hbx. subst x. by apply list_elem_of_In.
Qed.

Lemma create_vertex_groups_stops_in_edit_mode_witness :
  exists s',
    CreateMorphTargets.create_vertex_groups (Some 0%nat) cube_scene
      = (Raise (RuntimeError "VertexGroup.add"), s',
         [Print [Txt "Creating vertex groups for body regions..."];
          Op "view_layer.objects.active" [("value", ARef 0%nat)];
          Op "object.mode_set" [("mode", AStr "EDIT")];
          Op "vertex_groups.new" [("object", ARef 0%nat); ("name", AStr "abdomen")]]) /\
    objects s' = <[0%nat := set_vertex_groups (ob_vertex_groups cube_object ++ [("abdomen", [])])
                              cube_object]> (objects cube_scene) /\
    active s' = Some 0%nat /\
    0%nat ∈ edit_mode s'.
Proof.
  apply (create_vertex_groups_stops_in_edit_mode 0%nat cube_object cube_scene).
  reflexivity.
Defined.

(** ** The morph-target script: the steps of [main] *)

Lemma add_organ_meshes_ok host scene_obj s Q :
  organ_shader host ->
  (forall ids s' l,
      Forall2 (fun organ id => carries (organ_props organ.1.1.1 organ.2) s' id)
              CreateMorphTargets.ORGANS ids ->
      Forall (fun id => (next_id s <= id)%nat) ids ->
      kept_below (next_id s) s s' ->
      creates 7 l ->
      Q tt s' l) ->
  wp (CreateMorphTargets.add_organ_meshes host scene_obj) s Q.
Proof.
  intros ([base Hbase] & [rough Hrough]) HQ.
  unfold CreateMorphTargets.add_organ_meshes.
  apply wp_bind, wp_emit, wp_bind.
  assert (Hvalid : forallb organ_color CreateMorphTargets.ORGANS = true) by (vm_compute; done).
  change 7%nat with (length CreateMorphTargets.ORGANS) in HQ.
  revert Hvalid HQ. generalize CreateMorphTargets.ORGANS as organs. intros organs Hvalid HQ.
  match goal with |- wp (for_each organs ?body) _ _ => set (organ_body := body) end.
  assert (Hbody : forall name loc scale color c s (Q : unit -> scene -> list event -> Prop),
             CreateMorphTargets.organ_rgb color = Ok c ->
             (forall s' l ob,
                 objects s' = <[next_id s := ob]> (objects s) ->
                 ob_props ob = organ_props name color ->
                 next_id s' = S (S (next_id s)) ->
                 creates 1 l ->
                 Q tt s' l) ->
             wp (organ_body (name, loc, scale, color)) s Q).
  { clear organs Hvalid HQ s Q. intros name loc scale color c s Q Hrgb HQ.
    unfold organ_body. cbv beta iota.
    destruct (default_nodes host) eqn:Hnodes.
    all: wp_go; eapply HQ; [map_simpl; reflexivity | reflexivity | reflexivity | creates_log]. }
  assert (Hloop : forall organs s (Q : unit -> scene -> list event -> Prop),
             forallb organ_color organs = true ->
             (forall ids s' l,
                 Forall2 (fun organ id => carries (organ_props organ.1.1.1 organ.2) s' id)
                         organs ids ->
                 Forall (fun id => (next_id s <= id < next_id s')%nat) ids ->
                 kept_below (next_id s) s s' ->
                 (next_id s <= next_id s')%nat ->
                 creates (length organs) l ->
                 Q tt s' l) ->
             wp (for_each organs organ_body) s Q).
  { clear organs Hvalid HQ s Q.
    induction organs as [|[[[name loc] scale] color] organs IH]; intros s Q Hvalid HQ.
    - cbn [for_each]. apply wp_ret, (HQ []); [constructor | constructor | by intros i Hi | done |].
      apply creates_nil.
    - cbn [forallb] in Hvalid. apply andb_true_iff in Hvalid as [Hc Hvalid].
      unfold organ_color in Hc. cbn [snd] in Hc.
      destruct (CreateMorphTargets.organ_rgb color) as [c|] eqn:Hrgb; [|done].
      cbn [for_each]. apply wp_bind. eapply Hbody; [exact Hrgb|].
      intros s1 l1 ob Hobj1 Hprops Hnext1 Hl1.
      apply IH; [exact Hvalid|].
      intros ids s' l HF2 Hrange Hkept Hnext Hl.
      apply (HQ (next_id s :: ids)).
      + constructor; [|exact HF2]. exists ob. split; [|exact Hprops].
        rewrite Hkept by lia. by rewrite Hobj1, lookup_insert_eq.
      + constructor; [lia|]. eapply Forall_impl; [exact Hrange|]. cbn beta. lia.
      + intros i Hi. rewrite Hkept by lia. rewrite Hobj1. by rewrite lookup_insert_ne by lia.
      + lia.
      + cbn [length]. by apply (creates_app 1). }
  apply Hloop; [exact Hvalid|].
  intros ids s' l HF2 Hrange Hkept Hnext Hl. wp_go. eapply HQ; try eassumption.
  - eapply Forall_impl; [exact Hrange|]. cbn beta. lia.
  - creates_log.
Qed.

Lemma export_gltf_ends host base_obj output_path s
    (P : res unit -> scene -> list event -> Prop) :
  (forall s' mid,
      objects s' = objects s ->
      selected s' = rev (List.filter (exported base_obj s) (map_to_list (objects s)).*1) ->
      active s' = base_obj ->
      materials s' = materials s -> next_id s' = next_id s ->
      creates 0 mid ->
      match gltf_export host (morph_export_kwargs output_path) s' with
      | Ok _ =>
          P (Ok tt) s'
            (mid ++
             [Op "export_scene.gltf" (morph_export_kwargs output_path);
              Print [Txt "✓ Export complete: ";
                     Val (ANum (inject_Z (file_size host output_path) / (1024 * 1024)));
                     Txt " MB"]])
      | Raise e =>
          P (Raise e) s' (mid ++ [Op "export_scene.gltf" (morph_export_kwargs output_path)])
      end) ->
  ends (CreateMorphTargets.export_gltf host base_obj output_path) s P.
Proof.
  intros HP. unfold CreateMorphTargets.export_gltf.
  apply ends_after, wp_emit, ends_after. unfold Bpy.ops_object_select_all.
  apply wp_bind, wp_modify, wp_emit. cbn [String.eqb Ascii.eqb Bool.eqb].
  apply ends_after, wp_data_objects, ends_after.
  unfold with_selected. cbn [objects].
  set (s0 := {| objects := objects s; materials := materials s; next_id := next_id s;
                active := active s; selected := []; linked := linked s;
                edit_mode := edit_mode s |}).
  assert (Halive : Forall (alive s0) (map_to_list (objects s)).*1).
  { apply Forall_forall. intros i Hi. apply list_elem_of_fmap in Hi as ([i' ob] & -> & Hin).
    apply elem_of_map_to_list in Hin. by exists ob. }
  match goal with |- wp (for_each _ ?body) _ _ => set (select_body := body) end.
  assert (Hloop : forall ids s1 (Q : unit -> scene -> list event -> Prop),
             Forall (alive s1) ids ->
             (forall s' l,
                 objects s' = objects s1 ->
                 selected s' = rev (List.filter (exported base_obj s1) ids) ++ selected s1 ->
                 active s' = active s1 -> materials s' = materials s1 ->
                 next_id s' = next_id s1 -> linked s' = linked s1 ->
                 creates 0 l ->
                 Q tt s' l) ->
             wp (for_each ids select_body) s1 Q).
  { clear. induction ids as [|id ids IH]; intros s1 Q Halive HQ.
    - cbn [for_each]. apply wp_ret, HQ; try done. apply creates_nil.
    - apply Forall_cons in Halive as [[ob Hob] Halive]. cbn [for_each].
      apply wp_bind. unfold select_body at 1.
      assert (Hexp : exported base_obj s1 id
                     = bool_decide (Some id = base_obj) ||
                       CreateMorphTargets.truthy (ob_props ob !! "isOrgan")).
      { unfold exported. by rewrite Hob. }
      cbn [List.filter] in HQ. rewrite Hexp in HQ.
      destruct (bool_decide (Some id = base_obj) ||
                CreateMorphTargets.truthy (ob_props ob !! "isOrgan")) eqn:Hsel.
      + wp_go. apply IH; [exact Halive|].
        intros s' l Hobj Hselected Hact Hmat Hnext Hlinked Hl. apply HQ; try done.
        * rewrite Hselected. cbn [rev selected]. rewrite <- app_assoc. reflexivity.
        * creates_log.
      + wp_go. apply IH; [exact Halive|].
        intros s' l Hobj Hselected Hact Hmat Hnext Hlinked Hl. apply HQ; try done.
        all: creates_log. }
  apply Hloop; [exact Halive|].
  intros s1 l1 Hobj Hselected Hact Hmat Hnext Hlinked Hl. subst s0. cbn [objects selected] in *.
  apply ends_after. wp_go. apply ends_export.
  change (gltf_export host _) with (gltf_export host (morph_export_kwargs output_path)).
  rewrite app_nil_r.
  match goal with
  | |- match gltf_export _ _ ?s2 with _ => _ end =>
      pose proof (HP s2 ([Print [Txt "Exporting to GLTF: "; Val (APath output_path)];
                          Op "object.select_all" [("action", AStr "DESELECT")]] ++ l1 ++
                         [Op "view_layer.objects.active"
                            (match base_obj with Some id => [("value", ARef id)] | None => [] end)]))
        as HP'
  end.
  cbn [objects selected active materials next_id] in HP'.
  assert (Hmid : creates 0
                   ([Print [Txt "Exporting to GLTF: "; Val (APath output_path)];
                     Op "object.select_all" [("action", AStr "DESELECT")]] ++ l1 ++
                    [Op "view_layer.objects.active"
                       (match base_obj with Some id => [("value", ARef id)] | None => [] end)]))
    by creates_log.
  specialize (HP' eq_refl eq_refl eq_refl eq_refl eq_refl Hmid). clear HP Hmid.
  destruct (gltf_export host (morph_export_kwargs output_path) _) as [[]|e].
  - apply ends_after. wp_go. apply ends_wp, wp_emit.
    cbn [app] in *. rewrite <- ?app_assoc in HP'. cbn [app] in HP'. rewrite ?app_nil_r.
    exact HP'.
  - cbn [app] in *. rewrite <- ?app_assoc in HP'. cbn [app] in HP'. exact HP'.
Qed.

(** ** What a computation leaves alone *)

Section Keeps.
Context (R : scene -> scene -> Prop) (R_refl : forall s, R s s)
        (R_trans : forall a b c, R a b -> R b c -> R a c).

Lemma keeps_still {A} (m : M A) : (forall s, scene_of (m s) = s) -> keeps R m.
Proof. intros H s. rewrite H. apply R_refl. Qed.

Lemma keeps_ret {A} (a : A) : keeps R (ret a).
Proof. by apply keeps_still. Qed.

Lemma keeps_raise {A} e : keeps R (raise (A := A) e).
Proof. by apply keeps_still. Qed.

Lemma keeps_get : keeps R get.
Proof. by apply keeps_still. Qed.

Lemma keeps_lift {A} (r : res A) : keeps R (lift r).
Proof. by apply keeps_still. Qed.

Lemma keeps_emit e : keeps R (emit e).
Proof. by apply keeps_still. Qed.

Lemma keeps_print line : keeps R (print line).
Proof. by apply keeps_still. Qed.

Lemma keeps_modify f : (forall s, R s (f s)) -> keeps R (modify f).
Proof. intros H s. apply H. Qed.

Lemma keeps_bind {A B} (m : M A) (f : A -> M B) :
  keeps R m -> (forall a, keeps R (f a)) -> keeps R (bind m f).
Proof.
  intros Hm Hf s. unfold bind, scene_of. specialize (Hm s). unfold scene_of in Hm.
  destruct (m s) as [[[a|e] s1] l1]; cbn in *; [|done].
  specialize (Hf a s1). unfold scene_of in Hf.
  destruct (f a s1) as [[r s2] l2]; cbn in *. by eapply R_trans.
Qed.

Lemma keeps_try_pass body : keeps R body -> keeps R (try_pass body).
Proof.
  intros H s. specialize (H s). unfold try_pass, scene_of in *.
  by destruct (body s) as [[[a|e] s1] l1].
Qed.

Lemma keeps_for_each {A} (xs : list A) body :
  (forall x, keeps R (body x)) -> keeps R (for_each xs body).
Proof.
  intros H. induction xs as [|x rest IH]; cbn [for_each].
  - apply keeps_ret.
  - apply keeps_bind; auto.
Qed.

Lemma keeps_for_fold {A B} (xs : list A) (acc : B) body :
  (forall acc x, keeps R (body acc x)) -> keeps R (for_fold xs acc body).
Proof.
  intros H. revert acc. induction xs as [|x rest IH]; intros acc; cbn [for_fold].
  - apply keeps_ret.
  - apply keeps_bind; auto.
Qed.

Lemma keeps_deref o attr : keeps R (Bpy.deref o attr).
Proof. apply keeps_still. intros s. unfold Bpy.deref. by repeat case_match. Qed.

Lemma keeps_need_active op : keeps R (Bpy.need_active op).
Proof. apply keeps_still. intros s. unfold Bpy.need_active. by repeat case_match. Qed.

Lemma keeps_mat_deref id attr : keeps R (Bpy.mat_deref id attr).
Proof. apply keeps_still. intros s. unfold Bpy.mat_deref. by repeat case_match. Qed.

Lemma keeps_active_object : keeps R Bpy.active_object.
Proof. by apply keeps_still. Qed.

Lemma keeps_selected_objects : keeps R Bpy.selected_objects.
Proof. by apply keeps_still. Qed.

Lemma keeps_data_objects : keeps R Bpy.data_objects.
Proof. by apply keeps_still. Qed.

(** What a computation keeps may be assumed of the scene it ends in. *)
Lemma wp_keeps {A} (m : M A) s (Q : A -> scene -> list event -> Prop) :
  keeps R m -> wp m s (fun a s' l => R s s' -> Q a s' l) -> wp m s Q.
Proof.
  intros H. specialize (H s). unfold wp, scene_of in *.
  destruct (m s) as [[[a|e] s1] l1]; cbn in *; auto.
Qed.

End Keeps.

(** One step of a proof that a computation keeps a relation: split
    sequences, loops and branches, unfold a named function, and leave the
    relation to be checked at each change of the scene. *)
Ltac keeps_step side :=
  lazymatch goal with
  | |- keeps _ (bind _ _) =>
      apply keeps_bind; try assumption;
      try lazymatch goal with |- forall _ : _, _ => intros ? end
  | |- keeps _ (ret _) => apply keeps_ret; try assumption
  | |- keeps _ (raise _) => apply keeps_raise; try assumption
  | |- keeps _ get => apply keeps_get; try assumption
  | |- keeps _ (lift _) => apply keeps_lift; try assumption
  | |- keeps _ (emit _) => apply keeps_emit; try assumption
  | |- keeps _ (print _) => apply keeps_print; try assumption
  | |- keeps _ (modify _) => apply keeps_modify; intros ?; side
  | |- keeps _ (try_pass _) => apply keeps_try_pass
  | |- keeps _ (for_each _ _) =>
      apply keeps_for_each; try assumption;
      try lazymatch goal with |- forall _ : _, _ => intros ? end
  | |- keeps _ (for_fold _ _ _) =>
      apply keeps_for_fold; try assumption;
      try lazymatch goal with |- forall _ : _, _ => intros ? ? end
  | |- keeps _ (Bpy.deref _ _) => apply keeps_deref; try assumption
  | |- keeps _ (Bpy.need_active _) => apply keeps_need_active; try assumption
  | |- keeps _ (Bpy.mat_deref _ _) => apply keeps_mat_deref; try assumption
  | |- keeps _ Bpy.active_object => apply keeps_active_object; try assumption
  | |- keeps _ Bpy.selected_objects => apply keeps_selected_objects; try assumption
  | |- keeps _ Bpy.data_objects => apply keeps_data_objects; try assumption
  | |- keeps _ (if ?c then _ else _) => destruct c
  | |- keeps _ (match ?x with _ => _ end) => destruct x
  | |- keeps _ ?m => let h := head_of m in is_const h; unfold h; cbv beta
  end.

Ltac keeps_auto side := repeat keeps_step side.

Lemma same_handles_refl s : same_handles s s.
Proof. reflexivity. Qed.

Lemma same_handles_trans a b c : same_handles a b -> same_handles b c -> same_handles a c.
Proof. unfold same_handles. congruence. Qed.

(** ** The morph-target script: what its functions guarantee *)

Lemma organ_sample_host : organ_shader SampleHost.host.
Proof. split; eexists; vm_compute; reflexivity. Qed.

Ltac wp_known ::=
  lazymatch goal with
  | |- wp (CreateMorphTargets.add_variant_key _ _) _ _ => idtac
  end.

(** X19. A variant made by [create_bmi_variant] always fits: it is a
    copy of the base with every vertex moved, so it has the base's vertex
    count, and the loop turn of [create_shape_keys] for it adds a key that
    holds the moved vertices; the mismatch line is never printed.  One
    handle is used, for the copy. *)
Theorem variant_always_gives_a_shape_key
    (host : Host) (s : scene) (b : nat) (base : object)
    (preset_name : string) (params : CreateMorphTargets.preset) :
  objects s !! b = Some base ->
  (b < next_id s)%nat ->
  exists s' l,
    (v <- CreateMorphTargets.create_bmi_variant host (Some b) preset_name params ;;
     CreateMorphTargets.add_variant_key (Some b) (preset_name, v))%py s = (Ok tt, s', l) /\
    objects s' =
      <[b := set_shape_keys
               (ob_shape_keys base ++ [preset_key preset_name params (verts (ob_data base))])
               base]>
        (<[next_id s := variant_of preset_name params base]> (objects s)) /\
    next_id s' = S (next_id s) /\
    ~ In (Print [Txt "  ✗ ERROR: Vertex count mismatch for "; Val (AStr preset_name)]) l /\
    In (Print [Txt "  ✓ Shape key created: "; Val (AStr preset_name)]) l /\
    creates 0 l.
Proof.
  intros Hbase Hlt.
  set (vv := CreateMorphTargets.scale_vertex params <$> verts (ob_data base)).
  assert (Hlen : (length (verts (ob_data base)) =? length vv)%nat = true).
  { subst vv. rewrite length_fmap. apply Nat.eqb_refl. }
  assert (Hwp : wp (v <- CreateMorphTargets.create_bmi_variant host (Some b) preset_name params ;;
                    CreateMorphTargets.add_variant_key (Some b) (preset_name, v))%py s
                  (fun _ s' l =>
                     objects s' =
                       <[b := set_shape_keys
                                (ob_shape_keys base ++
                                 [preset_key preset_name params (verts (ob_data base))]) base]>
                         (<[next_id s := variant_of preset_name params base]> (objects s)) /\
                     next_id s' = S (next_id s) /\
                     ~ In (Print [Txt "  ✗ ERROR: Vertex count mismatch for ";
                                  Val (AStr preset_name)]) l /\
                     In (Print [Txt "  ✓ Shape key created: "; Val (AStr preset_name)]) l /\
                     creates 0 l)).
  { wp_go.
    apply (wp_keeps same_handles).
    { pose proof same_handles_refl. pose proof same_handles_trans.
      keeps_auto ltac:(reflexivity). }
    eapply wp_mono.
    { eapply (add_variant_key_ok _ b base (preset_name, next_id s) (preset_name, vv)).
      - cbn [objects]. by rewrite lookup_insert_ne by lia.
      - split; [reflexivity|]. eexists. split; [cbn [objects snd]; by rewrite lookup_insert_eq|].
        reflexivity. }
    cbn beta. intros [] s2 l2 [Hobj2 Hl2] Hnext2.
    unfold matching_keys in Hobj2. unfold variant_events in Hl2.
    cbn [omap list_omap fst snd objects] in Hobj2, Hl2. rewrite Hlen in Hobj2, Hl2.
    unfold same_handles in Hnext2. cbn [next_id] in Hnext2. subst l2.
    split_and!.
    - rewrite Hobj2. reflexivity.
    - exact Hnext2.
    - cbn [app In]. intuition discriminate.
    - cbn [app In]. tauto.
    - creates_log. }
  apply wp_run in Hwp as ([] & s' & l & Hrun & Hpost). eauto.
Qed.

Lemma variant_always_gives_a_shape_key_witness :
  exists s' l,
    (v <- CreateMorphTargets.create_bmi_variant SampleHost.host (Some 0%nat) "Obese1" obese1 ;;
     CreateMorphTargets.add_variant_key (Some 0%nat) ("Obese1", v))%py cube_scene
      = (Ok tt, s', l) /\
    objects s' =
      <[0%nat := set_shape_keys
               (ob_shape_keys cube_object ++
                [preset_key "Obese1" obese1 (verts (ob_data cube_object))])
               cube_object]>
        (<[next_id cube_scene := variant_of "Obese1" obese1 cube_object]> (objects cube_scene)) /\
    next_id s' = S (next_id cube_scene) /\
    ~ In (Print [Txt "  ✗ ERROR: Vertex count mismatch for "; Val (AStr "Obese1")]) l /\
    In (Print [Txt "  ✓ Shape key created: "; Val (AStr "Obese1")]) l /\
    creates 0 l.
Proof.
  apply (variant_always_gives_a_shape_key SampleHost.host cube_scene 0%nat cube_object
           "Obese1" obese1).
  - reflexivity.
  - vm_compute. lia.
Defined.

(** X20. [add_organ_meshes] on a host whose Principled BSDF has the
    inputs [Base Color] and [Roughness], whatever its argument (which it
    does not use): the call ends normally and creates seven spheres under
    fresh handles; each carries exactly the custom properties [isOrgan]
    (True), [organName] and [displayColor] of its row.  Objects that were
    there before are left as they were, and nothing is exported. *)
Theorem add_organ_meshes_tags_seven_organs
    (host : Host) (scene_obj : option nat) (s : scene) :
  organ_shader host ->
  exists s' l ids,
    CreateMorphTargets.add_organ_meshes host scene_obj s = (Ok tt, s', l) /\
    Forall2 (fun organ id => carries (organ_props organ.1.1.1 organ.2) s' id)
            CreateMorphTargets.ORGANS ids /\
    Forall (fun id => (next_id s <= id)%nat) ids /\
    kept_below (next_id s) s s' /\
    creates 7 l.
Proof.
  intros Hshader.
  assert (Hwp : wp (CreateMorphTargets.add_organ_meshes host scene_obj) s
                  (fun _ s' l =>
                     exists ids,
                       Forall2 (fun organ id => carries (organ_props organ.1.1.1 organ.2) s' id)
                               CreateMorphTargets.ORGANS ids /\
                       Forall (fun id => (next_id s <= id)%nat) ids /\
                       kept_below (next_id s) s s' /\
                       creates 7 l)).
  { apply add_organ_meshes_ok; [exact Hshader|]. intros. eauto 10. }
  apply wp_run in Hwp as ([] & s' & l & Hrun & ids & Hpost). eauto 10.
Qed.

Lemma add_organ_meshes_tags_seven_organs_witness :
  exists s' l ids,
    CreateMorphTargets.add_organ_meshes SampleHost.host None cube_scene = (Ok tt, s', l) /\
    Forall2 (fun organ id => carries (organ_props organ.1.1.1 organ.2) s' id)
            CreateMorphTargets.ORGANS ids /\
    Forall (fun id => (next_id cube_scene <= id)%nat) ids /\
    kept_below (next_id cube_scene) cube_scene s' /\
    creates 7 l.
Proof.
  apply (add_organ_meshes_tags_seven_organs SampleHost.host None cube_scene organ_sample_host).
Defined.

(** X21. The morph script's [export_gltf], from any scene and for any
    base object (also [None]), calls the exporter exactly once and ends
    as the exporter does: when the exporter raises, the exception leaves
    [export_gltf] and the completion line is not printed.  When the
    exporter is called, the selection is exactly the base object and the
    objects whose [isOrgan] property is truthy, whatever was selected
    before; the base is the active object; no object has been changed.
    The call asks for [use_selection], [export_morph] and Draco
    compression at level 6, and is the last host call. *)
Theorem morph_export_selects_body_and_organs
    (host : Host) (base_obj : option nat) (output_path : path) (s : scene) :
  exists s' mid,
    CreateMorphTargets.export_gltf host base_obj output_path s
      = (gltf_export host (morph_export_kwargs output_path) s', s',
         mid ++
         Op "export_scene.gltf" (morph_export_kwargs output_path) ::
         match gltf_export host (morph_export_kwargs output_path) s' with
         | Ok _ =>
             [Print [Txt "✓ Export complete: ";
                     Val (ANum (inject_Z (file_size host output_path) / (1024 * 1024)));
                     Txt " MB"]]
         | Raise _ => []
         end) /\
    objects s' = objects s /\
    selected s' = rev (List.filter (exported base_obj s) (map_to_list (objects s)).*1) /\
    active s' = base_obj /\
    creates 0 mid.
Proof.
  assert (H : ends (CreateMorphTargets.export_gltf host base_obj output_path) s
                (fun r s' l =>
                   exists mid,
                     r = gltf_export host (morph_export_kwargs output_path) s' /\
                     l = mid ++
                         Op "export_scene.gltf" (morph_export_kwargs output_path) ::
                         match gltf_export host (morph_export_kwargs output_path) s' with
                         | Ok _ =>
                             [Print [Txt "✓ Export complete: ";
                                     Val (ANum (inject_Z (file_size host output_path)
                                                / (1024 * 1024)));
                                     Txt " MB"]]
                         | Raise _ => []
                         end /\
                     objects s' = objects s /\
                     selected s' = rev (List.filter (exported base_obj s)
                                          (map_to_list (objects s)).*1) /\
                     active s' = base_obj /\
                     creates 0 mid)).
  { apply export_gltf_ends. intros s' mid Hobj Hsel Hact _ _ Hmid.
    destruct (gltf_export host (morph_export_kwargs output_path) s') as [[]|e];
      exists mid; done. }
  apply ends_run in H as (r & s' & l & Hrun & mid & -> & -> & Hpost).
  exists s', mid. split; [exact Hrun | exact Hpost].
Qed.

(** X22. [create_morph_targets.main] never gets past its third step.
    From any scene and on any host it clears the scene, makes the body
    mesh and then raises the [RuntimeError] of [create_vertex_groups]:
    no variant, no shape key and no organ is made, and the exporter is
    never called.  The body is left in edit mode with one empty vertex
    group. *)
Theorem morph_main_stops_at_vertex_groups (host : Host) (s : scene) :
  exists s',
    CreateMorphTargets.main host s
      = (Raise (RuntimeError "VertexGroup.add"), s',
         morph_banner host ++
         [Op "object.select_all" [("action", AStr "SELECT")];
          Op "object.delete" [("use_global", ABool false)];
          Print [Txt "✓ Scene cleared"];
          Print [Txt "Importing base human model..."];
          Op "mesh.primitive_cube_add" [("size", AInt 2); ("location", AVec (0, 0, 1)%Q)];
          Assign (next_id s) "name" (AStr "BodyReference_BMI22");
          Assign (next_id s) "scale" (AVec (0.3, 0.2, 0.85)%Q);
          Op "object.transform_apply" [("scale", ABool true)];
          Print [Txt "✓ Base model created: "; Val (AStr "BodyReference_BMI22")];
          Print [Txt "Creating vertex groups for body regions..."];
          Op "view_layer.objects.active" [("value", ARef (next_id s))];
          Op "object.mode_set" [("mode", AStr "EDIT")];
          Op "vertex_groups.new" [("object", ARef (next_id s)); ("name", AStr "abdomen")]]) /\
    objects s' !! next_id s
      = Some (set_vertex_groups [("abdomen", [])] (base_body host)) /\
    active s' = Some (next_id s) /\
    next_id s ∈ edit_mode s' /\
    next_id s' = S (next_id s).
Proof.
  assert (H : ends (CreateMorphTargets.main host) s
                (fun r s' l =>
                   r = Raise (RuntimeError "VertexGroup.add") /\
                   l = morph_banner host ++
                       [Op "object.select_all" [("action", AStr "SELECT")];
                        Op "object.delete" [("use_global", ABool false)];
                        Print [Txt "✓ Scene cleared"];
                        Print [Txt "Importing base human model..."];
                        Op "mesh.primitive_cube_add"
                          [("size", AInt 2); ("location", AVec (0, 0, 1)%Q)];
                        Assign (next_id s) "name" (AStr "BodyReference_BMI22");
                        Assign (next_id s) "scale" (AVec (0.3, 0.2, 0.85)%Q);
                        Op "object.transform_apply" [("scale", ABool true)];
                        Print [Txt "✓ Base model created: "; Val (AStr "BodyReference_BMI22")];
                        Print [Txt "Creating vertex groups for body regions..."];
                        Op "view_layer.objects.active" [("value", ARef (next_id s))];
                        Op "object.mode_set" [("mode", AStr "EDIT")];
                        Op "vertex_groups.new"
                          [("object", ARef (next_id s)); ("name", AStr "abdomen")]] /\
                   objects s' !! next_id s
                     = Some (set_vertex_groups [("abdomen", [])] (base_body host)) /\
                   active s' = Some (next_id s) /\
                   member (next_id s) (edit_mode s') = true /\
                   next_id s' = S (next_id s))).
  { unfold CreateMorphTargets.main, CreateMorphTargets.clear_scene.
    do 5 ends_step. apply ends_after. wp_go. apply ends_after. wp_go.
    apply ends_stop. eapply create_vertex_groups_stops.
    - cbn [objects]. apply lookup_insert_eq.
    - intros s2 Hobj2 Hmat2 Hnext2 Hact2 Hmode2. cbn [objects next_id] in *.
      eexists. split; [reflexivity|]. split_and!; try done.
      by rewrite Hobj2, lookup_insert_eq. }
  apply ends_run in H as (r & s' & l & Hrun & -> & -> & Hobj & Hact & Hmode & Hnext).
  exists s'. split_and!; try done.
  unfold member in Hmode. apply existsb_exists in Hmode as (x & Hx & Hbx).
  apply Nat.eqb_eq in Hbx. subst x. by apply list_elem_of_In.
Qed.

(** ** Exports, call by call *)

Lemma export_calls_app l1 l2 :
  export_calls (l1 ++ l2) = export_calls l1 ++ export_calls l2.
Proof. unfold export_calls. apply omap_app. Qed.

Lemma export_calls_none l : no_export l -> export_calls l = [].
Proof.
  induction 1 as [|e l He _ IH]; [done|]. destruct e; try exact IH.
  cbn in He. cbn [export_calls omap list_omap]. rewrite He. exact IH.
Qed.

Lemma export_calls_lines l : Forall (fun e => is_op e = false) l -> export_calls l = [].
Proof.
  intros H. apply export_calls_none. eapply Forall_impl; [exact H|].
  by intros [] He.
Qed.

Lemma pipeline_export_calls draco n l :
  pipeline draco n l -> exists kwargs, export_calls l = [kwargs].
Proof.
  intros (pre & dk & mid & ek & post & -> & Hpre & [Hmid _] & Hpost & _).
  exists ek. rewrite !export_calls_app.
  rewrite (export_calls_lines _ Hpre), (export_calls_none _ Hmid), (export_calls_lines _ Hpost).
  reflexivity.
Qed.

Lemma export_ok_calls dir l :
  Forall (export_ok dir) l -> Forall (glb_into dir) (export_calls l).
Proof.
  induction 1 as [|e l He _ IH]; [constructor|].
  destruct e as [|name kwargs| | |]; try exact IH.
  cbn [export_calls omap list_omap]. cbn [export_ok] in He.
  destruct (String.eqb name "export_scene.gltf"); [by constructor | exact IH].
Qed.

(** A run that ends normally, with exactly one exporter call, for a
    binary GLB file directly inside [dir]. *)
Lemma one_export_into dir {A} (m : M A) s n :
  log_all (export_ok dir) m ->
  wp m s (fun _ _ l => pipeline false n l) ->
  exists a s' l kwargs,
    m s = (Ok a, s', l) /\ export_calls l = [kwargs] /\ glb_into dir kwargs.
Proof.
  intros Hsafe Hwp. apply wp_run in Hwp as (a & s' & l & Hrun & Hp).
  apply pipeline_export_calls in Hp as [kwargs Hcalls].
  exists a, s', l, kwargs. split; [exact Hrun|]. split; [exact Hcalls|].
  specialize (Hsafe s). rewrite Hrun in Hsafe. cbn in Hsafe.
  apply export_ok_calls in Hsafe. rewrite Hcalls in Hsafe. by apply Forall_cons in Hsafe as [? _].
Qed.

(** C7. The exports of the four scripts.

    Whatever the host and the scene, every exporter call a script makes
    asks for a binary file (export_format ['GLB']) at a path directly
    inside the script's output directory.

    [export_model], the BodyParts3D [export_gltf] (for a file name that
    is one path component, as the two names [main] passes) and the morph
    script's [export_gltf] each call the exporter exactly once, from any
    scene, and end as the exporter does: they return the path when it
    returns and let its exception through when it raises.  The call of
    [export_model] is for [OUTPUT_DIR / OUTPUT_FILE]; the call of the
    BodyParts3D [export_gltf] is for [MODELS_OUTPUT_DIR / output_filename]
    with Draco enabled at level 6 and quantisation 14, 10 and 12 bits for
    positions, normals and texture coordinates; the call of the morph
    script's [export_gltf] is for the path it is given.

    On a host whose shader has the two inputs and whose exporter accepts
    the call, the build script and the procedural script end normally
    with exactly one exporter call each. *)
Theorem exports_are_glb_in_output_dir (host : Host) :
  ((forall argv,
       log_all (export_ok (BuildCustomAnatomy.OUTPUT_DIR host))
               (BuildCustomAnatomy.main host argv)) /\
   log_all (export_ok (GenerateProcedural.OUTPUT_DIR host)) (GenerateProcedural.main host) /\
   log_all (export_ok (ImportBodyParts3D.MODELS_OUTPUT_DIR host)) (ImportBodyParts3D.main host) /\
   log_all (export_ok (CreateMorphTargets.OUTPUT_DIR host)) (CreateMorphTargets.main host)) /\
  (forall s,
      let p := PyPath.join (BuildCustomAnatomy.OUTPUT_DIR host) [BuildCustomAnatomy.OUTPUT_FILE] in
      exists kwargs l,
        BuildCustomAnatomy.export_model host s
          = (res_bind (gltf_export host kwargs s) (fun _ => Ok p), s, l) /\
        export_calls l = [kwargs] /\
        glb_at p kwargs /\
        PyPath.parent p = BuildCustomAnatomy.OUTPUT_DIR host) /\
  (forall output_filename s,
      plain_name output_filename = true ->
      let p := PyPath.join (ImportBodyParts3D.MODELS_OUTPUT_DIR host) [output_filename] in
      exists kwargs l,
        ImportBodyParts3D.export_gltf host output_filename s
          = (res_bind (gltf_export host kwargs s) (fun _ => Ok p), s, l) /\
        export_calls l = [kwargs] /\
        glb_at p kwargs /\
        PyPath.parent p = ImportBodyParts3D.MODELS_OUTPUT_DIR host /\
        draco_settings 6 14 10 12 kwargs) /\
  (forall base_obj output_path s,
      exists kwargs s' l,
        CreateMorphTargets.export_gltf host base_obj output_path s
          = (gltf_export host kwargs s', s', l) /\
        export_calls l = [kwargs] /\
        glb_at output_path kwargs) /\
  (shader_ready host -> exporter_accepts host ->
   (forall argv s,
       exists s' l kwargs,
         BuildCustomAnatomy.main host argv s = (Ok tt, s', l) /\
         export_calls l = [kwargs] /\
         glb_into (BuildCustomAnatomy.OUTPUT_DIR host) kwargs) /\
   (forall s,
       exists s' l kwargs,
         GenerateProcedural.main host s = (Ok tt, s', l) /\
         export_calls l = [kwargs] /\
         glb_into (GenerateProcedural.OUTPUT_DIR host) kwargs)).
Proof.
  split_and!.
  - intros argv. apply build_main_exports.
  - apply procedural_main_exports.
  - apply import_main_exports.
  - apply morph_main_exports.
  - intros s p.
    exists [("filepath", APath p); ("export_format", AStr "GLB");
            ("export_cameras", ABool false); ("export_lights", ABool false)].
    unfold BuildCustomAnatomy.export_model, Bpy.mkdir, Bpy.ops_export_gltf, Bpy.getsize,
      print, bind, emit, get, lift, ret. cbv zeta. fold p.
    destruct (gltf_export host _ s) as [[]|e]; cbn [res_bind app];
      (eexists; split; [reflexivity|]); (split; [reflexivity|]);
      (split; [by split | by apply parent_join]).
  - intros output_filename s Hname p.
    destruct (div_plain_name (ImportBodyParts3D.MODELS_OUTPUT_DIR host) _ Hname) as [Hdiv Hparent].
    exists [("filepath", APath p); ("export_format", AStr "GLB");
            ("export_textures", ABool true); ("export_normals", ABool true);
            ("export_materials", AStr "EXPORT"); ("export_colors", ABool true);
            ("export_cameras", ABool false); ("export_lights", ABool false);
            ("export_apply", ABool true); ("export_yup", ABool true);
            ("export_draco_mesh_compression_enable", ABool true);
            ("export_draco_mesh_compression_level", AInt 6);
            ("export_draco_position_quantization", AInt 14);
            ("export_draco_normal_quantization", AInt 10);
            ("export_draco_texcoord_quantization", AInt 12)].
    unfold ImportBodyParts3D.export_gltf, Bpy.mkdir, Bpy.ops_export_gltf, Bpy.getsize,
      print, bind, emit, get, lift, ret. cbv zeta. rewrite Hdiv. fold p.
    destruct (gltf_export host _ s) as [[]|e]; cbn [res_bind app];
      (eexists; split; [reflexivity|]); (split; [reflexivity|]);
      (split; [by split|]); (split; [exact Hparent | by repeat split]).
  - intros base_obj output_path s.
    pose proof (export_gltf_ends host base_obj output_path s
                  (fun r s' l =>
                     r = gltf_export host (morph_export_kwargs output_path) s' /\
                     export_calls l = [morph_export_kwargs output_path])) as H.
    apply ends_run in H as (r & s' & l & Hrun & -> & Hcalls).
    + exists (morph_export_kwargs output_path), s', l. by repeat split.
    + intros s' mid _ _ _ _ _ [Hmid _].
      destruct (gltf_export host (morph_export_kwargs output_path) s') as [[]|e];
        (split; [reflexivity|]); rewrite export_calls_app, (export_calls_none _ Hmid);
        reflexivity.
  - intros Hready Hexp. split.
    + intros argv s.
      destruct (one_export_into (BuildCustomAnatomy.OUTPUT_DIR host)
                  (BuildCustomAnatomy.main host argv) s 17) as ([] & s' & l & kwargs & H).
      * apply build_main_exports.
      * eapply wp_mono; [by apply build_main_ok|]. by intros [] s' l [Hp _].
      * by exists s', l, kwargs.
    + intros s.
      destruct (one_export_into (GenerateProcedural.OUTPUT_DIR host)
                  (GenerateProcedural.main host) s 37) as ([] & s' & l & kwargs & H).
      * apply procedural_main_exports.
      * by apply procedural_main_pipeline.
      * by exists s', l, kwargs.
Qed.

Lemma exports_are_glb_in_output_dir_witness :
  plain_name "human_anatomy_high.glb" = true /\
  (let p := PyPath.join (ImportBodyParts3D.MODELS_OUTPUT_DIR SampleHost.host)
              ["human_anatomy_high.glb"] in
   exists kwargs l,
     ImportBodyParts3D.export_gltf SampleHost.host "human_anatomy_high.glb" empty_scene
       = (res_bind (gltf_export SampleHost.host kwargs empty_scene) (fun _ => Ok p),
          empty_scene, l) /\
     export_calls l = [kwargs] /\
     glb_at p kwargs /\
     PyPath.parent p = ImportBodyParts3D.MODELS_OUTPUT_DIR SampleHost.host /\
     draco_settings 6 14 10 12 kwargs) /\
  (exists s' l kwargs,
      GenerateProcedural.main SampleHost.host empty_scene = (Ok tt, s', l) /\
      export_calls l = [kwargs] /\
      glb_into (GenerateProcedural.OUTPUT_DIR SampleHost.host) kwargs).
Proof.
  split; [reflexivity|].
  pose proof (exports_are_glb_in_output_dir SampleHost.host) as (_ & _ & Himport & _ & Hmains).
  split.
  - apply (Himport "human_anatomy_high.glb" empty_scene). reflexivity.
  - apply (proj2 (Hmains sample_host_ready sample_host_accepts) empty_scene).
Defined.
